(** * Deb package installer for Arch Linux: a shallow embedding of
      [deb_installer_gui.py] and the properties of its installation worker.

    The program supervises external tools ([which], [sudo], [yay], [paru],
    [pamac], [debtap], [pacman]) and reports to a Qt front end through
    signals.  The embedding keeps the structure of the Python code:

    - text is [string]; the Python string methods the program calls
      ([lower], [rstrip], [strip], [split], [startswith], [endswith],
      [in]) are written out on it.  Characters outside ASCII are carried
      along unchanged: they are neither whitespace nor letters here;
    - the Qt signals are [Event]s appended to a log, next to a record of the
      actions on child processes (spawn, write to stdin, kill) and on the
      file system (removal of a tree);
    - everything the program cannot decide by itself (file sizes, the result
      of [which], what a child process prints and how it exits, the clock)
      is answered by an environment [Env]; every property below holds for
      all environments;
    - Python exceptions are the [Raise] outcome of a state-and-error monad
      [M]; [try_except], [try_except_timeout] and [try_finally] are the
      handlers of the source;
    - a child process is a finite script of what the worker reads from it,
      with its exit status, the seconds it runs and what it does to the
      directories.  Every child exits: a child that never does would block
      the worker's read loops for good, and such a run ends nowhere;
    - the file system is the set of directories with the names they list,
      which is what the worker creates, lists and removes.

    The first part of the file is the program, the second part the
    vocabulary of the properties and a few concrete environments
    ([Scenario]) on which the program is run, the third part the
    properties with their proofs. *)

From stdpp Require Import base strings gmap list pretty.
From Stdlib Require Import Ascii String ZArith QArith Qround Qminmax Lia.

Local Open Scope string_scope.
Local Open Scope Z_scope.

(* ================================================================== *)
(** ** Python string operations *)
(* ================================================================== *)

Module PyStr.

(** A Python [str] is held as the bytes of its UTF-8 encoding.  Searching,
    splitting at an ASCII character and comparing then work on the bytes as
    they do on the characters; whitespace needs the characters, which take
    one, two or three bytes.

    [c.isspace()] on the ASCII range: TAB, LF, VT, FF, CR, the four
    separators 0x1c-0x1f and the space. *)
Definition isspace (c : ascii) : bool :=
  let n := N_of_ascii c in
  ((9 <=? n)%N && (n <=? 13)%N) || ((28 <=? n)%N && (n <=? 32)%N).

(** The whitespace characters of two bytes: U+0085 (C2 85) and U+00A0
    (C2 A0). *)
Definition isspace2 (a b : ascii) : bool :=
  let x := N_of_ascii a in
  let y := N_of_ascii b in
  ((x =? 194) && ((y =? 133) || (y =? 160)))%N.

(** The whitespace characters of three bytes: U+1680 (E1 9A 80),
    U+2000-U+200A (E2 80 80-8A), U+2028, U+2029, U+202F (E2 80 A8, A9, AF),
    U+205F (E2 81 9F) and U+3000 (E3 80 80). *)
Definition isspace3 (a b c : ascii) : bool :=
  let x := N_of_ascii a in
  let y := N_of_ascii b in
  let z := N_of_ascii c in
  (((x =? 225) && (y =? 154) && (z =? 128))
   || ((x =? 226) && (y =? 128)
       && (((128 <=? z) && (z <=? 138)) || (z =? 168) || (z =? 169) || (z =? 175)))
   || ((x =? 226) && (y =? 129) && (z =? 159))
   || ((x =? 227) && (y =? 128) && (z =? 128)))%N.

(** Every character of [s] is whitespace ([not s.strip()]); true of the
    empty string. *)
Fixpoint whitespace_only (s : string) : bool :=
  match s with
  | EmptyString => true
  | String a r =>
      if isspace a then whitespace_only r
      else match r with
           | String b r2 =>
               if isspace2 a b then whitespace_only r2
               else match r2 with
                    | String c r3 => isspace3 a b c && whitespace_only r3
                    | EmptyString => false
                    end
           | EmptyString => false
           end
  end.

(** [c.lower()]: the letters A-Z are moved to a-z, all else is kept.  The
    program looks for ASCII phrases in lowered text only, and the lower-case
    forms of the letters beyond ASCII hold no ASCII letter, with two
    exceptions that are not modelled: U+212A (the Kelvin sign, lowered to
    "k") and U+0130 (lowered to "i" and a combining dot). *)
Definition lower_char (c : ascii) : ascii :=
  let n := N_of_ascii c in
  if ((65 <=? n)%N && (n <=? 90)%N) then ascii_of_N (n + 32) else c.

(** [s.lower()] *)
Fixpoint lower (s : string) : string :=
  match s with
  | EmptyString => EmptyString
  | String c r => String (lower_char c) (lower r)
  end.

(** [s.startswith(p)] *)
Fixpoint startswith (p s : string) : bool :=
  match p, s with
  | EmptyString, _ => true
  | String _ _, EmptyString => false
  | String a p', String b s' => Ascii.eqb a b && startswith p' s'
  end.

(** [p in s] *)
Fixpoint contains (p s : string) : bool :=
  startswith p s ||
  match s with
  | EmptyString => false
  | String _ r => contains p r
  end.

(** [s.endswith(p)] *)
Fixpoint endswith (p s : string) : bool :=
  String.eqb p s ||
  match s with
  | EmptyString => false
  | String _ r => endswith p r
  end.

(** [s.lstrip()]: whitespace characters are dropped from the left. *)
Fixpoint lstrip (s : string) : string :=
  match s with
  | EmptyString => EmptyString
  | String a r =>
      if isspace a then lstrip r
      else match r with
           | String b r2 =>
               if isspace2 a b then lstrip r2
               else match r2 with
                    | String c r3 => if isspace3 a b c then lstrip r3 else s
                    | EmptyString => s
                    end
           | EmptyString => s
           end
  end.

(** [s.rstrip()]: the text is cut where nothing but whitespace follows. *)
Fixpoint rstrip (s : string) : string :=
  match s with
  | EmptyString => EmptyString
  | String c r => if whitespace_only s then EmptyString else String c (rstrip r)
  end.

(** [s.strip()] *)
Definition strip (s : string) : string := rstrip (lstrip s).

(** [s.split(sep)] for a one-character separator: never the empty list. *)
Fixpoint split (sep : ascii) (s : string) : list string :=
  match s with
  | EmptyString => [EmptyString]
  | String c r =>
      if Ascii.eqb c sep then EmptyString :: split sep r
      else match split sep r with
           | [] => [String c EmptyString]
           | h :: t => String c h :: t
           end
  end.

(** Python truthiness of a string: [if s:] *)
Definition truthy (s : string) : bool :=
  match s with EmptyString => false | _ => true end.

(** [sep.join(l)] *)
Definition join (sep : string) (l : list string) : string := String.concat sep l.

(** ["c" * n] *)
Fixpoint repeat_char (c : ascii) (n : nat) : string :=
  match n with O => EmptyString | S k => String c (repeat_char c k) end.

Definition LF : ascii := ascii_of_N 10.
Definition nl : string := String LF EmptyString.

End PyStr.

(** [os.path.basename(p)]: what follows the last slash. *)
Definition basename (p : string) : string :=
  List.last (PyStr.split "/"%char p) EmptyString.

(** [os.path.join(a, b)] *)
Definition path_join (a b : string) : string :=
  if PyStr.startswith "/" b then b
  else if PyStr.truthy a && negb (PyStr.endswith "/" a) then a +:+ "/" +:+ b
  else a +:+ b.

(* ================================================================== *)
(** ** Time estimates ([InstallWorker.run], the first lines of the [try]) *)
(* ================================================================== *)

(** The size in MB is [os.path.getsize(path) / (1024 * 1024)], a float.
    Dividing an integer below 2^53 by 2^20 and multiplying by 2 or by 0.5
    only move the binary exponent, so these float operations are exact and
    a rational carries the same value.  Beyond 2^53 bytes the float is
    rounded and the rational is not. *)
Definition file_size_mb (bytes : Z) : Q := Qmake bytes 1048576.

(** [int(x)] on a float: truncation towards zero. *)
Definition py_int (x : Q) : Z := Z.quot (Qnum x) (Zpos (Qden x)).

(** [conversion_time = max(10, int(file_size_mb * 2))] *)
Definition conversion_time (size_mb : Q) : Z :=
  Z.max 10 (py_int (size_mb * 2)).

(** [install_time = max(5, int(file_size_mb * 0.5))] *)
Definition install_time (size_mb : Q) : Z :=
  Z.max 5 (py_int (size_mb * (1 # 2))).

(** [total_estimated = conversion_time + install_time + 5] *)
Definition total_estimated (size_mb : Q) : Z :=
  conversion_time size_mb + install_time size_mb + 5.

(* ================================================================== *)
(** ** Log messages *)
(* ================================================================== *)

(** The pictograms that open many log messages, byte for byte as the source
    file has them. *)
Module Glyph.
Definition package : string := "ðŸ“¦".
Definition note : string := "ðŸ“".
Definition clock : string := "â±ï¸".
Definition cross : string := "âŒ".
Definition check : string := "âœ…".
Definition cycle : string := "ðŸ”„".
Definition inbox : string := "ðŸ“¥".
Definition lock : string := "ðŸ”".
Definition party : string := "ðŸŽ‰".
Definition broom : string := "ðŸ§¹".
Definition wrench : string := "ðŸ”§".
Definition warn : string := "âš ï¸".
Definition bulb : string := "ðŸ’¡".
Definition arrow : string := "â†’".
End Glyph.

(* ================================================================== *)
(** ** Signals, child processes and the state of a run *)
(* ================================================================== *)

(** The slots of the main window that [QTimer.singleShot] is given. *)
Inductive Slot : Type :=
| GetSudoPassword
| ConfirmAndInstall
| SelectFile.

Inductive Icon : Type :=
| Critical
| Information.

(** What the program does to the outside, in the order it does it: the five
    Qt signals of [InstallWorker], the actions on child processes and on
    the file system that the properties speak about, and what the main
    window does while it validates the password. *)
Inductive Event : Type :=
| ProgressUpdate (msg : string)                  (* progress_update.emit *)
| ProgressValue (pct : Z)                        (* progress_value.emit *)
| TimeUpdate (msg : string)                      (* time_update.emit *)
| ConsoleOutput (msg : string)                   (* console_output.emit *)
| Finished (ok : bool) (msg : string)            (* finished.emit *)
| Spawned (argv : list string)                   (* subprocess.Popen(argv) *)
| StdinWrite (argv : list string) (data : string)(* data accepted on a child's stdin *)
| Killed (argv : list string)                    (* process.kill() *)
| Rmtree (path : string)                         (* shutil.rmtree(path, ignore_errors=True) *)
| ConsoleAppend (msg : string)                   (* self.console_text.append *)
| MessageBox (icon : Icon) (title text : string) (* QMessageBox.critical / information *)
| SingleShot (ms : Z) (slot : Slot)              (* QTimer.singleShot *)
| AppQuit.                                       (* QApplication.quit() *)

(** Python exceptions: [subprocess.TimeoutExpired] has a handler of its own
    in the source, every other exception is an [Exception] with its text. *)
Inductive Exn : Type :=
| TimeoutExpired
| Error (msg : string).

(** [str(e)] *)
Definition exn_str (e : Exn) : string :=
  match e with
  | TimeoutExpired => "Command timed out"
  | Error msg => msg
  end.

Inductive Result (A : Type) : Type :=
| Ok (a : A)
| Raise (e : Exn).
Arguments Ok {A} a.
Arguments Raise {A} e.

(** The directories that exist, each with the names it lists. *)
Abbreviation Dirs := (gmap string (list string)).

(** The behaviour of one child process, as the worker observes it.  A
    child is read either line by line in a polling loop ([c_lines],
    [c_last], [c_rest]) or at once by [communicate] ([c_stdout],
    [c_stderr]).  Children exit after [c_duration] seconds: a child that
    never exits would block the worker's read loops forever and has no run
    to speak about.  The lines of a polling loop arrive as text: a
    [readline()] that raises because the output cannot be decoded is not
    modelled. *)
Record Child : Type := mkChild {
  c_lines : list string;   (* stdout.readline() while poll() is still None *)
  c_last : string;         (* stdout.readline() in the iteration where poll() sees the exit *)
  c_rest : string;         (* stdout.read() after the exit *)
  c_stdout : string;       (* first component of communicate() *)
  c_stderr : string;       (* second component of communicate() *)
  c_comm_error : option string; (* communicate() fails for another reason, such as undecodable output *)
  c_duration : Z;          (* seconds until the child exits by itself *)
  c_returncode : Z;        (* process.returncode after the exit *)
  c_effect : Dirs -> Dirs  (* what the child has done to the directories when it exits *)
}.

(** A [subprocess.Popen] object: the command line and the child behind it. *)
Record Process : Type := mkProcess {
  p_argv : list string;
  p_child : Child
}.

(** The mutable state a run works on: the two attributes of the worker that
    are assigned during [run], the directories, the current directory of
    the process, and the log of events, oldest first. *)
Record State : Type := mkState {
  temp_dir : option string;   (* self.temp_dir, None until mkdtemp *)
  start_time : option Q;      (* self.start_time *)
  dirs : Dirs;
  cwd : string;
  log : list Event
}.

Definition set_temp_dir (d : option string) (s : State) : State :=
  mkState d (start_time s) (dirs s) (cwd s) (log s).
Definition set_start_time (t : option Q) (s : State) : State :=
  mkState (temp_dir s) t (dirs s) (cwd s) (log s).
Definition set_dirs (d : Dirs) (s : State) : State :=
  mkState (temp_dir s) (start_time s) d (cwd s) (log s).
Definition set_cwd (c : string) (s : State) : State :=
  mkState (temp_dir s) (start_time s) (dirs s) c (log s).
Definition add_log (e : Event) (s : State) : State :=
  mkState (temp_dir s) (start_time s) (dirs s) (cwd s) (log s ++ [e])%list.

(** The environment: the answers of the operating system.  Each answer may
    depend on everything that has happened so far. *)
Record Env : Type := mkEnv {
  env_time : State -> Q;                               (* time.time() *)
  env_fmt1 : Q -> string;                              (* f"{x:.1f}" *)
  env_getsize : string -> State -> Result Z;           (* os.path.getsize(path) *)
  env_which : string -> State -> Result Z;             (* subprocess.run(['which', name]).returncode *)
  env_popen : list string -> State -> Result Child;    (* subprocess.Popen(argv, ...) *)
  env_stdin_ok : list string -> string -> State -> bool; (* does a write to the child's stdin go through *)
  env_mkdtemp : string -> State -> Result string;      (* tempfile.mkdtemp(prefix=...) *)
  env_copy2 : string -> string -> State -> Result unit;(* shutil.copy2(src, dst) *)
  env_rmtree_ok : string -> State -> bool;             (* does the removal of the tree go through *)
  env_dialog : State -> option string                  (* the password dialog: the text if accepted *)
}.

(** The immutable attributes of an [InstallWorker]. *)
Record Worker : Type := mkWorker {
  deb_file_path : string;
  sudo_password : option string
}.

(* ================================================================== *)
(** ** The monad of the worker: state and exceptions *)
(* ================================================================== *)

Definition M (A : Type) : Type := State -> Result A * State.

Definition ret {A} (a : A) : M A := fun s => (Ok a, s).

Definition bind {A B} (m : M A) (k : A -> M B) : M B :=
  fun s => match m s with
           | (Ok a, s') => k a s'
           | (Raise e, s') => (Raise e, s')
           end.

Definition raise {A} (e : Exn) : M A := fun s => (Raise e, s).

(** [try: m except Exception as e: h e] *)
Definition try_except {A} (m : M A) (h : Exn -> M A) : M A :=
  fun s => match m s with
           | (Ok a, s') => (Ok a, s')
           | (Raise e, s') => h e s'
           end.

(** [try: m finally: fin]: the [finally] block runs on every way out, and
    an exception of its own takes the place of the pending outcome. *)
Definition try_finally {A} (m : M A) (fin : M unit) : M A :=
  fun s => match m s with
           | (r, s') => match fin s' with
                        | (Ok _, s'') => (r, s'')
                        | (Raise e, s'') => (Raise e, s'')
                        end
           end.

Declare Scope worker_scope.
Delimit Scope worker_scope with worker.
Notation "x <- m ;; k" := (bind m (fun x => k))
  (at level 100, m at next level, k at level 200, right associativity) : worker_scope.
Notation "m ;; k" := (bind m (fun _ => k))
  (at level 100, k at level 200, right associativity) : worker_scope.
Local Open Scope worker_scope.

Definition get_state : M State := fun s => (Ok s, s).
Definition modify (f : State -> State) : M unit := fun s => (Ok tt, f s).
Definition emit (e : Event) : M unit := modify (add_log e).

(** An answer of the environment, which is a value or an exception. *)
Definition ask {A} (q : State -> Result A) : M A := fun s => (q s, s).

(** [for x in l: body x] *)
Fixpoint for_each {A} (l : list A) (body : A -> M unit) : M unit :=
  match l with
  | [] => ret tt
  | x :: r => body x ;; for_each r body
  end.

(** [if cond: m] *)
Definition when (cond : bool) (m : M unit) : M unit :=
  if cond then m else ret tt.

(* ================================================================== *)
(** ** Paths *)
(* ================================================================== *)

(** [p[:p.rfind('/') + 1]]: the part up to and including the last slash. *)
Fixpoint path_head (p : string) : string :=
  match p with
  | EmptyString => EmptyString
  | String c r =>
      if Ascii.eqb c "/" || PyStr.contains "/" r then String c (path_head r)
      else EmptyString
  end.

(** Trailing slashes removed, unless there is nothing but slashes. *)
Fixpoint rstrip_slashes (p : string) : string :=
  match p with
  | EmptyString => EmptyString
  | String c r =>
      match rstrip_slashes r with
      | EmptyString => if Ascii.eqb c "/" then EmptyString else String c EmptyString
      | r' => String c r'
      end
  end.

(** [os.path.dirname(p)] *)
Definition dirname (p : string) : string :=
  let head := path_head p in
  match rstrip_slashes head with
  | EmptyString => head
  | h => h
  end.

(* ================================================================== *)
(** ** The operations of the worker on the outside world *)
(* ================================================================== *)

Section Primitives.

Variable E : Env.

(** [time.time()] *)
Definition now : M Q := fun s => (Ok (env_time E s), s).

(** [self.console_output.emit(msg)] *)
Definition console (msg : string) : M unit := emit (ConsoleOutput msg).

(** [subprocess.run(['which', name], capture_output=True, text=True).returncode]:
    a look-up that [subprocess.run] starts and waits for.  It is a question
    to the environment and leaves no event: [Spawned] records the calls of
    [subprocess.Popen] that the program makes itself. *)
Definition which (name : string) : M Z := ask (env_which E name).

(** [subprocess.Popen(argv, stdin=PIPE, stdout=PIPE, ...)] *)
Definition popen (argv : list string) : M Process :=
  c <- ask (env_popen E argv) ;;
  emit (Spawned argv) ;;
  ret (mkProcess argv c).

(** [process.stdin.write(data); process.stdin.flush()]: the data reach the
    child, or the pipe is broken and the write raises. *)
Definition stdin_write (p : Process) (data : string) : M unit :=
  fun s =>
    if env_stdin_ok E (p_argv p) data s
    then (Ok tt, add_log (StdinWrite (p_argv p) data) s)
    else (Raise (Error "[Errno 32] Broken pipe"), s).

(** The moment the worker observes that the child has exited: what the
    child did to the directories is there from now on. *)
Definition process_exited (p : Process) : M unit :=
  modify (fun s => set_dirs (c_effect (p_child p) (dirs s)) s).

(** [process.kill()] *)
Definition kill (p : Process) : M unit := emit (Killed (p_argv p)).

(** [process.communicate(input=..., timeout=...)]: the input is written (a
    broken pipe is ignored here, as [communicate] does), then the child is
    waited for.  With a timeout of [t] seconds a child that needs longer
    raises [TimeoutExpired]. *)
Definition communicate (p : Process) (input : string) (timeout : option Z)
  : M (string * string) :=
  try_except (stdin_write p input) (fun _ => ret tt) ;;
  let c := p_child p in
  let expired := match timeout with
                 | Some t => negb (c_duration c <=? t)
                 | None => false
                 end in
  if expired then raise TimeoutExpired
  else
    process_exited p ;;
    match c_comm_error c with
    | Some msg => raise (Error msg)
    | None => ret (c_stdout c, c_stderr c)
    end.

(** [os.path.getsize(path)] *)
Definition getsize (path : string) : M Z := ask (env_getsize E path).

(** [os.path.exists(path)], for a directory *)
Definition path_exists (path : string) : M bool :=
  s <- get_state ;;
  ret (bool_decide (is_Some (dirs s !! path))).

Definition no_such_file (path : string) : Exn :=
  Error ("[Errno 2] No such file or directory: '" +:+ path +:+ "'").

(** [os.listdir(path)] *)
Definition listdir (path : string) : M (list string) :=
  fun s => match dirs s !! path with
           | Some names => (Ok names, s)
           | None => (Raise (no_such_file path), s)
           end.

(** [os.getcwd()], for a process that is in a directory that exists: in a
    directory that has been removed the call raises, which is not
    modelled. *)
Definition getcwd : M string := s <- get_state ;; ret (cwd s).

(** [os.chdir(path)] *)
Definition chdir (path : string) : M unit :=
  fun s => match dirs s !! path with
           | Some _ => (Ok tt, set_cwd path s)
           | None => (Raise (no_such_file path), s)
           end.

(** [tempfile.mkdtemp(prefix=...)]: a new, empty directory. *)
Definition mkdtemp (prefix : string) : M string :=
  d <- ask (env_mkdtemp E prefix) ;;
  modify (fun s => set_dirs (<[d := []]> (dirs s)) s) ;;
  ret d.

(** [shutil.copy2(src, dst)]: the directory of [dst] lists one more name. *)
Definition copy2 (src dst : string) : M unit :=
  ask (env_copy2 E src dst) ;;
  fun s => match dirs s !! dirname dst with
           | Some names =>
               (Ok tt, set_dirs (<[dirname dst := basename dst :: names]> (dirs s)) s)
           | None => (Raise (no_such_file dst), s)
           end.

(** [shutil.rmtree(path, ignore_errors=True)]: the tree is removed, or the
    removal fails and the error is ignored; no exception either way. *)
Definition rmtree_ignore_errors (path : string) : M unit :=
  fun s =>
    let s' := if env_rmtree_ok E path s then set_dirs (delete path (dirs s)) s else s in
    (Ok tt, add_log (Rmtree path) s').

End Primitives.

(* ================================================================== *)
(** ** [class InstallWorker] *)
(* ================================================================== *)

(** The candidates of [install_debtap], in the order of the source. *)
Definition package_managers : list (list string * string) :=
  [ (["yay"; "-S"; "--noconfirm"; "debtap"], "yay");
    (["paru"; "-S"; "--noconfirm"; "debtap"], "paru");
    (["pamac"; "install"; "--no-confirm"; "debtap"], "pamac") ].

(** The phrases [install_arch_package] answers to. *)
Definition confirmation_phrases : list string :=
  [ "proceed with installation"; "continue?"; "[y/n]"; "replace"; "conflict" ].

(** [any(phrase in line.lower() for phrase in [...])] *)
Definition is_prompt (line : string) : bool :=
  existsb (fun phrase => PyStr.contains phrase (PyStr.lower line)) confirmation_phrases.

(** [file.endswith('.pkg.tar.zst') or file.endswith('.pkg.tar.xz')] *)
Definition is_pkg_file (file : string) : bool :=
  PyStr.endswith ".pkg.tar.zst" file || PyStr.endswith ".pkg.tar.xz" file.

(** [cmd[0]] *)
Definition first_arg (cmd : list string) : M string :=
  match cmd with
  | c0 :: _ => ret c0
  | [] => raise (Error "list index out of range")
  end.

(** [for x in l: out += body x], for the loops that fill a list. *)
Fixpoint collect {A B} (l : list A) (body : A -> M (list B)) : M (list B) :=
  match l with
  | [] => ret []
  | x :: r => a <- body x ;; b <- collect r body ;; ret (a ++ b)%list
  end.

Section InstallWorker.

Variable E : Env.
Variable self : Worker.

(** [run_sudo_command]: [None] without a password, else the started
    process, the password already written to its stdin. *)
Definition run_sudo_command (cmd : list string) : M (option Process) :=
  match sudo_password self with
  | None => ret None
  | Some pw =>
      if negb (PyStr.truthy pw) then ret None
      else
        let sudo_cmd := (["sudo"; "-S"] ++ cmd)%list in
        process <- popen E sudo_cmd ;;
        stdin_write E process (pw +:+ PyStr.nl) ;;
        ret (Some process)
  end.

(** One [readline()] result in the streaming loops of [install_debtap]. *)
Definition redacted_line (line : string) : M unit :=
  when (PyStr.truthy line)
    (let line := PyStr.rstrip line in
     when (PyStr.truthy line && negb (PyStr.contains "password" (PyStr.lower line)))
       (console ("  " +:+ line))).

(** What [stdout.read()] returns after the exit, in the same loops. *)
Definition redacted_rest (remaining : string) : M unit :=
  when (PyStr.truthy remaining)
    (for_each (PyStr.split PyStr.LF remaining) (fun line =>
       when (PyStr.truthy (PyStr.strip line)
             && negb (PyStr.contains "password" (PyStr.lower line)))
         (console ("  " +:+ PyStr.rstrip line)))).

(** The [while True] loop that streams the output of a backend install and
    of the database update: the source has the same loop twice (the list
    [install_output] filled by the first one is never read).  The loop is
    run on a child that exits and whose lines can be read. *)
Definition stream_redacted (process : Process) : M unit :=
  for_each (c_lines (p_child process)) redacted_line ;;
  redacted_line (c_last (p_child process)) ;;
  process_exited process ;;
  redacted_rest (c_rest (p_child process)).

(** The database update after a verified install: every way through it is
    followed by [return True]. *)
Definition update_database : M unit :=
  console (Glyph.cycle +:+ " Updating debtap database...") ;;
  try_except
    (started <- run_sudo_command ["debtap"; "-u"] ;;
     match started with
     | None => console (Glyph.warn +:+ "  Could not start database update")
     | Some update_process =>
         stream_redacted update_process ;;
         if c_returncode (p_child update_process) =? 0
         then console (Glyph.check +:+ " debtap database updated successfully!")
         else
           console (Glyph.warn +:+ "  Database update had issues, but debtap is installed") ;;
           console (Glyph.bulb +:+ " You can update manually later with: sudo debtap -u")
     end)
    (fun e => console (Glyph.warn +:+ "  Database update error: " +:+ exn_str e)).

(** The body of [for cmd, manager_name in package_managers]: [true] stands
    for [return True], [false] for going on with the next candidate. *)
Definition try_manager (cand : list string * string) : M bool :=
  let '(cmd, manager_name) := cand in
  try_except
    (cmd0 <- first_arg cmd ;;
     check_rc <- which E cmd0 ;;
     if negb (check_rc =? 0) then ret false
     else
       console (Glyph.package +:+ " Found " +:+ manager_name +:+ ", installing debtap...") ;;
       started <- run_sudo_command cmd ;;
       match started with
       | None =>
           console (Glyph.cross +:+ " Could not start installation process") ;;
           ret false
       | Some process =>
           stream_redacted process ;;
           let returncode := c_returncode (p_child process) in
           if returncode =? 0 then
             console (Glyph.check +:+ " debtap installation completed!") ;;
             verify_rc <- which E "debtap" ;;
             if verify_rc =? 0 then
               console (Glyph.check +:+ " debtap installation verified!") ;;
               update_database ;;
               ret true
             else
               console (Glyph.cross +:+ " Installation completed but debtap still not found") ;;
               ret false
           else
             console (Glyph.cross +:+ " " +:+ manager_name
                      +:+ " installation failed (exit code: " +:+ pretty returncode +:+ ")") ;;
             ret false
       end)
    (fun e =>
       console (Glyph.cross +:+ " Error with " +:+ manager_name +:+ ": " +:+ exn_str e) ;;
       ret false).

(** The [for] loop over the candidates. *)
Fixpoint try_managers (cands : list (list string * string)) : M bool :=
  match cands with
  | [] => ret false
  | cand :: rest =>
      installed <- try_manager cand ;;
      if installed then ret true else try_managers rest
  end.

(** The diagnostic after all candidates have failed. *)
Definition report_managers : M unit :=
  console (Glyph.cross +:+ " Auto-installation failed with all package managers") ;;
  console (Glyph.bulb +:+ " Please install debtap manually:") ;;
  console "   yay -S debtap" ;;
  console "   sudo debtap -u" ;;
  console "" ;;
  console (Glyph.lock +:+ " Available package managers checked:") ;;
  for_each package_managers (fun cand =>
    let '(cmd, name) := cand in
    try_except
      (cmd0 <- first_arg cmd ;;
       rc <- which E cmd0 ;;
       if rc =? 0 then console ("   " +:+ Glyph.check +:+ " " +:+ name +:+ " - available")
       else raise (Error "Command returned non-zero exit status"))
      (fun _ => console ("   " +:+ Glyph.cross +:+ " " +:+ name +:+ " - not found"))).

(** [install_debtap] *)
Definition install_debtap : M bool :=
  console (Glyph.wrench +:+ " Auto-installing debtap...") ;;
  installed <- try_managers package_managers ;;
  if installed then ret true
  else report_managers ;; ret false.

(** [check_debtap] *)
Definition check_debtap : M bool :=
  try_except
    (rc <- which E "debtap" ;;
     if rc =? 0 then
       console (Glyph.check +:+ " debtap found and ready!") ;;
       ret true
     else
       console (Glyph.cross +:+ " debtap not found, attempting auto-install...") ;;
       install_debtap)
    (fun e =>
       console (Glyph.cross +:+ " Error checking debtap: " +:+ exn_str e) ;;
       console (Glyph.wrench +:+ " Attempting to install debtap...") ;;
       install_debtap).

(** [try: m except subprocess.TimeoutExpired: h]: only the timeout is
    handled here, any other exception goes on to the enclosing handler. *)
Definition try_except_timeout {A} (m : M A) (h : M A) : M A :=
  fun s => match m s with
           | (Raise TimeoutExpired, s') => h s'
           | other => other
           end.

(** [self.temp_dir] as the argument of [os.chdir]: [None] is a [TypeError],
    with the text it has on Linux. *)
Definition self_temp_dir : M string :=
  s <- get_state ;;
  match temp_dir s with
  | Some d => ret d
  | None =>
      raise (Error "chdir: path should be string, bytes, os.PathLike or integer, not NoneType")
  end.

(** [convert_deb_package]: the path of the generated package, or [None].
    The environment variable [DEBTAP_NOCOLOR] handed to the child is part
    of what the environment answers for the command line. *)
Definition convert_deb_package (temp_deb_path : string) : M (option string) :=
  try_except
    (original_cwd <- getcwd ;;
     work_dir <- self_temp_dir ;;
     chdir work_dir ;;
     let deb_filename := basename temp_deb_path in
     let package_name := hd "" (PyStr.split "_" deb_filename) in
     console (Glyph.package +:+ " Detected package name: " +:+ package_name) ;;
     let cmd := ["debtap"; "-Q"; deb_filename] in
     process <- popen E cmd ;;
     let default_answers := package_name +:+ PyStr.nl +:+ PyStr.nl +:+ PyStr.nl in
     in_time <-
       try_except_timeout
         (out <- communicate E process default_answers (Some 300) ;;
          for_each (PyStr.split PyStr.LF (fst out)) (fun line =>
            let line := PyStr.strip line in
            when (PyStr.truthy line && negb (PyStr.startswith "==>" line))
              (console line)) ;;
          ret true)
         (kill process ;;
          console (Glyph.cross +:+ " Conversion timed out after 5 minutes") ;;
          ret false) ;;
     if negb in_time then ret None
     else
       chdir original_cwd ;;
       let returncode := c_returncode (p_child process) in
       if negb (returncode =? 0) then
         console (Glyph.cross +:+ " debtap failed with return code: " +:+ pretty returncode) ;;
         ret None
       else
         files <- listdir work_dir ;;
         let pkg_files := List.filter is_pkg_file files in
         match pkg_files with
         | [] =>
             console (Glyph.cross +:+ " No package file generated") ;;
             console "Files in temp directory:" ;;
             files <- listdir work_dir ;;
             for_each files (fun file => console ("  - " +:+ file)) ;;
             ret None
         | pkg_file :: _ =>
             console (Glyph.check +:+ " Found generated package: " +:+ pkg_file) ;;
             ret (Some (path_join work_dir pkg_file))
         end)
    (fun e =>
       console ("Exception during conversion: " +:+ exn_str e) ;;
       ret None).

(** One [readline()] result in the loop of [install_arch_package]: the
    lines it appends to [output_lines]. *)
Definition answer_line (process : Process) (line : string) : M (list string) :=
  if PyStr.truthy line then
    let line := PyStr.rstrip line in
    console line ;;
    when (is_prompt line)
      (try_except
         (stdin_write E process ("y" +:+ PyStr.nl) ;;
          console (Glyph.arrow +:+ " Automatically answered 'y'"))
         (fun _ => ret tt)) ;;
    ret [line]
  else ret [].

(** What [stdout.read()] returns after the exit, in the same function. *)
Definition remaining_lines (remaining : string) : M (list string) :=
  if PyStr.truthy remaining then
    collect (PyStr.split PyStr.LF remaining) (fun line =>
      if PyStr.truthy (PyStr.strip line) then
        console (PyStr.rstrip line) ;; ret [line]
      else ret [])
  else ret [].

(** The [while True] loop of [install_arch_package]: the result is the
    list [output_lines].  The loop is run on a child that exits and whose
    lines can be read. *)
Definition stream_answering (process : Process) : M (list string) :=
  polled <- collect (c_lines (p_child process)) (answer_line process) ;;
  last <- answer_line process (c_last (p_child process)) ;;
  process_exited process ;;
  rest <- remaining_lines (c_rest (p_child process)) ;;
  ret (polled ++ last ++ rest)%list.

(** The hint that follows a failed install, chosen from its output. *)
Definition failure_tip (output_text : string) : M unit :=
  if PyStr.contains "conflicting files" output_text then
    console (Glyph.bulb +:+ " Tip: Package conflicts with existing files")
  else if PyStr.contains "dependency" output_text then
    console (Glyph.bulb +:+ " Tip: Missing dependencies - try installing them first")
  else if PyStr.contains "signature" output_text then
    console (Glyph.bulb +:+ " Tip: Signature issues - package might be corrupted")
  else if PyStr.contains "disk space" output_text || PyStr.contains "no space" output_text then
    console (Glyph.bulb +:+ " Tip: Insufficient disk space")
  else ret tt.

(** [install_arch_package] *)
Definition install_arch_package (package_path : string) : M bool :=
  try_except
    (let cmd := ["pacman"; "-U"; "--noconfirm"; "--needed"; package_path] in
     console (Glyph.lock +:+ " Running: sudo " +:+ PyStr.join " " cmd) ;;
     started <- run_sudo_command cmd ;;
     match started with
     | None =>
         console (Glyph.cross +:+ " Could not start installation process") ;;
         ret false
     | Some process =>
         output_lines <- stream_answering process ;;
         let return_code := c_returncode (p_child process) in
         if return_code =? 0 then
           console (Glyph.check +:+ " Package installed successfully!") ;;
           ret true
         else
           console (Glyph.cross +:+ " Installation failed with return code: "
                    +:+ pretty return_code) ;;
           failure_tip (PyStr.lower (PyStr.join PyStr.nl output_lines)) ;;
           ret false
     end)
    (fun e =>
       console ("Exception during installation: " +:+ exn_str e) ;;
       ret false).

Definition rule (c : ascii) : string := PyStr.repeat_char c 50.

(** [f"{x:.1f}"] *)
Definition fmt1 (x : Q) : string := env_fmt1 E x.

(** [time.time() - t0] *)
Definition elapsed_since (t0 : Q) : M Q := t <- now E ;; ret (t - t0)%Q.

(** The [try] block of [run].  The two [return] statements of the source
    are the branches that end without going on. *)
Definition run_body : M unit :=
  bytes <- getsize E (deb_file_path self) ;;
  let size_mb := file_size_mb bytes in
  let conversion_secs := conversion_time size_mb in
  let total_secs := total_estimated size_mb in
  console (Glyph.package +:+ " Package: " +:+ basename (deb_file_path self)) ;;
  console (Glyph.note +:+ " Size: " +:+ fmt1 size_mb +:+ " MB") ;;
  console (Glyph.clock +:+ "  Estimated time: ~" +:+ pretty total_secs +:+ " seconds" +:+ PyStr.nl) ;;
  emit (TimeUpdate ("Estimated time: ~" +:+ pretty total_secs +:+ " seconds")) ;;
  (* Step 1: check if debtap is installed *)
  emit (ProgressUpdate "Checking for debtap...") ;;
  emit (ProgressValue 5) ;;
  console (rule "=") ;;
  console "STEP 1/4: Checking debtap" ;;
  console (rule "=") ;;
  step_start <- now E ;;
  ready <- check_debtap ;;
  if negb ready then
    console (Glyph.cross +:+ " debtap setup failed!") ;;
    emit (Finished false "debtap setup failed! Please check the console output for details.")
  else
    step_time <- elapsed_since step_start ;;
    console (Glyph.check +:+ " debtap ready! (" +:+ fmt1 step_time +:+ "s)" +:+ PyStr.nl) ;;
    emit (TimeUpdate ("debtap check completed in " +:+ fmt1 step_time +:+ "s")) ;;
    (* Step 2: create temporary directory *)
    emit (ProgressUpdate "Preparing workspace...") ;;
    emit (ProgressValue 10) ;;
    console (rule "=") ;;
    console "STEP 2/4: Preparing workspace" ;;
    console (rule "=") ;;
    work_dir <- mkdtemp E "deb_installer_" ;;
    modify (set_temp_dir (Some work_dir)) ;;
    console (Glyph.note +:+ " Working directory: " +:+ work_dir) ;;
    (* Step 3: copy file *)
    emit (ProgressUpdate "Copying package file...") ;;
    emit (ProgressValue 15) ;;
    step_start <- now E ;;
    let deb_filename := basename (deb_file_path self) in
    let temp_deb_path := path_join work_dir deb_filename in
    copy2 E (deb_file_path self) temp_deb_path ;;
    step_time <- elapsed_since step_start ;;
    console (Glyph.check +:+ " File copied in " +:+ fmt1 step_time +:+ "s" +:+ PyStr.nl) ;;
    emit (TimeUpdate ("File copied in " +:+ fmt1 step_time +:+ "s")) ;;
    (* Step 4: convert .deb to Arch package *)
    emit (ProgressUpdate ("Converting package... (est. " +:+ pretty conversion_secs +:+ "s)")) ;;
    emit (ProgressValue 20) ;;
    console (rule "=") ;;
    console "STEP 3/4: Converting package" ;;
    console (rule "=") ;;
    console (Glyph.cycle +:+ " Converting " +:+ deb_filename +:+ " to Arch package...") ;;
    console (Glyph.note +:+ " Running: debtap -q " +:+ deb_filename) ;;
    console (rule "-") ;;
    step_start <- now E ;;
    converted <- convert_deb_package temp_deb_path ;;
    step_time <- elapsed_since step_start ;;
    match converted with
    | None =>
        console (Glyph.cross +:+ " Conversion failed after " +:+ fmt1 step_time +:+ "s") ;;
        emit (Finished false ("Failed to convert .deb package after " +:+ fmt1 step_time +:+ "s"))
    | Some arch_package =>
        pkg_bytes <- getsize E arch_package ;;
        let pkg_size_mb := file_size_mb pkg_bytes in
        console (rule "-") ;;
        console (Glyph.check +:+ " Conversion completed in " +:+ fmt1 step_time +:+ "s") ;;
        console (Glyph.package +:+ " Generated: " +:+ basename arch_package
                 +:+ " (" +:+ fmt1 pkg_size_mb +:+ " MB)" +:+ PyStr.nl) ;;
        emit (TimeUpdate ("Conversion completed in " +:+ fmt1 step_time +:+ "s")) ;;
        emit (ProgressValue 70) ;;
        (* Step 5: install the converted package *)
        emit (ProgressUpdate ("Installing package... (" +:+ fmt1 pkg_size_mb +:+ " MB)")) ;;
        emit (ProgressValue 75) ;;
        console (rule "=") ;;
        console "STEP 4/4: Installing package" ;;
        console (rule "=") ;;
        console (Glyph.inbox +:+ " Installing " +:+ basename arch_package +:+ "...") ;;
        console (Glyph.lock +:+ " Running: sudo pacman -U --noconfirm") ;;
        console (rule "-") ;;
        step_start <- now E ;;
        installed <- install_arch_package arch_package ;;
        if installed then
          step_time <- elapsed_since step_start ;;
          s <- get_state ;;
          total_time <- elapsed_since (default 0%Q (start_time s)) ;;
          console (rule "-") ;;
          console (Glyph.check +:+ " Installation completed in " +:+ fmt1 step_time +:+ "s") ;;
          console (PyStr.nl +:+ rule "=") ;;
          console (Glyph.party +:+ " SUCCESS!") ;;
          console (rule "=") ;;
          console (Glyph.clock +:+ "  Total time: " +:+ fmt1 total_time +:+ " seconds") ;;
          emit (ProgressUpdate "Installation completed!") ;;
          emit (ProgressValue 100) ;;
          emit (TimeUpdate ("Total time: " +:+ fmt1 total_time +:+ "s")) ;;
          emit (Finished true ("Package installed successfully!" +:+ PyStr.nl
                               +:+ "Total time: " +:+ fmt1 total_time +:+ " seconds"))
        else
          step_time <- elapsed_since step_start ;;
          console (rule "-") ;;
          console (Glyph.cross +:+ " Installation failed after " +:+ fmt1 step_time +:+ "s") ;;
          emit (Finished false ("Failed to install package after " +:+ fmt1 step_time +:+ "s"))
    end.

(** The [except Exception as e] block of [run]. *)
Definition run_except (e : Exn) : M unit :=
  s <- get_state ;;
  total_time <- match start_time s with
                | Some t0 => if Qeq_bool t0 0 then ret 0%Q else elapsed_since t0
                | None => ret 0%Q
                end ;;
  console (PyStr.nl +:+ Glyph.cross +:+ " Error after " +:+ fmt1 total_time +:+ "s: " +:+ exn_str e) ;;
  emit (Finished false ("Error after " +:+ fmt1 total_time +:+ "s: " +:+ exn_str e)).

(** The [finally] block of [run]. *)
Definition cleanup : M unit :=
  s <- get_state ;;
  match temp_dir s with
  | None => ret tt
  | Some d =>
      there <- path_exists d ;;
      when (PyStr.truthy d && there)
        (console (PyStr.nl +:+ Glyph.broom +:+ " Cleaning up temporary files...") ;;
         rmtree_ignore_errors E d ;;
         console (Glyph.check +:+ " Cleanup complete"))
  end.

(** [InstallWorker.run] *)
Definition run : M unit :=
  t0 <- now E ;;
  modify (set_start_time (Some t0)) ;;
  try_finally (try_except run_body run_except) cleanup.

End InstallWorker.

(* ================================================================== *)
(** ** [class DebInstallerGUI]: the validation of the password *)
(* ================================================================== *)

Section DebInstallerGUI.

Variable E : Env.

(** [self.deb_file_path] of the window, [None] when no file was given. *)
Variable gui_deb_file_path : option string.

Definition console_append (msg : string) : M unit := emit (ConsoleAppend msg).

(** What follows the two successful probes. *)
Definition continue_flow : M unit :=
  match gui_deb_file_path with
  | Some path =>
      if PyStr.truthy path then emit (SingleShot 500 ConfirmAndInstall)
      else emit (SingleShot 500 SelectFile)
  | None => emit (SingleShot 500 SelectFile)
  end.

(** The branch of a failed [sudo -S -v]. *)
Definition authentication_failed (stderr : string) : M unit :=
  let error_msg := if PyStr.truthy stderr then PyStr.strip stderr else "Unknown error" in
  console_append (Glyph.cross +:+ " Authentication failed: " +:+ error_msg) ;;
  if PyStr.contains "incorrect password" (PyStr.lower error_msg)
     || PyStr.contains "sorry" (PyStr.lower error_msg) then
    emit (MessageBox Critical "Incorrect Password"
            ("The password you entered is incorrect." +:+ PyStr.nl +:+ "Please try again.")) ;;
    emit (SingleShot 500 GetSudoPassword)
  else if PyStr.contains "not in the sudoers file" (PyStr.lower error_msg) then
    emit (MessageBox Critical "Permission Denied"
            ("Your user account is not in the sudoers file." +:+ PyStr.nl
             +:+ "Please contact your system administrator.")) ;;
    emit AppQuit
  else
    emit (MessageBox Critical "Authentication Failed"
            ("Authentication failed: " +:+ error_msg +:+ PyStr.nl +:+ "Please try again.")) ;;
    emit (SingleShot 500 GetSudoPassword).

(** The two probes, inside the [try] of the source. *)
Definition validate_password (password : string) : M unit :=
  try_except
    (process <- popen E ["sudo"; "-S"; "-v"] ;;
     out <- communicate E process (password +:+ PyStr.nl) None ;;
     if c_returncode (p_child process) =? 0 then
       console_append (Glyph.check +:+ " Password validation successful") ;;
       test_process <- popen E ["sudo"; "-S"; "whoami"] ;;
       test_out <- communicate E test_process (password +:+ PyStr.nl) None ;;
       if (c_returncode (p_child test_process) =? 0) && PyStr.contains "root" (fst test_out) then
         console_append (Glyph.check +:+ " Administrator access confirmed") ;;
         continue_flow
       else
         console_append (Glyph.cross +:+ " Failed to execute sudo commands") ;;
         emit (MessageBox Critical "Authentication Failed"
                 ("Password accepted but cannot execute sudo commands." +:+ PyStr.nl
                  +:+ "Please check your sudo permissions.")) ;;
         emit (SingleShot 500 GetSudoPassword)
     else authentication_failed (snd out))
    (fun e =>
       console_append (Glyph.cross +:+ " Authentication error: " +:+ exn_str e) ;;
       emit (MessageBox Critical "Error"
               ("Authentication error: " +:+ exn_str e +:+ PyStr.nl +:+ "Please try again.")) ;;
       emit (SingleShot 500 GetSudoPassword)).

(** [get_sudo_password], given the value of [self.sudo_password] before the
    call; the result is its value after the call. *)
Definition get_sudo_password (old_password : option string) : M (option string) :=
  answer <- (fun s => (Ok (env_dialog E s), s)) ;;
  match answer with
  | Some password =>
      console_append (Glyph.lock +:+ " Validating administrator credentials...") ;;
      (if negb (PyStr.truthy (PyStr.strip password)) then
         emit (MessageBox Critical "Invalid Password" "Password cannot be empty.") ;;
         emit (SingleShot 500 GetSudoPassword)
       else validate_password password) ;;
      ret (Some password)
  | None =>
      emit (MessageBox Information "Access Required"
              "Administrator access is required to install packages.") ;;
      emit AppQuit ;;
      ret old_password
  end.

End DebInstallerGUI.

(* ================================================================== *)
(** ** Vocabulary of the properties *)
(* ================================================================== *)

(** The lines a polling loop gets from [readline()], in order. *)
Definition polled_lines (c : Child) : list string :=
  (c_lines c ++ [c_last c])%list.

(** The lines a polling loop gets from the final [read()], in order. *)
Definition rest_lines (c : Child) : list string :=
  if PyStr.truthy (c_rest c) then PyStr.split PyStr.LF (c_rest c) else [].

(** Every line of output a polling loop sees. *)
Definition output_lines (c : Child) : list string :=
  (polled_lines c ++ rest_lines c)%list.

(** A line has something other than whitespace on it. *)
Definition nonblank (line : string) : bool := PyStr.truthy (PyStr.rstrip line).

(** A line mentions "password", in any letter case. *)
Definition mentions_password (line : string) : bool :=
  PyStr.contains "password" (PyStr.lower line).

(** A text given by the bytes of its UTF-8 encoding. *)
Definition of_bytes (l : list Z) : string :=
  fold_right (fun n r => String (ascii_of_N (Z.to_N n)) r) EmptyString l.

(** A pattern is solid when it does not end in whitespace: none of its
    ends is whitespace only. *)
Fixpoint solid (p : string) : bool :=
  match p with
  | EmptyString => true
  | String _ r => negb (PyStr.whitespace_only p) && solid r
  end.

(** The bytes of UTF-8: those of 128 and above belong to a character of
    several bytes, and of these the ones below 192 continue a character. *)
Definition high (c : ascii) : bool := (128 <=? N_of_ascii c)%N.
Definition cont (c : ascii) : bool :=
  ((128 <=? N_of_ascii c) && (N_of_ascii c <? 192))%N.

(** An ASCII character that is not whitespace; a text that ends in one; a
    text that holds none. *)
Definition plain_byte (c : ascii) : bool :=
  negb (PyStr.isspace c) && (N_of_ascii c <? 128)%N.
Fixpoint ends_plain (p : string) : bool :=
  match p with
  | EmptyString => false
  | String c EmptyString => plain_byte c
  | String _ r => ends_plain r
  end.
Fixpoint soft (w : string) : bool :=
  match w with
  | EmptyString => true
  | String c r => negb (plain_byte c) && soft r
  end.

(** The events a computation adds to the log of a state. *)
Definition emitted {A} (m : M A) (s : State) : list Event :=
  drop (List.length (log s)) (log (snd (m s))).

(** A computation that, from every state, returns [a] and adds exactly the
    events [evs] to the log. *)
Definition appends {A} (m : M A) (a : A) (evs : list Event) : Prop :=
  forall s, fst (m s) = Ok a /\ log (snd (m s)) = (log s ++ evs)%list.

(** What the redacting loops let through: a line is shown when it is not
    blank and does not mention "password". *)
Definition shown (line : string) : bool :=
  nonblank line && negb (mentions_password line).

(** The log line the redacting loops show a line as. *)
Definition indented (line : string) : Event :=
  ConsoleOutput ("  " +:+ PyStr.rstrip line).

(** The events one line of output leaves in the log of a redacting loop. *)
Definition show_if (line : string) : list Event :=
  if shown line then [indented line] else [].

(** Several events appended to the log at once. *)
Definition add_logs (evs : list Event) (s : State) : State :=
  mkState (temp_dir s) (start_time s) (dirs s) (cwd s) (log s ++ evs)%list.

(** The answer [install_arch_package] gives to a prompt, and the note that
    follows it. *)
Definition affirmative : string := "y" +:+ PyStr.nl.
Definition answer_note : Event :=
  ConsoleOutput (Glyph.arrow +:+ " Automatically answered 'y'").

(** The log line [install_arch_package] shows a line of output as. *)
Definition plain (line : string) : Event := ConsoleOutput (PyStr.rstrip line).

(** What one [readline()] result leaves in the log of the install loop when
    the state before it is [s]: nothing for the empty string; else the line
    and, if the line is a prompt, the answer and its note, provided the
    write goes through. *)
Definition reaction (E : Env) (argv : list string) (line : string) (s : State)
  : list Event :=
  if PyStr.truthy line then
    plain line ::
    (if is_prompt (PyStr.rstrip line) then
       if env_stdin_ok E argv affirmative (add_log (plain line) s)
       then [StdinWrite argv affirmative; answer_note]
       else []
     else [])
  else [].

(** The reactions to a sequence of [readline()] results, each in the state
    the earlier ones have left. *)
Fixpoint reactions (E : Env) (argv : list string) (lines : list string) (s : State)
  : list Event :=
  match lines with
  | [] => []
  | line :: rest =>
      let evs := reaction E argv line s in
      (evs ++ reactions E argv rest (add_logs evs s))%list
  end.

(** What one [readline()] result adds to [output_lines]. *)
Definition kept (line : string) : list string :=
  if PyStr.truthy line then [PyStr.rstrip line] else [].

(** A computation that ends normally from every state and adds at least
    the events [must] to the log. *)
Definition adds {A} (m : M A) (must : list Event) : Prop :=
  forall s, exists a s' evs,
    m s = (Ok a, s') /\ log s' = (log s ++ evs)%list /\ incl must evs.

(** The command line [install_arch_package] hands to [run_sudo_command]. *)
Definition pacman_cmd (package_path : string) : list string :=
  ["pacman"; "-U"; "--noconfirm"; "--needed"; package_path].

(** The first line [install_arch_package] logs. *)
Definition running_note (package_path : string) : Event :=
  ConsoleOutput (Glyph.lock +:+ " Running: sudo " +:+ PyStr.join " " (pacman_cmd package_path)).

(** The lines [install_debtap] logs around a backend install. *)
Definition auto_install_note : Event :=
  ConsoleOutput (Glyph.wrench +:+ " Auto-installing debtap...").
Definition found_note (manager_name : string) : Event :=
  ConsoleOutput (Glyph.package +:+ " Found " +:+ manager_name +:+ ", installing debtap...").
Definition completed_note : Event :=
  ConsoleOutput (Glyph.check +:+ " debtap installation completed!").

(** The attempt with one candidate succeeds from the state [s]: the manager
    is on the path, its install process is started and exits with status
    zero, and the check that follows finds debtap on the path. *)
Definition attempt_succeeds (E : Env) (self : Worker)
    (cand : list string * string) (s : State) : Prop :=
  exists cmd0 process s2,
    head (fst cand) = Some cmd0 /\
    env_which E cmd0 s = Ok 0 /\
    run_sudo_command E self (fst cand) (add_log (found_note (snd cand)) s)
      = (Ok (Some process), s2) /\
    c_returncode (p_child process) = 0 /\
    env_which E "debtap" (add_log completed_note (snd (stream_redacted process s2))) = Ok 0.

(** The candidates are tried one after the other from [s] and each one
    fails: the state the last one leaves. *)
Fixpoint all_fail (E : Env) (self : Worker)
    (cands : list (list string * string)) (s : State) : option State :=
  match cands with
  | [] => Some s
  | cand :: rest =>
      match try_manager E self cand s with
      | (Ok false, s') => all_fail E self rest s'
      | _ => None
      end
  end.

(** A computation that, from every state, returns [a] and changes nothing
    but the log, to which it adds [evs]. *)
Definition writes {A} (m : M A) (a : A) (evs : list Event) : Prop :=
  forall s, m s = (Ok a, add_logs evs s).

(** [convert_deb_package]: the command line, the answers for debtap's
    prompts and the fixed log lines. *)
Definition package_name_of (temp_deb_path : string) : string :=
  hd "" (PyStr.split "_" (basename temp_deb_path)).
Definition debtap_cmd (temp_deb_path : string) : list string :=
  ["debtap"; "-Q"; basename temp_deb_path].
Definition default_answers (temp_deb_path : string) : string :=
  package_name_of temp_deb_path +:+ PyStr.nl +:+ PyStr.nl +:+ PyStr.nl.
Definition detected_note (temp_deb_path : string) : Event :=
  ConsoleOutput (Glyph.package +:+ " Detected package name: " +:+ package_name_of temp_deb_path).
Definition timed_out_note : Event :=
  ConsoleOutput (Glyph.cross +:+ " Conversion timed out after 5 minutes").
Definition no_package_note : Event :=
  ConsoleOutput (Glyph.cross +:+ " No package file generated").
Definition files_note : Event := ConsoleOutput "Files in temp directory:".
Definition listed (file : string) : Event := ConsoleOutput ("  - " +:+ file).
Definition conversion_exception_note (e : Exn) : Event :=
  ConsoleOutput ("Exception during conversion: " +:+ exn_str e).

(** The state in which [convert_deb_package] starts debtap: the process has
    changed into the working directory and the package name is logged. *)
Definition entered (work_dir temp_deb_path : string) (s : State) : State :=
  add_log (detected_note temp_deb_path) (set_cwd work_dir s).

(** The state in which [communicate] waits for debtap: the process is
    started and the answers are written, if its stdin takes them. *)
Definition answered (E : Env) (work_dir temp_deb_path : string) (s : State) : State :=
  let cmd := debtap_cmd temp_deb_path in
  let s2 := add_log (Spawned cmd) (entered work_dir temp_deb_path s) in
  if env_stdin_ok E cmd (default_answers temp_deb_path) s2
  then add_log (StdinWrite cmd (default_answers temp_deb_path)) s2
  else s2.

(** What [convert_deb_package] logs of debtap's output. *)
Definition converter_line (line : string) : list Event :=
  let line := PyStr.strip line in
  if PyStr.truthy line && negb (PyStr.startswith "==>" line)
  then [ConsoleOutput line] else [].
Definition converter_output (stdout : string) : list Event :=
  flat_map converter_line (PyStr.split PyStr.LF stdout).

(** The state in which [convert_deb_package] goes back to the directory it
    came from: debtap has exited in time and its output is logged. *)
Definition converted (E : Env) (work_dir temp_deb_path : string) (c : Child) (s : State)
  : State :=
  add_logs (converter_output (c_stdout c))
    (set_dirs (c_effect c (dirs s)) (answered E work_dir temp_deb_path s)).

(** Does [convert_deb_package] get back to the directory it came from:
    debtap has been started, has exited within the 300 seconds and
    [communicate] has not failed otherwise, and the directory is still
    there. *)
Definition gets_back (E : Env) (work_dir temp_deb_path : string) (s : State) : bool :=
  match env_popen E (debtap_cmd temp_deb_path) (entered work_dir temp_deb_path s) with
  | Raise _ => false
  | Ok c =>
      (c_duration c <=? 300)
      && bool_decide (c_comm_error c = None)
      && bool_decide (is_Some (c_effect c (dirs s) !! cwd s))
  end.

(** The state in which [convert_deb_package] looks for the package: it is
    back in the directory it came from. *)
Definition returned (E : Env) (work_dir temp_deb_path : string) (c : Child) (s : State)
  : State :=
  set_cwd (cwd s) (converted E work_dir temp_deb_path c s).

(** The state of a run when its [finally] block begins: what the [try]
    block and, after an exception, the [except] block have left. *)
Definition before_cleanup (E : Env) (self : Worker) (s : State) : State :=
  snd (try_except (run_body E self) (run_except E)
         (set_start_time (Some (env_time E s)) s)).

(** The two log lines around the removal of the working directory. *)
Definition cleaning_note : Event :=
  ConsoleOutput (PyStr.nl +:+ Glyph.broom +:+ " Cleaning up temporary files...").
Definition cleaned_note : Event :=
  ConsoleOutput (Glyph.check +:+ " Cleanup complete").

(** A computation that, from every state, only adds events to the log,
    and only events that satisfy [P]. *)
Definition only (P : Event -> Prop) {A} (m : M A) : Prop :=
  forall s, exists evs, log (snd (m s)) = (log s ++ evs)%list /\ Forall P evs.

(** [get_sudo_password]: the two probes and the fixed events. *)
Definition sudo_validate : list string := ["sudo"; "-S"; "-v"].
Definition sudo_whoami : list string := ["sudo"; "-S"; "whoami"].
Definition validating_note : Event :=
  ConsoleAppend (Glyph.lock +:+ " Validating administrator credentials...").
Definition password_ok_note : Event :=
  ConsoleAppend (Glyph.check +:+ " Password validation successful").

(** The validation has succeeded: one of the two slots that go on with the
    installation is scheduled. *)
Definition continuation (ev : Event) : Prop :=
  ev = SingleShot 500 ConfirmAndInstall \/ ev = SingleShot 500 SelectFile.
Definition continues (evs : list Event) : Prop := Exists continuation evs.

(** The state after a probe [argv] that was started in [s], was given
    [input] and has exited. *)
Definition probed (E : Env) (argv : list string) (input : string) (c : Child) (s : State)
  : State :=
  let s2 := add_log (Spawned argv) s in
  let s3 := if env_stdin_ok E argv input s2 then add_log (StdinWrite argv input) s2 else s2 in
  set_dirs (c_effect c (dirs s3)) s3.

(** Both probes run to their end and exit with status zero, and the second
    one prints "root"; [s] is the state in which the first one is started. *)
Definition probes_pass (E : Env) (password : string) (s : State) : Prop :=
  exists c1 c2,
    env_popen E sudo_validate s = Ok c1 /\
    c_comm_error c1 = None /\
    c_returncode c1 = 0 /\
    env_popen E sudo_whoami
      (add_log password_ok_note (probed E sudo_validate (password +:+ PyStr.nl) c1 s)) = Ok c2 /\
    c_comm_error c2 = None /\
    c_returncode c2 = 0 /\
    PyStr.contains "root" (c_stdout c2) = true.

(** An event that does not go on with the installation. *)
Definition quiet (ev : Event) : Prop := ~ continuation ev.

(** Since the state [s0], the log has grown to that of [s] without an event
    that goes on with the installation. *)
Definition quiet_since (s0 s : State) : Prop :=
  exists pre, log s = (log s0 ++ pre)%list /\ Forall quiet pre.

(** A string without any character that is not whitespace. *)
Definition all_space (l : string) : bool := PyStr.whitespace_only l.

(** An event other than the killing of a process. *)
Definition not_killed (ev : Event) : Prop :=
  match ev with Killed _ => False | _ => True end.

(** *** What a run may leave in the log *)

(** A command line that goes through sudo, and one that runs debtap on a
    package. *)
Definition to_sudo (argv : list string) : Prop :=
  exists cmd, argv = "sudo" :: "-S" :: cmd.
Definition to_debtap (argv : list string) : Prop :=
  exists temp_deb_path, argv = debtap_cmd temp_deb_path.

(** The worker holds a password that is not empty. *)
Definition has_password (self : Worker) : Prop :=
  exists pw, sudo_password self = Some pw /\ PyStr.truthy pw = true.

(** The events of the steps of a run ([check_debtap], [convert_deb_package],
    [install_arch_package] and what they call): log lines; processes that
    are either sudo, started only with a password, or debtap on a package; on the stdin of sudo the
    password line or the answer "y", on the stdin of debtap the three
    default answers; and no process killed but debtap. *)
Definition step_event (self : Worker) (ev : Event) : Prop :=
  match ev with
  | ConsoleOutput _ => True
  | Spawned argv => (to_sudo argv /\ has_password self) \/ to_debtap argv
  | StdinWrite argv data =>
      (to_sudo argv /\
       ((exists pw, sudo_password self = Some pw /\ data = pw +:+ PyStr.nl)
        \/ data = affirmative))
      \/ (exists temp_deb_path,
            argv = debtap_cmd temp_deb_path /\ data = default_answers temp_deb_path)
  | Killed argv => to_debtap argv
  | _ => False
  end.

(** The events of a whole run: those of its steps, the other four signals
    of the worker, and the removal of the working directory. *)
Definition worker_event (self : Worker) (ev : Event) : Prop :=
  match ev with
  | ProgressUpdate _ | ProgressValue _ | TimeUpdate _ | Finished _ _ | Rmtree _ => True
  | _ => step_event self ev
  end.

(** The terminal results in a list of events. *)
Definition is_finished (ev : Event) : bool :=
  match ev with Finished _ _ => true | _ => false end.
Definition results (evs : list Event) : list Event := List.filter is_finished evs.

(** The percentages in a list of events, in order. *)
Definition progress_of (evs : list Event) : list Z :=
  flat_map (fun ev => match ev with ProgressValue pct => [pct] | _ => [] end) evs.

(** The percentages of a run that goes through all its steps. *)
Definition progress_marks : list Z := [5; 10; 15; 20; 70; 75; 100].

(** The removals of a tree in a list of events. *)
Definition is_rmtree (ev : Event) : bool :=
  match ev with Rmtree _ => true | _ => false end.

(** A computation that adds exactly one event of the kind [f] to the log
    when it ends normally, and none when it raises. *)
Definition once (f : Event -> bool) {A} (m : M A) : Prop :=
  forall s, exists evs,
    log (snd (m s)) = (log s ++ evs)%list /\
    match fst (m s) with
    | Ok _ => List.length (List.filter f evs) = 1%nat
    | Raise _ => List.filter f evs = []
    end.

(** An event that is not of the kind [f]. *)
Definition other_than (f : Event -> bool) (ev : Event) : Prop := f ev = false.

(** A computation whose percentages are, in order, the first ones of [marks]. *)
Definition stages {A} (m : M A) (marks : list Z) : Prop :=
  forall s, exists evs,
    log (snd (m s)) = (log s ++ evs)%list /\ progress_of evs `prefix_of` marks.

(** An event that is no terminal result, no percentage, no removal. *)
Definition no_result : Event -> Prop := other_than is_finished.
Definition no_progress (ev : Event) : Prop := progress_of [ev] = [].
Definition no_removal : Event -> Prop := other_than is_rmtree.

(** The log lines of [check_debtap]. *)
Definition debtap_ready_note : Event :=
  ConsoleOutput (Glyph.check +:+ " debtap found and ready!").
Definition debtap_missing_note : Event :=
  ConsoleOutput (Glyph.cross +:+ " debtap not found, attempting auto-install...").
Definition debtap_check_error_notes (e : Exn) : list Event :=
  [ConsoleOutput (Glyph.cross +:+ " Error checking debtap: " +:+ exn_str e);
   ConsoleOutput (Glyph.wrench +:+ " Attempting to install debtap...")].

(** pacman behind sudo is started for [package_path] from the state in
    which [install_arch_package] has logged its command line, and exits
    with status zero. *)
Definition pacman_succeeds (E : Env) (self : Worker) (package_path : string) (s : State)
  : Prop :=
  exists process s2,
    run_sudo_command E self (pacman_cmd package_path) (add_log (running_note package_path) s)
      = (Ok (Some process), s2) /\
    c_returncode (p_child process) = 0.

(** The event that reports a successful installation. *)
Definition is_success (ev : Event) : bool :=
  match ev with Finished true _ => true | _ => false end.
Definition reports_success (evs : list Event) : bool := existsb is_success evs.

(** Among the events [evs] added to a log [l] is the command line of
    [install_arch_package] for a package, logged from a state [s1] whose
    log is [l] and the events before it, and from which pacman succeeds. *)
Definition after_pacman (E : Env) (self : Worker) (l evs : list Event) : Prop :=
  exists package_path s1 pre post,
    pacman_succeeds E self package_path s1 /\
    log s1 = (l ++ pre)%list /\
    evs = (pre ++ running_note package_path :: post)%list.

(** A computation that reports success only after such a pacman. *)
Definition vouched (E : Env) (self : Worker) {A} (m : M A) : Prop :=
  forall s, exists evs,
    log (snd (m s)) = (log s ++ evs)%list /\
    (reports_success evs = true -> after_pacman E self (log s) evs).


(** A line mentions a phrase, in any letter case. *)
Definition mentions (phrase line : string) : bool :=
  PyStr.contains phrase (PyStr.lower line).

(** The two log lines that end a failed install whose output names a file
    conflict. *)
Definition failed_note (return_code : Z) : Event :=
  ConsoleOutput (Glyph.cross +:+ " Installation failed with return code: "
                 +:+ pretty return_code).
Definition conflict_tip : Event :=
  ConsoleOutput (Glyph.bulb +:+ " Tip: Package conflicts with existing files").

(** The events by which the window hands over to what comes next: a slot
    scheduled with [QTimer.singleShot], or the end of the application. *)
Definition is_next (ev : Event) : bool :=
  match ev with SingleShot _ _ | AppQuit => true | _ => false end.

(** The progress bar is set to its full value. *)
Definition is_complete (ev : Event) : bool :=
  match ev with ProgressValue v => v =? 100 | _ => false end.
Definition reports_complete (evs : list Event) : bool := existsb is_complete evs.

(** Either of the two: the full progress bar or the report of success. *)
Definition is_milestone (ev : Event) : bool := is_complete ev || is_success ev.

(** The progress bar is full in [evs] exactly when success is reported. *)
Definition agrees (evs : list Event) : Prop :=
  reports_complete evs = reports_success evs.
Definition agree {A} (m : M A) : Prop :=
  forall s, exists evs, log (snd (m s)) = (log s ++ evs)%list /\ agrees evs.

(** The end of the application. *)
Definition is_quit (ev : Event) : bool :=
  match ev with AppQuit => true | _ => false end.

(** What [get_sudo_password] makes of the error output of a failed
    [sudo -S -v], and whether it reads it as a refusal for good: the text
    names the sudoers file and neither "incorrect password" nor "sorry". *)
Definition error_text (stderr : string) : string :=
  if PyStr.truthy stderr then PyStr.strip stderr else "Unknown error".
Definition denies (stderr : string) : bool :=
  let msg := PyStr.lower (error_text stderr) in
  negb (PyStr.contains "incorrect password" msg || PyStr.contains "sorry" msg)
  && PyStr.contains "not in the sudoers file" msg.

(** The two ways in which [get_sudo_password] ends the application from
    the state [s]: the dialog is cancelled, or the first probe is started
    for a password that is not blank, runs to its end with a status other
    than zero and an error output that denies access for good. *)
Definition quits (E : Env) (s : State) : Prop :=
  env_dialog E s = None \/
  exists password c,
    env_dialog E s = Some password /\
    all_space password = false /\
    env_popen E sudo_validate (add_log validating_note s) = Ok c /\
    c_comm_error c = None /\
    c_returncode c <> 0 /\
    denies (c_stderr c) = true.

(** Since the state [s0], the log has grown to that of [s] by events that
    are not of the kind [f]. *)
Definition since (f : Event -> bool) (s0 s : State) : Prop :=
  exists pre, log s = (log s0 ++ pre)%list /\ Forall (other_than f) pre.

(** The state in which the [try] block of [run] starts: the clock has been
    read and the start time is set. *)
Definition started (E : Env) (s : State) : State :=
  set_start_time (Some (env_time E s)) s.

(** The result [run] reports for an exception [e] of its [try] block. *)
Definition error_result (E : Env) (total_time : Q) (e : Exn) : Event :=
  Finished false ("Error after " +:+ env_fmt1 E total_time +:+ "s: " +:+ exn_str e).

(** A computation that, when it ends normally, has a result as the last
    event it added. *)
Definition ends_with_result {A} (m : M A) : Prop :=
  forall s, exists evs,
    log (snd (m s)) = (log s ++ evs)%list /\
    match fst (m s) with
    | Ok _ => exists before ok msg, evs = (before ++ [Finished ok msg])%list
    | Raise _ => True
    end.

(** What a run may do to a child, with the command line of debtap spelled
    out: a process it starts is a sudo command line or debtap on the file
    name of the input, what it writes goes to sudo or is the answers that
    begin with the package name of the input, and what it kills is that
    debtap. *)
Definition named_event (self : Worker) (ev : Event) : Prop :=
  let cmd := ["debtap"; "-Q"; basename (deb_file_path self)] in
  match ev with
  | Spawned argv => to_sudo argv \/ argv = cmd
  | StdinWrite argv data =>
      to_sudo argv \/
      (argv = cmd /\
       data = package_name_of (deb_file_path self) +:+ PyStr.nl +:+ PyStr.nl +:+ PyStr.nl)
  | Killed argv => argv = cmd
  | _ => True
  end.

(** sudo takes the password and runs pacman on [package_path]: the worker
    holds the password [pw], which is not empty, the command line is
    started from the state [s] as the child [c], and the password and a
    newline go through to it. *)
Definition pacman_started (E : Env) (self : Worker) (package_path : string) (s : State)
    (pw : string) (c : Child) : Prop :=
  let argv := "sudo" :: "-S" :: pacman_cmd package_path in
  sudo_password self = Some pw /\
  PyStr.truthy pw = true /\
  env_popen E argv s = Ok c /\
  env_stdin_ok E argv (pw +:+ PyStr.nl) (add_log (Spawned argv) s) = true.

(* ================================================================== *)
(** ** Scenarios: concrete environments, used to run the program *)
(* ================================================================== *)

Module Scenario.

(** A child that prints [lines] while it is polled, leaves [rest] to be
    read after its exit, gives [out] to [communicate], and exits with [rc]
    after [secs] seconds, having done [effect] to the directories. *)
Definition child (lines : list string) (rest : string) (out : string)
    (secs rc : Z) (effect : Dirs -> Dirs) : Child :=
  {| c_lines := lines; c_last := ""; c_rest := rest;
     c_stdout := out; c_stderr := ""; c_comm_error := None;
     c_duration := secs; c_returncode := rc; c_effect := effect |}.

(** An environment given by what [which] answers, what the children do and
    which data their stdin accepts; the clock stands still. *)
Definition env (which : string -> Result Z) (popen : list string -> Result Child)
    (stdin_ok : string -> bool) : Env :=
  {| env_time := fun _ => 0%Q;
     env_fmt1 := fun _ => "0.0";
     env_getsize := fun _ _ => Ok 10485760;
     env_which := fun name _ => which name;
     env_popen := fun argv _ => popen argv;
     env_stdin_ok := fun _ data _ => stdin_ok data;
     env_mkdtemp := fun prefix _ => Ok ("/tmp/" +:+ prefix +:+ "k3x9");
     env_copy2 := fun _ _ _ => Ok tt;
     env_rmtree_ok := fun _ _ => true;
     env_dialog := fun _ => Some "secret" |}.

Definition worker : Worker :=
  {| deb_file_path := "/home/alice/myapp_1.0_amd64.deb"; sudo_password := Some "secret" |}.

Definition start : State :=
  {| temp_dir := None; start_time := None;
     dirs := {[ "/tmp" := []; "/home/alice" := ["myapp_1.0_amd64.deb"] ]};
     cwd := "/home/alice"; log := [] |}.

Definition package : string := "/tmp/deb_installer_k3x9/myapp-1.0-1-x86_64.pkg.tar.zst".

Definition sudo_prompt : string := "[sudo] password for alice: " +:+ PyStr.nl.
Definition pacman_prompt : string := ":: Proceed with installation? [Y/n] " +:+ PyStr.nl.

(** pacman behind sudo: the prompt of sudo and a progress line come while
    it runs. *)
Definition env_sudo_prompt : Env :=
  env (fun _ => Ok 0)
      (fun _ => Ok (child [sudo_prompt; "loading packages..." +:+ PyStr.nl] "" "" 2 0 id))
      (fun _ => true).

(** pacman asks for confirmation in the output that is read only after it
    has exited. *)
Definition env_late_prompt : Env :=
  env (fun _ => Ok 0)
      (fun _ => Ok (child ["loading packages..." +:+ PyStr.nl] pacman_prompt "" 2 1 id))
      (fun _ => true).

(** pacman asks for confirmation while it runs, but its stdin takes nothing
    after the password. *)
Definition env_closed_stdin : Env :=
  env (fun _ => Ok 0)
      (fun _ => Ok (child [pacman_prompt] "" "" 2 1 id))
      (fun data => String.eqb data ("secret" +:+ PyStr.nl)).

(** The state of a run when the conversion begins: the working directory
    exists and holds the copy of the input. *)
Definition work_dir : string := "/tmp/deb_installer_k3x9".
Definition temp_deb_path : string := "/tmp/deb_installer_k3x9/myapp_1.0_amd64.deb".
Definition prepared : State :=
  {| temp_dir := Some work_dir; start_time := Some 0%Q;
     dirs := {[ "/tmp" := [work_dir];
                "/home/alice" := ["myapp_1.0_amd64.deb"];
                work_dir := ["myapp_1.0_amd64.deb"] ]};
     cwd := "/home/alice"; log := [] |}.

(** debtap needs 301 seconds. *)
Definition slow_debtap : Child := child [] "" "" 301 0 id.
Definition env_slow_debtap : Env :=
  env (fun _ => Ok 0) (fun _ => Ok slow_debtap) (fun _ => true).

(** debtap exits with status 0 after 12 seconds and leaves a build log, but
    no package. *)
Definition fruitless_debtap : Child :=
  child [] "" ("==> Extracting package data..." +:+ PyStr.nl +:+ "Nothing to do" +:+ PyStr.nl)
        12 0 (fun d => <[work_dir := ["build.log"; "myapp_1.0_amd64.deb"]]> d).
Definition env_fruitless_debtap : Env :=
  env (fun _ => Ok 0) (fun _ => Ok fruitless_debtap) (fun _ => true).

(** debtap is there and produces the package in 12 seconds; pacman asks
    once and installs it. *)
Definition good_debtap : Child :=
  child [] "" ("==> Extracting package data..." +:+ PyStr.nl +:+ "Generating package" +:+ PyStr.nl)
        12 0
        (fun d => <[work_dir := ["myapp-1.0-1-x86_64.pkg.tar.zst"; "myapp_1.0_amd64.deb"]]> d).
Definition env_success : Env :=
  env (fun _ => Ok 0)
      (fun argv => match argv with
                   | "debtap" :: _ => Ok good_debtap
                   | _ => Ok (child [pacman_prompt] "" "" 2 0 id)
                   end)
      (fun _ => true).

(** The copy of the input into the working directory fails. *)
Definition env_copy_fails : Env :=
  {| env_time := fun _ => 0%Q;
     env_fmt1 := fun _ => "0.0";
     env_getsize := fun _ _ => Ok 10485760;
     env_which := fun _ _ => Ok 0;
     env_popen := fun _ _ => Ok good_debtap;
     env_stdin_ok := fun _ _ _ => true;
     env_mkdtemp := fun prefix _ => Ok ("/tmp/" +:+ prefix +:+ "k3x9");
     env_copy2 := fun _ _ _ => Raise (Error "[Errno 28] No space left on device");
     env_rmtree_ok := fun _ _ => true;
     env_dialog := fun _ => Some "secret" |}.

(** sudo accepts the password and [whoami] prints root. *)
Definition env_root : Env :=
  env (fun _ => Ok 0) (fun _ => Ok (child [] "" ("root" +:+ PyStr.nl) 1 0 id)) (fun _ => true).

(** The user leaves the password blank: a space, a no-break space (U+00A0)
    and an em space (U+2003). *)
Definition blank_password : string :=
  " " +:+ of_bytes [194; 160] +:+ of_bytes [226; 128; 131].
Definition env_blank : Env :=
  {| env_time := fun _ => 0%Q;
     env_fmt1 := fun _ => "0.0";
     env_getsize := fun _ _ => Ok 10485760;
     env_which := fun _ _ => Ok 0;
     env_popen := fun _ _ => Ok (child [] "" ("root" +:+ PyStr.nl) 1 0 id);
     env_stdin_ok := fun _ _ _ => true;
     env_mkdtemp := fun prefix _ => Ok ("/tmp/" +:+ prefix +:+ "k3x9");
     env_copy2 := fun _ _ _ => Ok tt;
     env_rmtree_ok := fun _ _ => true;
     env_dialog := fun _ => Some blank_password |}.

(** yay is not installed, paru fails to build debtap, pamac installs it:
    [which debtap] succeeds once pamac has been started. *)
Definition pamac_started (ev : Event) : bool :=
  match ev with
  | Spawned ("sudo" :: "-S" :: "pamac" :: _) => true
  | _ => false
  end.
Definition env_third_manager : Env :=
  {| env_time := fun _ => 0%Q;
     env_fmt1 := fun _ => "0.0";
     env_getsize := fun _ _ => Ok 10485760;
     env_which := fun name s =>
       if String.eqb name "yay" then Ok 1
       else if String.eqb name "debtap"
            then (if existsb pamac_started (log s) then Ok 0 else Ok 1)
            else Ok 0;
     env_popen := fun argv _ =>
       match argv with
       | "sudo" :: "-S" :: "paru" :: _ =>
           Ok (child ["error: failed to build debtap" +:+ PyStr.nl] "" "" 30 1 id)
       | _ => Ok (child [sudo_prompt; "installing debtap..." +:+ PyStr.nl] "" "" 30 0 id)
       end;
     env_stdin_ok := fun _ _ _ => true;
     env_mkdtemp := fun prefix _ => Ok ("/tmp/" +:+ prefix +:+ "k3x9");
     env_copy2 := fun _ _ _ => Ok tt;
     env_rmtree_ok := fun _ _ => true;
     env_dialog := fun _ => Some "secret" |}.


(** pacman fails on a file conflict. *)
Definition conflict_line : string :=
  "error: failed to commit transaction (Conflicting Files)" +:+ PyStr.nl.
Definition conflicted : Child := child [conflict_line] "" "" 2 1 id.
Definition env_conflict : Env :=
  env (fun _ => Ok 0) (fun _ => Ok conflicted) (fun _ => true).

(** A worker that was given no password. *)
Definition worker_locked : Worker :=
  {| deb_file_path := "/home/alice/myapp_1.0_amd64.deb"; sudo_password := None |}.

(** debtap exits with status 0 after 12 seconds and leaves a build log but
    no package; by then the directory the worker was started in is gone. *)
Definition homeless_debtap : Child :=
  child [] "" ("Nothing to do" +:+ PyStr.nl) 12 0
        (fun d => delete "/home/alice" (<[work_dir := ["build.log"; "myapp_1.0_amd64.deb"]]> d)).
Definition env_homeless_debtap : Env :=
  env (fun _ => Ok 0) (fun _ => Ok homeless_debtap) (fun _ => true).

(** debtap exits with status 0 and leaves no package, and what it prints
    cannot be decoded. *)
Definition garbled_debtap : Child :=
  {| c_lines := []; c_last := ""; c_rest := "";
     c_stdout := ""; c_stderr := "";
     c_comm_error :=
       Some "'utf-8' codec can't decode byte 0xff in position 0: invalid start byte";
     c_duration := 12; c_returncode := 0;
     c_effect := fun d => <[work_dir := ["build.log"; "myapp_1.0_amd64.deb"]]> d |}.
Definition env_garbled_debtap : Env :=
  env (fun _ => Ok 0) (fun _ => Ok garbled_debtap) (fun _ => true).

(** debtap exits with status 0 after having removed the working directory. *)
Definition vanishing_debtap : Child :=
  child [] "" "" 12 0 (fun d => delete work_dir d).
Definition env_vanishing_debtap : Env :=
  env (fun _ => Ok 0) (fun _ => Ok vanishing_debtap) (fun _ => true).
End Scenario.

(* ================================================================== *)
(** * Properties *)
(* ================================================================== *)

Section Estimates.

Lemma py_int_floor (x : Q) : (0 <= x)%Q -> py_int x = Qfloor x.
Proof.
  destruct x as [n d]. unfold py_int, Qfloor, Qle. simpl. intros H.
  apply Z.quot_div_nonneg; lia.
Qed.

Lemma Qfloor_nonneg (x : Q) : (0 <= x)%Q -> 0 <= Qfloor x.
Proof.
  intros H. change 0 with (Qfloor 0). now apply Qfloor_resp_le.
Qed.

Lemma conversion_time_floor (S : Q) :
  (0 <= S)%Q -> conversion_time S = Z.max 10 (Qfloor (2 * S)).
Proof.
  intros H. unfold conversion_time. rewrite py_int_floor.
  - f_equal. apply Qfloor_comp. ring.
  - rewrite <- (Qmult_0_l 2). apply Qmult_le_compat_r; [exact H | discriminate].
Qed.

Lemma install_time_floor (S : Q) :
  (0 <= S)%Q -> install_time S = Z.max 5 (Qfloor ((1 # 2) * S)).
Proof.
  intros H. unfold install_time. rewrite py_int_floor.
  - f_equal. apply Qfloor_comp. ring.
  - rewrite <- (Qmult_0_l (1 # 2)). apply Qmult_le_compat_r; [exact H | discriminate].
Qed.

(** C2, as stated, fails: a file of 5.25 MB (5505024 bytes) gets a
    conversion estimate of 10 seconds, while max(10, 2 * 5.25) is 10.5. *)
Lemma estimates_not_exact_max :
  let S := file_size_mb 5505024 in
  ~ ((inject_Z (conversion_time S) == Qmax 10 (2 * S))%Q /\
     (inject_Z (install_time S) == Qmax 5 ((1 # 2) * S))%Q).
Proof.
  intros S [Hc _]. vm_compute in Hc. discriminate Hc.
Qed.

(** C2, amended: for every size S >= 0 in MB the conversion estimate is
    max(10, floor(2 * S)) and the install estimate is max(5, floor(S / 2)):
    the products are truncated to integers before the maximum is taken.
    Both estimates are integers, at least 10 and at least 5. *)
Theorem estimates_truncated_max (S : Q) :
  (0 <= S)%Q ->
  conversion_time S = Z.max 10 (Qfloor (2 * S)) /\
  install_time S = Z.max 5 (Qfloor ((1 # 2) * S)) /\
  10 <= conversion_time S /\ 5 <= install_time S.
Proof.
  intros H. split; [now apply conversion_time_floor |].
  split; [now apply install_time_floor |].
  unfold conversion_time, install_time. lia.
Qed.

Lemma estimates_truncated_max_witness :
  (0 <= file_size_mb 5505024)%Q /\
  conversion_time (file_size_mb 5505024) = 10 /\
  install_time (file_size_mb 5505024) = 5.
Proof.
  split; [discriminate |].
  destruct (estimates_truncated_max (file_size_mb 5505024)) as (Hc & Hi & _);
    [discriminate |].
  split; [rewrite Hc | rewrite Hi]; reflexivity.
Defined.

End Estimates.

(* ------------------------------------------------------------------ *)
(** ** Strings *)
(* ------------------------------------------------------------------ *)

Section Strings.

Import PyStr.

Lemma string_strong_ind (P : string -> Prop) :
  (forall s, (forall t, (String.length t < String.length s)%nat -> P t) -> P s) ->
  forall s, P s.
Proof.
  intros H s. remember (String.length s) as n eqn:Hn. revert s Hn.
  induction n as [n IH] using lt_wf_ind. intros s ->.
  apply H. intros t Ht. now apply (IH (String.length t)).
Qed.

Ltac bools :=
  repeat match goal with
         | H : (_ || _)%bool = true |- _ => apply orb_true_iff in H as [H | H]
         | H : (_ && _)%bool = true |- _ =>
             let H1 := fresh H in apply andb_true_iff in H as [H H1]
         | H : (_ =? _)%N = true |- _ => apply N.eqb_eq in H
         | H : (_ <=? _)%N = true |- _ => apply N.leb_le in H
         | H : (_ <? _)%N = true |- _ => apply N.ltb_lt in H
         end.

Lemma isspace_low c : isspace c = true -> high c = false.
Proof. unfold isspace, high. cbv zeta. intros H. bools; apply N.leb_gt; lia. Qed.

Lemma isspace2_high a b : isspace2 a b = true -> high a = true /\ high b = true.
Proof. unfold isspace2, high. cbv zeta. intros H. bools; split; apply N.leb_le; lia. Qed.

Lemma isspace3_high a b c :
  isspace3 a b c = true -> high a = true /\ high b = true /\ high c = true.
Proof.
  unfold isspace3, high. cbv zeta. intros H. bools; repeat split; apply N.leb_le; lia.
Qed.

Lemma isspace2_cont a b : isspace2 a b = true -> cont a = false /\ cont b = true.
Proof.
  unfold isspace2, cont. cbv zeta. intros H. bools; split;
    first [ apply andb_false_iff; right; apply N.ltb_ge; lia
          | apply andb_true_iff; split; [apply N.leb_le | apply N.ltb_lt]; lia ].
Qed.

Lemma isspace3_cont a b c :
  isspace3 a b c = true -> cont a = false /\ cont b = true /\ cont c = true.
Proof.
  unfold isspace3, cont. cbv zeta. intros H. bools; repeat split;
    first [ apply andb_false_iff; right; apply N.ltb_ge; lia
          | apply andb_true_iff; split; [apply N.leb_le | apply N.ltb_lt]; lia ].
Qed.

Lemma isspace_cont c : isspace c = true -> cont c = false.
Proof.
  unfold isspace, cont. cbv zeta. intros H.
  apply andb_false_iff. left. bools; apply N.leb_gt; lia.
Qed.

Lemma whitespace_only_cons a r :
  whitespace_only (String a r) =
    if isspace a then whitespace_only r
    else match r with
         | String b r2 =>
             if isspace2 a b then whitespace_only r2
             else match r2 with
                  | String c r3 => isspace3 a b c && whitespace_only r3
                  | EmptyString => false
                  end
         | EmptyString => false
         end.
Proof. reflexivity. Qed.

(** Whitespace does not start with a continuation byte. *)
Lemma whitespace_only_lead a r :
  whitespace_only (String a r) = true -> cont a = false.
Proof.
  rewrite whitespace_only_cons. destruct (isspace a) eqn:H1; [intros _; now apply isspace_cont |].
  destruct r as [|b r2]; [discriminate |].
  destruct (isspace2 a b) eqn:H2; [intros _; now apply isspace2_cont in H2 as [] |].
  destruct r2 as [|c r3]; [discriminate |].
  intros H. apply andb_true_iff in H as [H3 _]. now apply isspace3_cont in H3 as [].
Qed.

Lemma rstrip_cons c r :
  rstrip (String c r) =
    if whitespace_only (String c r) then EmptyString else String c (rstrip r).
Proof. reflexivity. Qed.

Lemma whitespace_only_app a w :
  whitespace_only w = true -> whitespace_only (a +:+ w) = whitespace_only a.
Proof.
  intros Hw. induction a as [a IH] using string_strong_ind.
  destruct a as [|x r]; [exact Hw |].
  change (String x r +:+ w) with (String x (r +:+ w)).
  rewrite !whitespace_only_cons.
  destruct (isspace x) eqn:H1; [apply IH; cbn; lia |].
  destruct r as [|y r2].
  { change (EmptyString +:+ w) with w. destruct w as [|y w2]; [reflexivity |].
    pose proof (whitespace_only_lead _ _ Hw) as Hy.
    destruct (isspace2 x y) eqn:H2; [apply isspace2_cont in H2 as [_ H2]; congruence |].
    destruct w2 as [|z w3]; [reflexivity |].
    destruct (isspace3 x y z) eqn:H3; [| reflexivity].
    apply isspace3_cont in H3 as (_ & H3 & _). congruence. }
  change (String y r2 +:+ w) with (String y (r2 +:+ w)). lazy iota beta.
  destruct (isspace2 x y) eqn:H2; [apply IH; cbn; lia |].
  destruct r2 as [|z r3].
  { change (EmptyString +:+ w) with w. destruct w as [|z w2]; [reflexivity |].
    pose proof (whitespace_only_lead _ _ Hw) as Hz.
    destruct (isspace3 x y z) eqn:H3; [| reflexivity].
    apply isspace3_cont in H3 as (_ & _ & H3). congruence. }
  change (String z r3 +:+ w) with (String z (r3 +:+ w)). lazy iota beta.
  destruct (isspace3 x y z); [| reflexivity]. cbn [andb]. apply IH. cbn. lia.
Qed.

Lemma rstrip_whitespace_only w : whitespace_only w = true -> rstrip w = EmptyString.
Proof. destruct w as [|c r]; [reflexivity |]. rewrite rstrip_cons. now intros ->. Qed.

Lemma rstrip_app_space a w : all_space w = true -> rstrip (a +:+ w) = rstrip a.
Proof.
  unfold all_space. intros Hw. induction a as [|c r IH].
  - change (rstrip w = EmptyString). now apply rstrip_whitespace_only.
  - change (rstrip (String c (r +:+ w)) = rstrip (String c r)).
    rewrite !rstrip_cons, IH.
    change (String c (r +:+ w)) with (String c r +:+ w).
    now rewrite whitespace_only_app.
Qed.

Lemma rstrip_all_space w : all_space w = true -> rstrip w = EmptyString.
Proof. apply rstrip_whitespace_only. Qed.

Lemma truthy_rstrip_all_space l : truthy (rstrip l) = negb (all_space l).
Proof.
  unfold all_space. destruct l as [|c r]; [reflexivity |].
  rewrite rstrip_cons. now destruct (whitespace_only (String c r)).
Qed.

Lemma rstrip_solid line : solid line = true -> rstrip line = line.
Proof.
  induction line as [|c r IH]; [reflexivity |].
  cbn [solid]. intros H. apply andb_true_iff in H as [H1 H2].
  apply negb_true_iff in H1. now rewrite rstrip_cons, H1, IH.
Qed.

(** What [rstrip] removes is whitespace. *)
Lemma rstrip_split l :
  exists w, l = rstrip l +:+ w /\ whitespace_only w = true.
Proof.
  induction l as [|c r (w & Hr & Hw)]; [now exists EmptyString |].
  rewrite rstrip_cons. destruct (whitespace_only (String c r)) eqn:H.
  - now exists (String c r).
  - exists w. split; [| exact Hw].
    change (String c r = String c (rstrip r +:+ w)). now rewrite <- Hr.
Qed.

Lemma whitespace_only_lstrip l : whitespace_only (lstrip l) = whitespace_only l.
Proof.
  induction l as [l IH] using string_strong_ind.
  destruct l as [|x r]; [reflexivity |].
  cbn [lstrip]. rewrite (whitespace_only_cons x r).
  destruct (isspace x) eqn:H1; [apply IH; cbn; lia |].
  destruct r as [|y r2]; [rewrite whitespace_only_cons, H1; reflexivity |].
  destruct (isspace2 x y) eqn:H2; [apply IH; cbn; lia |].
  destruct r2 as [|z r3]; [rewrite whitespace_only_cons, H1, H2; reflexivity |].
  destruct (isspace3 x y z) eqn:H3; [cbn [andb]; apply IH; cbn; lia |].
  now rewrite whitespace_only_cons, H1, H2, H3.
Qed.

Lemma truthy_strip l : truthy (strip l) = truthy (rstrip l).
Proof.
  unfold strip. rewrite !truthy_rstrip_all_space. unfold all_space.
  now rewrite whitespace_only_lstrip.
Qed.

Lemma isspace_not_plain c : isspace c = true -> plain_byte c = false.
Proof. unfold plain_byte. now intros ->. Qed.

Lemma high_not_plain c : high c = true -> plain_byte c = false.
Proof.
  unfold plain_byte, high. intros H. apply N.leb_le in H.
  apply andb_false_iff. right. apply N.ltb_ge. exact H.
Qed.

Lemma whitespace_only_no_plain w : whitespace_only w = true -> soft w = true.
Proof.
  induction w as [w IH] using string_strong_ind.
  destruct w as [|x r]; [reflexivity |].
  rewrite whitespace_only_cons. cbn [soft].
  destruct (isspace x) eqn:H1.
  { intros H. rewrite (isspace_not_plain _ H1). apply IH; [cbn; lia | exact H]. }
  destruct r as [|y r2]; [discriminate |].
  destruct (isspace2 x y) eqn:H2.
  { intros H. apply isspace2_high in H2 as [Hx Hy]. cbn [soft].
    rewrite (high_not_plain _ Hx), (high_not_plain _ Hy). apply IH; [cbn; lia | exact H]. }
  destruct r2 as [|z r3]; [discriminate |].
  intros H. apply andb_true_iff in H as [H3 H].
  apply isspace3_high in H3 as (Hx & Hy & Hz). cbn [soft].
  rewrite (high_not_plain _ Hx), (high_not_plain _ Hy), (high_not_plain _ Hz).
  apply IH; [cbn; lia | exact H].
Qed.

Lemma ends_plain_tail x p :
  p <> EmptyString -> ends_plain (String x p) = ends_plain p.
Proof. destruct p; [congruence | reflexivity]. Qed.

Lemma startswith_no_plain p : forall w,
  ends_plain p = true -> soft w = true -> startswith p w = false.
Proof.
  induction p as [|x p IH]; [discriminate |].
  intros [|y w] Hp Hw; [reflexivity |].
  cbn [soft] in Hw. apply andb_true_iff in Hw as [Hy Hw]. cbn [startswith].
  destruct p as [|x' p'].
  - cbn [ends_plain] in Hp. destruct (Ascii.eqb_spec x y) as [-> |]; [| reflexivity].
    rewrite Hp in Hy. discriminate.
  - rewrite (IH w Hp Hw). apply andb_false_r.
Qed.

Lemma startswith_app_soft p w : forall a,
  ends_plain p = true -> soft w = true ->
  startswith p (a +:+ w) = startswith p a.
Proof.
  induction p as [|x p IH]; [discriminate |].
  intros [|y a] Hp Hw.
  - change (EmptyString +:+ w) with w. now rewrite startswith_no_plain.
  - change (String y a +:+ w) with (String y (a +:+ w)). cbn [startswith].
    destruct p as [|x' p']; [reflexivity |]. now rewrite (IH a Hp Hw).
Qed.

Lemma startswith_empty p : p <> EmptyString -> startswith p EmptyString = false.
Proof. destruct p; [congruence | reflexivity]. Qed.

Lemma contains_empty p : p <> EmptyString -> contains p EmptyString = false.
Proof. intros H. simpl. now rewrite startswith_empty. Qed.

Lemma ends_plain_nonempty p : ends_plain p = true -> p <> EmptyString.
Proof. now destruct p. Qed.

Lemma contains_no_plain p w :
  ends_plain p = true -> soft w = true -> contains p w = false.
Proof.
  intros Hp. induction w as [|c r IH]; intros Hw.
  - apply contains_empty. now apply ends_plain_nonempty.
  - change (contains p (String c r)) with (startswith p (String c r) || contains p r).
    rewrite (startswith_no_plain p _ Hp Hw).
    cbn [soft] in Hw. apply andb_true_iff in Hw as [_ Hw]. now rewrite IH.
Qed.

Lemma contains_app_soft p a w :
  ends_plain p = true -> soft w = true -> contains p (a +:+ w) = contains p a.
Proof.
  intros Hp Hw. induction a as [|c r IH].
  - change (EmptyString +:+ w) with w. rewrite (contains_no_plain p w Hp Hw).
    symmetry. apply contains_empty. now apply ends_plain_nonempty.
  - change (String c r +:+ w) with (String c (r +:+ w)).
    change (contains p (String c (r +:+ w)))
      with (startswith p (String c (r +:+ w)) || contains p (r +:+ w)).
    change (String c (r +:+ w)) with (String c r +:+ w).
    now rewrite (startswith_app_soft p w (String c r) Hp Hw), IH.
Qed.

Lemma contains_rstrip p l :
  ends_plain p = true -> contains p (rstrip l) = contains p l.
Proof.
  intros Hp. destruct (rstrip_split l) as (w & Hl & Hw).
  rewrite Hl at 2. symmetry. apply contains_app_soft; [exact Hp |].
  now apply whitespace_only_no_plain.
Qed.

Lemma isspace_lower_char c : isspace (lower_char c) = isspace c.
Proof. destruct c as [[] [] [] [] [] [] [] []]; reflexivity. Qed.

Lemma high_lower_char c : high (lower_char c) = high c.
Proof. destruct c as [[] [] [] [] [] [] [] []]; reflexivity. Qed.

Lemma lower_char_high c : high c = true -> lower_char c = c.
Proof. destruct c as [[] [] [] [] [] [] [] []]; first [reflexivity | discriminate]. Qed.

Lemma isspace2_lower a b : isspace2 (lower_char a) (lower_char b) = isspace2 a b.
Proof.
  destruct (isspace2 a b) eqn:H.
  - apply isspace2_high in H as H'. destruct H' as [Ha Hb].
    now rewrite (lower_char_high _ Ha), (lower_char_high _ Hb).
  - destruct (isspace2 (lower_char a) (lower_char b)) eqn:H'; [| reflexivity].
    apply isspace2_high in H' as H''. destruct H'' as [Ha Hb].
    rewrite high_lower_char in Ha, Hb.
    rewrite (lower_char_high _ Ha), (lower_char_high _ Hb) in H'. congruence.
Qed.

Lemma isspace3_lower a b c :
  isspace3 (lower_char a) (lower_char b) (lower_char c) = isspace3 a b c.
Proof.
  destruct (isspace3 a b c) eqn:H.
  - apply isspace3_high in H as H'. destruct H' as (Ha & Hb & Hc).
    now rewrite (lower_char_high _ Ha), (lower_char_high _ Hb), (lower_char_high _ Hc).
  - destruct (isspace3 (lower_char a) (lower_char b) (lower_char c)) eqn:H'; [| reflexivity].
    apply isspace3_high in H' as H''. destruct H'' as (Ha & Hb & Hc).
    rewrite high_lower_char in Ha, Hb, Hc.
    rewrite (lower_char_high _ Ha), (lower_char_high _ Hb), (lower_char_high _ Hc) in H'.
    congruence.
Qed.

Lemma whitespace_only_lower l : whitespace_only (lower l) = whitespace_only l.
Proof.
  induction l as [l IH] using string_strong_ind.
  destruct l as [|x r]; [reflexivity |].
  cbn [lower]. rewrite !whitespace_only_cons, isspace_lower_char.
  destruct (isspace x); [apply IH; cbn; lia |].
  destruct r as [|y r2]; [reflexivity |].
  cbn [lower]. rewrite isspace2_lower.
  destruct (isspace2 x y); [apply IH; cbn; lia |].
  destruct r2 as [|z r3]; [reflexivity |].
  cbn [lower]. rewrite isspace3_lower. f_equal. apply IH. cbn. lia.
Qed.

Lemma lower_rstrip l : lower (rstrip l) = rstrip (lower l).
Proof.
  induction l as [|c r IH]; [reflexivity |].
  change (lower (String c r)) with (String (lower_char c) (lower r)).
  rewrite !rstrip_cons.
  change (String (lower_char c) (lower r)) with (lower (String c r)).
  rewrite whitespace_only_lower.
  destruct (whitespace_only (String c r)); [reflexivity |].
  cbn [lower]. now rewrite IH.
Qed.

(** Whitespace beyond ASCII: a no-break space (U+00A0), a next line
    (U+0085) and an ideographic space (U+3000) are stripped and are blank;
    a zero-width space (U+200B) and an accented letter are not. *)
Lemma whitespace_beyond_ascii :
  all_space (of_bytes [194; 160; 32; 194; 133; 227; 128; 128]) = true /\
  all_space (of_bytes [226; 128; 139]) = false /\
  all_space (of_bytes [195; 169]) = false /\
  strip (of_bytes [9; 194; 160] +:+ "x y" +:+ of_bytes [226; 128; 137; 10]) = "x y" /\
  rstrip ("x" +:+ of_bytes [195; 160]) = "x" +:+ of_bytes [195; 160].
Proof. vm_compute. repeat split; reflexivity. Qed.

Lemma lower_app a b : lower (a +:+ b) = lower a +:+ lower b.
Proof. induction a as [|c r IH]; simpl; [reflexivity | now rewrite IH]. Qed.

Lemma mentions_password_rstrip l :
  mentions_password (rstrip l) = mentions_password l.
Proof.
  unfold mentions_password. rewrite lower_rstrip.
  now apply contains_rstrip.
Qed.

Lemma mentions_password_indent l :
  mentions_password ("  " +:+ l) = mentions_password l.
Proof. reflexivity. Qed.

End Strings.

(* ------------------------------------------------------------------ *)
(** ** The monad and the log *)
(* ------------------------------------------------------------------ *)

Section Log.

Lemma appends_ret {A} (a : A) : appends (ret a) a [].
Proof. intros s. simpl. now rewrite app_nil_r. Qed.

Lemma appends_bind {A B} (m : M A) (k : A -> M B) a b l1 l2 :
  appends m a l1 -> appends (k a) b l2 -> appends (bind m k) b (l1 ++ l2).
Proof.
  intros Hm Hk s. unfold bind. destruct (Hm s) as [Hr Hl].
  destruct (m s) as [r s1]. simpl in Hr, Hl. subst r.
  destruct (Hk s1) as [Hr' Hl']. rewrite Hr', Hl', Hl. now rewrite app_assoc.
Qed.

Lemma appends_emit e : appends (emit e) tt [e].
Proof. intros s. now simpl. Qed.

Lemma appends_when_true m evs : appends m tt evs -> appends (when true m) tt evs.
Proof. auto. Qed.

Lemma appends_when_false m : appends (when false m) tt [].
Proof. apply appends_ret. Qed.

Lemma appends_modify_dirs f :
  appends (modify (fun s => set_dirs (f (dirs s)) s)) tt [].
Proof. intros s. simpl. now rewrite app_nil_r. Qed.

Lemma appends_for_each {A} (body : A -> M unit) (f : A -> list Event) l :
  (forall x, appends (body x) tt (f x)) ->
  appends (for_each l body) tt (flat_map f l).
Proof.
  intros H. induction l as [|x r IH]; simpl.
  - apply appends_ret.
  - eapply appends_bind; [apply H | exact IH].
Qed.

Lemma appends_emitted {A} (m : M A) a evs s :
  appends m a evs -> emitted m s = evs.
Proof.
  intros H. unfold emitted. destruct (H s) as [_ ->].
  now rewrite drop_app_length.
Qed.

End Log.

(* ------------------------------------------------------------------ *)
(** ** Redaction in the streaming loops of [install_debtap] *)
(* ------------------------------------------------------------------ *)

Section Redaction.

Import PyStr.

Lemma redacted_line_appends line :
  appends (redacted_line line) tt (show_if line).
Proof.
  unfold redacted_line, show_if, shown, nonblank, indented.
  destruct line as [|c r].
  - apply appends_ret.
  - cbv beta iota delta [truthy when]. fold (truthy (rstrip (String c r))).
    change (contains "password" (lower (rstrip (String c r))))
      with (mentions_password (rstrip (String c r))).
    rewrite mentions_password_rstrip.
    destruct (truthy (rstrip (String c r)) && negb (mentions_password (String c r))).
    + apply appends_emit.
    + apply appends_ret.
Qed.

Lemma flat_map_show_if ls :
  flat_map show_if ls = map indented (List.filter shown ls).
Proof.
  induction ls as [|l r IH]; [reflexivity |].
  simpl. unfold show_if at 1. destruct (shown l); simpl; now rewrite IH.
Qed.

Lemma redacted_rest_line_appends line :
  appends (when (truthy (strip line) && negb (contains "password" (lower line)))
             (console ("  " +:+ rstrip line))) tt (show_if line).
Proof.
  rewrite truthy_strip. unfold show_if, shown, nonblank, mentions_password, indented.
  destruct (truthy (rstrip line) && negb (contains "password" (lower line))).
  - apply appends_emit.
  - apply appends_ret.
Qed.

Lemma redacted_rest_appends remaining :
  appends (redacted_rest remaining) tt
    (flat_map show_if (if truthy remaining then split LF remaining else [])).
Proof.
  unfold redacted_rest. destruct (truthy remaining).
  - apply (appends_for_each _ show_if). apply redacted_rest_line_appends.
  - apply appends_ret.
Qed.

Lemma stream_redacted_appends process :
  appends (stream_redacted process) tt
    (map indented (List.filter shown (output_lines (p_child process)))).
Proof.
  unfold stream_redacted, output_lines, polled_lines, rest_lines.
  rewrite <- flat_map_show_if, !flat_map_app, <- app_assoc.
  eapply appends_bind.
  { apply (appends_for_each _ show_if). apply redacted_line_appends. }
  eapply appends_bind.
  { simpl flat_map. rewrite app_nil_r. apply redacted_line_appends. }
  refine (appends_bind _ _ tt tt [] _ _ _).
  { unfold process_exited. apply appends_modify_dirs. }
  apply redacted_rest_appends.
Qed.

(** C3: while the output of a backend install, or of the database update
    that follows it, is streamed, the loop always ends normally and adds to
    the log exactly the lines that are not blank and do not mention
    "password" in any letter case, indented and in order.  So no log line
    added by the loop mentions "password", and an output line that does is
    never shown. *)
Theorem password_lines_are_suppressed (process : Process) (s : State) :
  let c := p_child process in
  let added := emitted (stream_redacted process) s in
  fst (stream_redacted process s) = Ok tt /\
  log (snd (stream_redacted process s)) = (log s ++ added)%list /\
  added = map indented (List.filter shown (output_lines c)) /\
  (forall ev, In ev added ->
     exists msg, ev = ConsoleOutput msg /\ mentions_password msg = false) /\
  (forall line, In line (output_lines c) -> mentions_password line = true ->
     ~ In (indented line) added /\ ~ In (ConsoleOutput line) added).
Proof.
  intros c added.
  pose proof (stream_redacted_appends process) as H.
  assert (Hadd : added = map indented (List.filter shown (output_lines c)))
    by (apply (appends_emitted _ tt); exact H).
  assert (Hfree : forall ev, In ev added ->
            exists msg, ev = ConsoleOutput msg /\ mentions_password msg = false).
  { intros ev Hin. rewrite Hadd in Hin. apply in_map_iff in Hin.
    destruct Hin as (l & <- & Hl). apply filter_In in Hl. destruct Hl as [_ Hs].
    exists ("  " +:+ rstrip l). split; [reflexivity |].
    rewrite mentions_password_indent, mentions_password_rstrip.
    unfold shown in Hs. apply andb_true_iff in Hs. destruct Hs as [_ Hs].
    now apply negb_true_iff in Hs. }
  destruct (H s) as [Hr Hl].
  repeat split; try assumption.
  - rewrite Hadd. exact Hl.
  - intros Hin. destruct (Hfree _ Hin) as (msg & Heq & Hm).
    injection Heq as <-.
    rewrite mentions_password_indent, mentions_password_rstrip in Hm. congruence.
  - intros Hin. destruct (Hfree _ Hin) as (msg & Heq & Hm).
    injection Heq as <-. congruence.
Qed.

End Redaction.

(* ------------------------------------------------------------------ *)
(** ** The output loop of [install_arch_package] *)
(* ------------------------------------------------------------------ *)

Section Answering.

Import PyStr.

Variable E : Env.
Variable self : Worker.

Lemma add_logs_nil s : add_logs [] s = s.
Proof. destruct s. unfold add_logs. simpl. now rewrite app_nil_r. Qed.

Lemma add_logs_app a b s : add_logs (a ++ b) s = add_logs b (add_logs a s).
Proof. unfold add_logs. simpl. now rewrite app_assoc. Qed.

Lemma add_log_add_logs e s : add_log e s = add_logs [e] s.
Proof. reflexivity. Qed.

Lemma answer_line_spec process line s :
  answer_line E process line s =
    (Ok (kept line), add_logs (reaction E (p_argv process) line s) s).
Proof.
  unfold answer_line, kept, reaction.
  destruct (truthy line); [| now rewrite add_logs_nil].
  unfold bind, console, emit, modify, when, try_except, stdin_write, ret, plain.
  destruct (is_prompt (rstrip line)); [| reflexivity].
  fold affirmative.
  destruct (env_stdin_ok E (p_argv process) affirmative
              (add_log (ConsoleOutput (rstrip line)) s)) eqn:Hok.
  - unfold add_log, add_logs, answer_note. simpl. now rewrite <- !app_assoc.
  - reflexivity.
Qed.

Lemma collect_answer_line_spec process lines : forall s,
  collect lines (answer_line E process) s =
    (Ok (flat_map kept lines), add_logs (reactions E (p_argv process) lines s) s).
Proof.
  induction lines as [|line rest IH]; intros s; simpl.
  - unfold ret. now rewrite add_logs_nil.
  - unfold bind at 1. rewrite answer_line_spec.
    unfold bind at 1. rewrite IH. unfold ret. now rewrite add_logs_app.
Qed.

Lemma reactions_app argv a b : forall s,
  reactions E argv (a ++ b) s =
    (reactions E argv a s ++ reactions E argv b (add_logs (reactions E argv a s) s))%list.
Proof.
  induction a as [|x r IH]; intros s; simpl.
  - now rewrite add_logs_nil.
  - rewrite IH, <- app_assoc, add_logs_app. reflexivity.
Qed.

Lemma emitted_of_log {A} (m : M A) s evs :
  log (snd (m s)) = (log s ++ evs)%list -> emitted m s = evs.
Proof. intros H. unfold emitted. rewrite H. apply drop_app_length. Qed.

Lemma remaining_lines_spec remaining s :
  let ls := List.filter nonblank
              (if truthy remaining then split LF remaining else []) in
  remaining_lines remaining s = (Ok ls, add_logs (map plain ls) s).
Proof.
  unfold remaining_lines. destruct (truthy remaining); simpl.
  2: { unfold ret. now rewrite add_logs_nil. }
  generalize (split LF remaining) as l. intros l. revert s.
  induction l as [|x r IH]; intros s; simpl.
  - unfold ret. now rewrite add_logs_nil.
  - unfold bind at 1. rewrite truthy_strip. fold (nonblank x).
    destruct (nonblank x); simpl.
    + unfold bind at 1. unfold bind at 1. rewrite IH.
      unfold ret, add_logs, add_log, plain. simpl. now rewrite <- app_assoc.
    + unfold bind at 1. rewrite IH. reflexivity.
Qed.

Lemma stream_answering_spec process s :
  let c := p_child process in
  let talk := reactions E (p_argv process) (polled_lines c) s in
  let rest := List.filter nonblank (rest_lines c) in
  stream_answering E process s =
    (Ok (flat_map kept (polled_lines c) ++ rest)%list,
     add_logs (map plain rest) (set_dirs (c_effect c (dirs s)) (add_logs talk s))).
Proof.
  intros c talk rest. unfold stream_answering.
  unfold bind at 1. rewrite collect_answer_line_spec.
  unfold bind at 1. rewrite answer_line_spec.
  unfold bind at 1. unfold process_exited, modify.
  unfold bind at 1. rewrite remaining_lines_spec. unfold ret.
  subst talk rest. unfold polled_lines, rest_lines. fold c.
  rewrite reactions_app, flat_map_app. simpl.
  rewrite !app_nil_r, add_logs_app, <- app_assoc. reflexivity.
Qed.

Lemma stream_answering_emitted process s :
  let c := p_child process in
  emitted (stream_answering E process) s =
    (reactions E (p_argv process) (polled_lines c) s
     ++ map plain (List.filter nonblank (rest_lines c)))%list.
Proof.
  intros c. apply emitted_of_log. rewrite stream_answering_spec.
  simpl. now rewrite app_assoc.
Qed.

Lemma reaction_logs_line argv line s :
  truthy line = true -> In (plain line) (reaction E argv line s).
Proof. intros H. unfold reaction. rewrite H. now left. Qed.

Lemma reactions_log_lines argv lines : forall s line,
  In line lines -> truthy line = true -> In (plain line) (reactions E argv lines s).
Proof.
  induction lines as [|x r IH]; intros s line Hin Ht; [destruct Hin |].
  simpl. apply in_or_app. destruct Hin as [-> | Hin].
  - left. now apply reaction_logs_line.
  - right. now apply IH.
Qed.

Lemma nonblank_truthy line : nonblank line = true -> truthy line = true.
Proof. destruct line; [discriminate | reflexivity]. Qed.

Lemma is_prompt_rstrip line : is_prompt (rstrip line) = is_prompt line.
Proof.
  unfold is_prompt, confirmation_phrases. cbn [existsb].
  rewrite lower_rstrip.
  now rewrite !contains_rstrip by reflexivity.
Qed.

Lemma stream_answering_logs_every_line process s line :
  In line (output_lines (p_child process)) -> nonblank line = true ->
  In (plain line) (emitted (stream_answering E process) s).
Proof.
  intros Hin Hnb. rewrite stream_answering_emitted. apply in_or_app.
  unfold output_lines in Hin. apply in_app_or in Hin. destruct Hin as [Hin | Hin].
  - left. apply reactions_log_lines; [exact Hin | now apply nonblank_truthy].
  - right. apply in_map. apply filter_In. now split.
Qed.

Lemma run_sudo_command_started cmd s process s2 :
  run_sudo_command E self cmd s = (Ok (Some process), s2) ->
  exists pw,
    sudo_password self = Some pw /\
    p_argv process = "sudo" :: "-S" :: cmd /\
    env_popen E (p_argv process) s = Ok (p_child process) /\
    s2 = add_logs [Spawned (p_argv process); StdinWrite (p_argv process) (pw +:+ nl)] s.
Proof.
  cbv beta iota zeta delta
    [run_sudo_command bind popen ask emit modify ret stdin_write].
  destruct (sudo_password self) as [pw|]; [| discriminate].
  destruct (truthy pw); simpl; [| discriminate].
  destruct (env_popen E ("sudo" :: "-S" :: cmd) s) as [c|e] eqn:Hp; simpl; [| discriminate].
  destruct (env_stdin_ok _ _ _ _); simpl; [| discriminate].
  intros H. injection H as <- <-. exists pw. simpl.
  repeat split; try assumption.
  unfold add_log, add_logs. simpl. now rewrite <- app_assoc.
Qed.

Lemma failure_tip_spec txt s :
  exists evs, failure_tip txt s = (Ok tt, add_logs evs s).
Proof.
  unfold failure_tip.
  repeat match goal with
         | |- context [if ?b then _ else _] => destruct b
         end;
    try (eexists [_]; reflexivity).
  exists []. unfold ret. now rewrite add_logs_nil.
Qed.

Lemma install_arch_package_started package_path s process s2 :
  run_sudo_command E self (pacman_cmd package_path) (add_log (running_note package_path) s)
    = (Ok (Some process), s2) ->
  exists tail,
    install_arch_package E self package_path s
      = (Ok (c_returncode (p_child process) =? 0),
         add_logs tail (snd (stream_answering E process s2))).
Proof.
  intros Hrun. unfold install_arch_package, try_except.
  unfold bind at 1. unfold console at 1, emit, modify.
  fold (pacman_cmd package_path). fold (running_note package_path).
  unfold bind at 1. rewrite Hrun.
  unfold bind at 1. destruct (stream_answering E process s2) as [r s3] eqn:Hs.
  rewrite stream_answering_spec in Hs. injection Hs as <- Hs3.
  destruct (c_returncode (p_child process) =? 0).
  - eexists [_]. reflexivity.
  - unfold bind at 1. unfold console at 1, emit, modify.
    unfold bind at 1.
    match goal with
    | |- context [failure_tip ?t ?st] => destruct (failure_tip_spec t st) as [evs ->]
    end.
    eexists (_ :: evs). unfold ret. simpl. f_equal.
    unfold add_logs, add_log. simpl. now rewrite <- app_assoc.
Qed.

End Answering.

Section NoRedaction.

Import PyStr.

Variable E : Env.
Variable self : Worker.

(** C10: once the privileged install process has been started, every line
    of its output that is not blank is put on the log with nothing but its
    trailing whitespace removed, whether it mentions "password" or not: the
    log line mentions "password" exactly when the output line does, and it
    is the text of the line, without the newline that ends it, when that
    text does not end in whitespace. *)
Theorem install_output_is_not_redacted
    (package_path : string) (s s2 : State) (process : Process) (line : string) :
  run_sudo_command E self (pacman_cmd package_path) (add_log (running_note package_path) s)
    = (Ok (Some process), s2) ->
  In line (output_lines (p_child process)) ->
  nonblank line = true ->
  In (ConsoleOutput (rstrip line)) (emitted (install_arch_package E self package_path) s) /\
  mentions_password (rstrip line) = mentions_password line /\
  (forall content, solid content = true ->
     line = content \/ line = content +:+ nl -> rstrip line = content).
Proof.
  intros Hrun Hin Hnb. split; [| split].
  - destruct (install_arch_package_started E self _ _ _ _ Hrun) as (tail & Hrun').
    destruct (run_sudo_command_started E self _ _ _ _ Hrun) as (pw & _ & _ & _ & Hs2).
    pose proof (stream_answering_logs_every_line E process s2 line Hin Hnb) as Hline.
    unfold emitted in Hline. unfold emitted. rewrite Hrun'. simpl.
    set (full := log (snd (stream_answering E process s2))) in *.
    assert (Hfull : full = (log s2 ++ drop (List.length (log s2)) full)%list).
    { subst full. rewrite stream_answering_spec. simpl.
      now rewrite <- app_assoc, drop_app_length. }
    assert (Hl2 : log s2 = (log s ++ [running_note package_path; Spawned (p_argv process);
                     StdinWrite (p_argv process) (pw +:+ nl)])%list).
    { rewrite Hs2. simpl. now rewrite <- app_assoc. }
    rewrite Hfull, Hl2, <- !app_assoc, drop_app_length.
    apply in_or_app. right. apply in_or_app. left.
    rewrite <- Hl2. exact Hline.
  - apply mentions_password_rstrip.
  - intros content Hsolid [-> | ->].
    + now apply rstrip_solid.
    + rewrite rstrip_app_space by reflexivity. now apply rstrip_solid.
Qed.

End NoRedaction.

Section Prompts.

Import PyStr.

Lemma install_output_is_not_redacted_witness :
  In (ConsoleOutput "[sudo] password for alice:")
     (emitted (install_arch_package Scenario.env_sudo_prompt Scenario.worker Scenario.package)
              Scenario.start) /\
  mentions_password "[sudo] password for alice:" = true.
Proof.
  destruct (install_output_is_not_redacted Scenario.env_sudo_prompt Scenario.worker
              Scenario.package Scenario.start
              (snd (run_sudo_command Scenario.env_sudo_prompt Scenario.worker
                      (pacman_cmd Scenario.package)
                      (add_log (running_note Scenario.package) Scenario.start)))
              (mkProcess ("sudo" :: "-S" :: pacman_cmd Scenario.package)
                 (Scenario.child [Scenario.sudo_prompt; "loading packages..." +:+ nl]
                    "" "" 2 0 id))
              Scenario.sudo_prompt)
    as (Hin & Hm & _).
  - reflexivity.
  - left. reflexivity.
  - reflexivity.
  - split; [exact Hin | reflexivity].
Defined.

(** C7, as stated, fails in two ways.  A confirmation prompt that is read
    only after pacman has exited is logged but not answered; and when the
    write of the answer fails, the failure is swallowed and no note is
    logged. *)
Lemma prompt_not_always_answered :
  let run E := emitted (install_arch_package E Scenario.worker Scenario.package) Scenario.start in
  let argv := "sudo" :: "-S" :: pacman_cmd Scenario.package in
  is_prompt (rstrip Scenario.pacman_prompt) = true /\
  (In (plain Scenario.pacman_prompt) (run Scenario.env_late_prompt) /\
   ~ In (StdinWrite argv affirmative) (run Scenario.env_late_prompt) /\
   ~ In answer_note (run Scenario.env_late_prompt)) /\
  (In (plain Scenario.pacman_prompt) (run Scenario.env_closed_stdin) /\
   ~ In (StdinWrite argv affirmative) (run Scenario.env_closed_stdin) /\
   ~ In answer_note (run Scenario.env_closed_stdin)).
Proof.
  intros run argv. split; [vm_compute; reflexivity |].
  assert (Hlate : run Scenario.env_late_prompt =
            [running_note Scenario.package; Spawned argv;
             StdinWrite argv ("secret" +:+ nl);
             ConsoleOutput "loading packages...";
             plain Scenario.pacman_prompt;
             ConsoleOutput (Glyph.cross +:+ " Installation failed with return code: 1")])
    by (vm_compute; reflexivity).
  assert (Hclosed : run Scenario.env_closed_stdin =
            [running_note Scenario.package; Spawned argv;
             StdinWrite argv ("secret" +:+ nl);
             plain Scenario.pacman_prompt;
             ConsoleOutput (Glyph.cross +:+ " Installation failed with return code: 1")])
    by (vm_compute; reflexivity).
  rewrite Hlate, Hclosed.
  repeat split; simpl; try tauto;
    intros H; repeat (destruct H as [H | H]; [discriminate H |]); exact H.
Qed.

Section Answers.

Variable E : Env.

(** C7, amended: the log of the install loop is the sequence of the
    reactions to the lines that [readline()] returned while the process was
    polled, followed by the non-blank lines of the remainder read after the
    exit, which are logged and never answered.  The reaction to a polled
    line is the line itself and, when the line contains one of the
    confirmation phrases and the write of "y" and a newline to the child's
    stdin goes through, that one write and then the note; a failing write
    is swallowed and leaves neither.  Lines without a phrase trigger no
    write. *)
Theorem polled_prompts_are_answered (process : Process) (s : State) :
  let argv := p_argv process in
  let c := p_child process in
  emitted (stream_answering E process) s =
    (reactions E argv (polled_lines c) s
     ++ map plain (List.filter nonblank (rest_lines c)))%list /\
  (forall line s0,
     reaction E argv line s0 =
       if truthy line && is_prompt (rstrip line)
          && env_stdin_ok E argv affirmative (add_log (plain line) s0)
       then [plain line; StdinWrite argv affirmative; answer_note]
       else if truthy line then [plain line] else []) /\
  (forall line, is_prompt (rstrip line) = is_prompt line) /\
  affirmative = String "y" (String LF EmptyString).
Proof.
  intros argv c. split; [apply stream_answering_emitted |].
  split; [| split; [apply is_prompt_rstrip | reflexivity]].
  intros line s0. unfold reaction.
  destruct (truthy line); [| reflexivity].
  destruct (is_prompt (rstrip line)); [| reflexivity].
  destruct (env_stdin_ok E argv affirmative (add_log (plain line) s0)); reflexivity.
Qed.

End Answers.

End Prompts.

(* ------------------------------------------------------------------ *)
(** ** Running the monad step by step *)
(* ------------------------------------------------------------------ *)

Section Steps.

Lemma bind_Ok {A B} (m : M A) (k : A -> M B) s b s' :
  bind m k s = (Ok b, s') <->
  exists a s1, m s = (Ok a, s1) /\ k a s1 = (Ok b, s').
Proof.
  unfold bind. destruct (m s) as [[a|e] s1]; split.
  - intros H. now exists a, s1.
  - intros (a' & s1' & Heq & H). now injection Heq as -> ->.
  - discriminate.
  - intros (a' & s1' & Heq & _). discriminate.
Qed.

Lemma bind_run {A B} (m : M A) (k : A -> M B) s a s1 :
  m s = (Ok a, s1) -> bind m k s = k a s1.
Proof. unfold bind. now intros ->. Qed.

Lemma bind_raise {A B} (m : M A) (k : A -> M B) s e s1 :
  m s = (Raise e, s1) -> bind m k s = (Raise e, s1).
Proof. unfold bind. now intros ->. Qed.

Lemma emit_run e s : emit e s = (Ok tt, add_log e s).
Proof. reflexivity. Qed.

Lemma console_run msg s : console msg s = (Ok tt, add_log (ConsoleOutput msg) s).
Proof. reflexivity. Qed.

Lemma run_pair {A} (m : M A) s a :
  fst (m s) = Ok a -> m s = (Ok a, snd (m s)).
Proof. destruct (m s). simpl. now intros ->. Qed.

Lemma for_each_ok {A} (body : A -> M unit) l :
  (forall x s, fst (body x s) = Ok tt) -> forall s, fst (for_each l body s) = Ok tt.
Proof.
  intros H. induction l as [|x r IH]; intros s; [reflexivity |].
  simpl. rewrite (bind_run _ _ _ tt (snd (body x s))); [apply IH |].
  apply run_pair, H.
Qed.

Lemma try_except_unit_ok (m : M unit) (h : Exn -> M unit) :
  (forall e s, fst (h e s) = Ok tt) -> forall s, fst (try_except m h s) = Ok tt.
Proof.
  intros H s. unfold try_except. destruct (m s) as [[[]|e] s1]; [reflexivity | apply H].
Qed.

End Steps.

(* ------------------------------------------------------------------ *)
(** ** [install_debtap]: the order of the candidates and the first success *)
(* ------------------------------------------------------------------ *)

Section Candidates.

Variable E : Env.
Variable self : Worker.

Lemma stream_redacted_run process s :
  stream_redacted process s = (Ok tt, snd (stream_redacted process s)).
Proof. apply run_pair. apply (stream_redacted_appends process s). Qed.

Lemma update_database_ok s : fst (update_database E self s) = Ok tt.
Proof.
  unfold update_database. rewrite (bind_run _ _ _ tt _ (console_run _ _)).
  apply try_except_unit_ok. reflexivity.
Qed.

Lemma try_manager_total cand s :
  exists b, fst (try_manager E self cand s) = Ok b.
Proof.
  destruct cand as [cmd name]. unfold try_manager, try_except.
  match goal with |- context [let (_, _) := ?body s in _] => destruct (body s) as [[b|e] s1] end.
  - now exists b.
  - now exists false.
Qed.

Lemma try_manager_true cand s :
  fst (try_manager E self cand s) = Ok true -> attempt_succeeds E self cand s.
Proof.
  destruct cand as [cmd name]. unfold try_manager, try_except.
  match goal with |- context [let (_, _) := ?body s in _] =>
    destruct (body s) as [[b|e] s9] eqn:Hbody end; [| discriminate].
  simpl. intros Hb. injection Hb as ->.
  apply bind_Ok in Hbody as (cmd0 & s1 & H0 & Hbody).
  destruct cmd as [|c0 cmd']; [discriminate |]. injection H0 as <- <-.
  apply bind_Ok in Hbody as (rc & s1 & Hw & Hbody).
  unfold which, ask in Hw. destruct (env_which E c0 s) as [rc'|] eqn:Hwhich; [| discriminate].
  injection Hw as <- <-.
  destruct (rc' =? 0) eqn:Hrc; [| discriminate]. apply Z.eqb_eq in Hrc. subst rc'.
  simpl in Hbody. rewrite (bind_run _ _ _ tt _ (console_run _ _)) in Hbody.
  fold (found_note name) in Hbody.
  apply bind_Ok in Hbody as (started & s2 & Hrun & Hbody).
  destruct started as [process|].
  2: { rewrite (bind_run _ _ _ tt _ (console_run _ _)) in Hbody. discriminate. }
  rewrite (bind_run _ _ _ tt _ (stream_redacted_run process s2)) in Hbody.
  destruct (c_returncode (p_child process) =? 0) eqn:Hexit.
  2: { rewrite (bind_run _ _ _ tt _ (console_run _ _)) in Hbody. discriminate. }
  apply Z.eqb_eq in Hexit.
  rewrite (bind_run _ _ _ tt _ (console_run _ _)) in Hbody. fold completed_note in Hbody.
  apply bind_Ok in Hbody as (vrc & s4 & Hv & Hbody).
  unfold which, ask in Hv.
  destruct (env_which E "debtap" _) as [vrc'|] eqn:Hverify; [| discriminate].
  injection Hv as <- <-.
  destruct (vrc' =? 0) eqn:Hvrc.
  2: { rewrite (bind_run _ _ _ tt _ (console_run _ _)) in Hbody. discriminate. }
  apply Z.eqb_eq in Hvrc. subst vrc'.
  exists c0, process, s2. simpl. repeat split; assumption.
Qed.

Lemma try_manager_succeeds cand s :
  attempt_succeeds E self cand s -> fst (try_manager E self cand s) = Ok true.
Proof.
  destruct cand as [cmd name]. intros (cmd0 & process & s2 & H0 & Hwhich & Hrun & Hexit & Hverify).
  simpl in H0, Hrun. destruct cmd as [|c0 cmd']; [discriminate |]. injection H0 as ->.
  unfold try_manager, try_except.
  match goal with |- context [let (_, _) := ?body s in _] =>
    assert (Hbody : exists s9, body s = (Ok true, s9)) end.
  { rewrite (bind_run _ _ _ cmd0 s) by reflexivity.
    rewrite (bind_run _ _ _ 0 s) by (unfold which, ask; now rewrite Hwhich).
    simpl. rewrite (bind_run _ _ _ tt _ (console_run _ _)).
    fold (found_note name). rewrite (bind_run _ _ _ _ _ Hrun).
    rewrite (bind_run _ _ _ tt _ (stream_redacted_run process s2)).
    rewrite Hexit. simpl. rewrite (bind_run _ _ _ tt _ (console_run _ _)).
    fold completed_note.
    rewrite (bind_run _ _ _ 0 _) by (unfold which, ask; now rewrite Hverify).
    simpl. rewrite (bind_run _ _ _ tt _ (console_run _ _)).
    erewrite bind_run by (apply run_pair, update_database_ok).
    eexists. reflexivity. }
  destruct Hbody as [s9 ->]. reflexivity.
Qed.

Lemma try_manager_absent cmd0 args name s rc :
  env_which E cmd0 s = Ok rc -> rc <> 0 ->
  try_manager E self (cmd0 :: args, name) s = (Ok false, s).
Proof.
  intros Hwhich Hrc. unfold try_manager, try_except.
  rewrite (bind_run _ _ _ cmd0 s) by reflexivity.
  rewrite (bind_run _ _ _ rc s) by (unfold which, ask; now rewrite Hwhich).
  apply Z.eqb_neq in Hrc. rewrite Hrc. reflexivity.
Qed.

Lemma try_managers_all_fail cands : forall s s1,
  all_fail E self cands s = Some s1 -> try_managers E self cands s = (Ok false, s1).
Proof.
  induction cands as [|cand rest IH]; intros s s1 H; simpl in *.
  - now injection H as ->.
  - destruct (try_manager E self cand s) as [[[]|] s'] eqn:Hc; try discriminate.
    rewrite (bind_run _ _ _ _ _ Hc). now apply IH.
Qed.

Lemma try_managers_stop before cand after : forall s s1,
  all_fail E self before s = Some s1 ->
  fst (try_manager E self cand s1) = Ok true ->
  try_managers E self (before ++ cand :: after) s
    = (Ok true, snd (try_manager E self cand s1)).
Proof.
  induction before as [|c rest IH]; intros s s1 H Hok; simpl in *.
  - injection H as ->. now rewrite (bind_run _ _ _ _ _ (run_pair _ _ _ Hok)).
  - destruct (try_manager E self c s) as [[[]|] s'] eqn:Hc; try discriminate.
    rewrite (bind_run _ _ _ _ _ Hc). now apply IH.
Qed.

Lemma try_managers_cases cands : forall s,
  (exists s1, all_fail E self cands s = Some s1) \/
  (exists before cand after s1,
     cands = (before ++ cand :: after)%list /\
     all_fail E self before s = Some s1 /\
     fst (try_manager E self cand s1) = Ok true).
Proof.
  induction cands as [|cand rest IH]; intros s.
  - left. now exists s.
  - destruct (try_manager_total cand s) as [b Hb].
    destruct b.
    + right. exists [], cand, rest, s. now repeat split.
    + pose proof (run_pair _ _ _ Hb) as Hrun.
      destruct (IH (snd (try_manager E self cand s))) as [[s1 H1] | (before & c & after & s1 & -> & H1 & H2)].
      * left. exists s1. simpl. now rewrite Hrun.
      * right. exists (cand :: before), c, after, s1. repeat split; try assumption.
        simpl. now rewrite Hrun.
Qed.

Lemma report_managers_ok s : fst (report_managers E s) = Ok tt.
Proof.
  unfold report_managers.
  repeat rewrite (bind_run _ _ _ tt _ (console_run _ _)).
  apply for_each_ok. intros [cmd name] s'.
  apply try_except_unit_ok. reflexivity.
Qed.

Lemma install_debtap_fail s s1 :
  all_fail E self package_managers (add_log auto_install_note s) = Some s1 ->
  install_debtap E self s = (Ok false, snd (report_managers E s1)).
Proof.
  intros H. unfold install_debtap.
  rewrite (bind_run _ _ _ tt _ (console_run _ _)). fold auto_install_note.
  rewrite (bind_run _ _ _ _ _ (try_managers_all_fail _ _ _ H)).
  now rewrite (bind_run _ _ _ _ _ (run_pair _ _ _ (report_managers_ok s1))).
Qed.

Lemma install_debtap_stop before cand after s s1 :
  package_managers = (before ++ cand :: after)%list ->
  all_fail E self before (add_log auto_install_note s) = Some s1 ->
  fst (try_manager E self cand s1) = Ok true ->
  install_debtap E self s = (Ok true, snd (try_manager E self cand s1)).
Proof.
  intros Hsplit H Hok. unfold install_debtap.
  rewrite (bind_run _ _ _ tt _ (console_run _ _)). fold auto_install_note.
  rewrite Hsplit.
  now rewrite (bind_run _ _ _ _ _ (try_managers_stop _ _ _ _ _ H Hok)).
Qed.

(** C5: the candidates are yay, paru and pamac, in this order.  A candidate
    whose executable [which] does not find is passed over without a trace.
    The attempt with a candidate returns success exactly when its install
    process exits with status zero and the check that follows finds debtap;
    in every other case the loop goes on.  [install_debtap] returns success
    exactly when some candidate succeeds after all the candidates before it
    have failed, and it stops there: what it leaves is what the attempt
    with that candidate leaves.  It reports failure exactly when all three
    candidates have been tried and have failed. *)
Theorem first_verified_install_wins (s : State) :
  map snd package_managers = ["yay"; "paru"; "pamac"] /\
  map (fun cand => head (fst cand)) package_managers
    = [Some "yay"; Some "paru"; Some "pamac"] /\
  (forall cmd0 args name s0 rc,
     env_which E cmd0 s0 = Ok rc -> rc <> 0 ->
     try_manager E self (cmd0 :: args, name) s0 = (Ok false, s0)) /\
  (forall cand s0,
     (fst (try_manager E self cand s0) = Ok true <-> attempt_succeeds E self cand s0) /\
     (fst (try_manager E self cand s0) = Ok false <-> ~ attempt_succeeds E self cand s0)) /\
  (fst (install_debtap E self s) = Ok true <->
     exists before cand after s1,
       package_managers = (before ++ cand :: after)%list /\
       all_fail E self before (add_log auto_install_note s) = Some s1 /\
       attempt_succeeds E self cand s1) /\
  (forall before cand after s1,
     package_managers = (before ++ cand :: after)%list ->
     all_fail E self before (add_log auto_install_note s) = Some s1 ->
     attempt_succeeds E self cand s1 ->
     install_debtap E self s = (Ok true, snd (try_manager E self cand s1))) /\
  (fst (install_debtap E self s) = Ok false <->
     exists s1, all_fail E self package_managers (add_log auto_install_note s) = Some s1).
Proof.
  assert (Hiff : forall cand s0,
            fst (try_manager E self cand s0) = Ok true <-> attempt_succeeds E self cand s0).
  { intros cand s0. split; [apply try_manager_true | apply try_manager_succeeds]. }
  split; [reflexivity |]. split; [reflexivity |].
  split; [apply try_manager_absent |].
  split.
  { intros cand s0. split; [apply Hiff |].
    rewrite <- Hiff. destruct (try_manager_total cand s0) as [[] ->]; split; congruence. }
  destruct (try_managers_cases package_managers (add_log auto_install_note s))
    as [[s1 Hall] | (before & cand & after & s1 & Hsplit & Hall & Hok)].
  - (* all three fail *)
    pose proof (install_debtap_fail _ _ Hall) as Hfail.
    assert (Hnone : forall before cand after s2,
              package_managers = (before ++ cand :: after)%list ->
              all_fail E self before (add_log auto_install_note s) = Some s2 ->
              attempt_succeeds E self cand s2 -> False).
    { intros before cand after s2 Hsplit Hbefore Hsucc.
      apply Hiff in Hsucc.
      pose proof (install_debtap_stop _ _ _ _ _ Hsplit Hbefore Hsucc) as Hstop.
      congruence. }
    split; [| split].
    + rewrite Hfail. simpl. split; [discriminate |].
      intros (before & cand & after & s2 & Hsplit & Hbefore & Hsucc).
      exfalso. eapply Hnone; eassumption.
    + intros before cand after s2 Hsplit Hbefore Hsucc.
      exfalso. eapply Hnone; eassumption.
    + rewrite Hfail. simpl. split; [intros _; now exists s1 | reflexivity].
  - (* a candidate succeeds *)
    rewrite (install_debtap_stop _ _ _ _ _ Hsplit Hall Hok). simpl.
    split; [| split].
    + split; [| reflexivity]. intros _.
      exists before, cand, after, s1. repeat split; try assumption. now apply Hiff.
    + intros before' cand' after' s2 Hsplit' Hbefore' Hsucc'.
      apply Hiff in Hsucc'.
      pose proof (install_debtap_stop _ _ _ _ _ Hsplit Hall Hok) as H1.
      pose proof (install_debtap_stop _ _ _ _ _ Hsplit' Hbefore' Hsucc') as H2.
      congruence.
    + split; [discriminate |]. intros [s2 Hall2].
      pose proof (install_debtap_stop _ _ _ _ _ Hsplit Hall Hok) as H1.
      pose proof (install_debtap_fail _ _ Hall2) as H2.
      congruence.
Qed.

End Candidates.

Section CandidateScenarios.

(** yay is passed over, paru is tried and fails, pamac is tried and wins,
    and the database update follows. *)
Example third_manager_wins :
  fst (install_debtap Scenario.env_third_manager Scenario.worker Scenario.start) = Ok true /\
  List.filter (fun ev => match ev with Spawned _ => true | _ => false end)
    (log (snd (install_debtap Scenario.env_third_manager Scenario.worker Scenario.start)))
  = [Spawned ["sudo"; "-S"; "paru"; "-S"; "--noconfirm"; "debtap"];
     Spawned ["sudo"; "-S"; "pamac"; "install"; "--no-confirm"; "debtap"];
     Spawned ["sudo"; "-S"; "debtap"; "-u"]] /\
  ~ In (ConsoleOutput "  [sudo] password for alice:")
       (log (snd (install_debtap Scenario.env_third_manager Scenario.worker Scenario.start))) /\
  In (ConsoleOutput "  installing debtap...")
     (log (snd (install_debtap Scenario.env_third_manager Scenario.worker Scenario.start))).
Proof.
  split; [reflexivity |]. split; [reflexivity |]. split.
  - vm_compute. intuition discriminate.
  - vm_compute. tauto.
Qed.

End CandidateScenarios.

(* ------------------------------------------------------------------ *)
(** ** [convert_deb_package] *)
(* ------------------------------------------------------------------ *)

Section Conversion.

Import PyStr.

Variable E : Env.
Variable self : Worker.

Lemma writes_ret {A} (a : A) : writes (ret a) a [].
Proof. intros s. unfold ret. now rewrite add_logs_nil. Qed.

Lemma writes_bind {A B} (m : M A) (k : A -> M B) a b l1 l2 :
  writes m a l1 -> writes (k a) b l2 -> writes (bind m k) b (l1 ++ l2).
Proof.
  intros Hm Hk s. rewrite (bind_run _ _ _ _ _ (Hm s)), Hk. now rewrite add_logs_app.
Qed.

Lemma writes_console msg : writes (console msg) tt [ConsoleOutput msg].
Proof. intros s. reflexivity. Qed.

Lemma writes_for_each {A} (body : A -> M unit) (f : A -> list Event) l :
  (forall x, writes (body x) tt (f x)) -> writes (for_each l body) tt (flat_map f l).
Proof.
  intros H. induction l as [|x r IH]; simpl.
  - apply writes_ret.
  - eapply writes_bind; [apply H | exact IH].
Qed.

Lemma try_except_bind_run {A B} (m : M A) (k : A -> M B) h s a s1 :
  m s = (Ok a, s1) -> try_except (bind m k) h s = try_except (k a) h s1.
Proof. intros H. unfold try_except. now rewrite (bind_run _ _ _ _ _ H). Qed.

Lemma try_except_bind_raise {A B} (m : M A) (k : A -> M B) h s e s1 :
  m s = (Raise e, s1) -> try_except (bind m k) h s = h e s1.
Proof. intros H. unfold try_except. now rewrite (bind_raise _ _ _ _ _ H). Qed.

Lemma communicate_spec process input timeout s :
  let c := p_child process in
  let s1 := if env_stdin_ok E (p_argv process) input s
            then add_log (StdinWrite (p_argv process) input) s else s in
  communicate E process input timeout s =
    if match timeout with Some t => negb (c_duration c <=? t) | None => false end
    then (Raise TimeoutExpired, s1)
    else match c_comm_error c with
         | Some msg => (Raise (Error msg), set_dirs (c_effect c (dirs s1)) s1)
         | None => (Ok (c_stdout c, c_stderr c), set_dirs (c_effect c (dirs s1)) s1)
         end.
Proof.
  intros c s1. unfold communicate.
  assert (Hw : try_except (stdin_write E process input) (fun _ => ret tt) s = (Ok tt, s1)).
  { unfold try_except, stdin_write. subst s1.
    destruct (env_stdin_ok E (p_argv process) input s); reflexivity. }
  rewrite (bind_run _ _ _ _ _ Hw). fold c.
  destruct (match timeout with Some t => negb (c_duration c <=? t) | None => false end);
    [reflexivity |].
  unfold process_exited. unfold bind, modify. destruct (c_comm_error c); reflexivity.
Qed.

Lemma writes_converter_output stdout :
  writes (for_each (split LF stdout) (fun line =>
            let line := strip line in
            when (truthy line && negb (startswith "==>" line)) (console line)))
         tt (converter_output stdout).
Proof.
  apply (writes_for_each _ converter_line). intros line. unfold converter_line.
  cbv zeta. destruct (truthy (strip line) && negb (startswith "==>" (strip line))).
  - apply writes_console.
  - apply writes_ret.
Qed.

Lemma popen_ok argv c s :
  env_popen E argv s = Ok c ->
  popen E argv s = (Ok (mkProcess argv c), add_log (Spawned argv) s).
Proof. intros H. unfold popen, bind, ask, emit, modify, ret. now rewrite H. Qed.

Lemma popen_raise argv e s :
  env_popen E argv s = Raise e -> popen E argv s = (Raise e, s).
Proof. intros H. unfold popen, bind, ask. now rewrite H. Qed.

Ltac enter_conversion Htemp Hdir :=
  unfold convert_deb_package;
  erewrite try_except_bind_run by reflexivity;
  erewrite try_except_bind_run
    by (unfold self_temp_dir, bind, get_state; rewrite Htemp; reflexivity);
  erewrite try_except_bind_run by (unfold chdir; rewrite Hdir; reflexivity);
  erewrite try_except_bind_run by (apply console_run);
  fold (package_name_of) (debtap_cmd) (default_answers) (detected_note) (entered).

Lemma convert_popen_raise path wd entries s e :
  temp_dir s = Some wd -> dirs s !! wd = Some entries ->
  env_popen E (debtap_cmd path) (entered wd path s) = Raise e ->
  convert_deb_package E path s
    = (Ok None, add_log (conversion_exception_note e) (entered wd path s)).
Proof.
  intros Htemp Hdir Hp. enter_conversion Htemp Hdir.
  erewrite try_except_bind_raise by (apply popen_raise; exact Hp).
  reflexivity.
Qed.

Ltac start_debtap Htemp Hdir Hp :=
  enter_conversion Htemp Hdir;
  erewrite try_except_bind_run by (apply popen_ok; exact Hp).

Lemma answered_eq wd path s :
  (if env_stdin_ok E (debtap_cmd path) (default_answers path)
        (add_log (Spawned (debtap_cmd path)) (entered wd path s))
   then add_log (StdinWrite (debtap_cmd path) (default_answers path))
          (add_log (Spawned (debtap_cmd path)) (entered wd path s))
   else add_log (Spawned (debtap_cmd path)) (entered wd path s))
  = answered E wd path s.
Proof. reflexivity. Qed.

Ltac fold_answered wd path s :=
  match goal with
  | |- context [if env_stdin_ok E ?a ?d ?st then ?x else ?y] =>
      change (if env_stdin_ok E a d st then x else y) with (answered E wd path s)
  end.

Lemma dirs_answered wd path s : dirs (answered E wd path s) = dirs s.
Proof. unfold answered. cbv zeta. now destruct (env_stdin_ok _ _ _ _). Qed.

Lemma cwd_answered wd path s : cwd (answered E wd path s) = wd.
Proof. unfold answered. cbv zeta. now destruct (env_stdin_ok _ _ _ _). Qed.

Lemma writes_emit e : writes (emit e) tt [e].
Proof. intros s. reflexivity. Qed.

Lemma writes_kill_block process msg :
  writes (kill process ;; console msg ;; ret false) false
         [Killed (p_argv process); ConsoleOutput msg].
Proof.
  apply (writes_bind _ _ tt false [_] [_]); [apply writes_emit |].
  apply (writes_bind _ _ tt false [_] []); [apply writes_console | apply writes_ret].
Qed.

(** The timeout path. *)
Lemma convert_timeout path wd entries s c :
  temp_dir s = Some wd -> dirs s !! wd = Some entries ->
  env_popen E (debtap_cmd path) (entered wd path s) = Ok c ->
  300 < c_duration c ->
  convert_deb_package E path s
    = (Ok None, add_logs [Killed (debtap_cmd path); timed_out_note] (answered E wd path s)).
Proof.
  intros Htemp Hdir Hp Hlate. start_debtap Htemp Hdir Hp.
  unfold try_except, bind at 1, try_except_timeout, bind at 1.
  rewrite communicate_spec. cbn [p_child p_argv].
  assert (Hexp : negb (c_duration c <=? 300) = true)
    by (apply negb_true_iff, Z.leb_gt; exact Hlate).
  rewrite Hexp. fold_answered wd path s. rewrite writes_kill_block. reflexivity.
Qed.

(** [communicate] fails for another reason than the timeout. *)
Lemma convert_comm_error path wd entries s c msg :
  temp_dir s = Some wd -> dirs s !! wd = Some entries ->
  env_popen E (debtap_cmd path) (entered wd path s) = Ok c ->
  c_duration c <= 300 -> c_comm_error c = Some msg ->
  convert_deb_package E path s
    = (Ok None, add_log (conversion_exception_note (Error msg))
                  (set_dirs (c_effect c (dirs s)) (answered E wd path s))).
Proof.
  intros Htemp Hdir Hp Hin Herr. start_debtap Htemp Hdir Hp.
  unfold try_except, bind at 1, try_except_timeout, bind at 1.
  rewrite communicate_spec. cbn [p_child p_argv].
  assert (Hexp : negb (c_duration c <=? 300) = false)
    by (apply negb_false_iff, Z.leb_le; exact Hin).
  rewrite Hexp, Herr. fold_answered wd path s. rewrite dirs_answered. reflexivity.
Qed.

(** debtap exits in time: what is left is to go back and to look for the
    package, from the state [converted]. *)
Lemma convert_in_time path wd entries s c :
  temp_dir s = Some wd -> dirs s !! wd = Some entries ->
  env_popen E (debtap_cmd path) (entered wd path s) = Ok c ->
  c_duration c <= 300 -> c_comm_error c = None ->
  convert_deb_package E path s =
    match dirs (converted E wd path c s) !! cwd s with
    | None => (Ok None, add_log (conversion_exception_note (no_such_file (cwd s)))
                          (converted E wd path c s))
    | Some _ =>
        let s6 := returned E wd path c s in
        if negb (c_returncode c =? 0) then
          (Ok None, add_log (ConsoleOutput (Glyph.cross +:+ " debtap failed with return code: "
                                            +:+ pretty (c_returncode c))) s6)
        else
          match dirs s6 !! wd with
          | None => (Ok None, add_log (conversion_exception_note (no_such_file wd)) s6)
          | Some files =>
              match List.filter is_pkg_file files with
              | [] => (Ok None, add_logs ([no_package_note; files_note] ++ map listed files) s6)
              | pkg_file :: _ =>
                  (Ok (Some (path_join wd pkg_file)),
                   add_log (ConsoleOutput (Glyph.check +:+ " Found generated package: "
                                           +:+ pkg_file)) s6)
              end
          end
    end.
Proof.
  intros Htemp Hdir Hp Hin Herr. start_debtap Htemp Hdir Hp.
  assert (Hwait :
    try_except_timeout
      (out <- communicate E (mkProcess (debtap_cmd path) c) (default_answers path) (Some 300) ;;
       for_each (split LF (fst out)) (fun line =>
         let line := strip line in
         when (truthy line && negb (startswith "==>" line)) (console line)) ;;
       ret true)
      (kill (mkProcess (debtap_cmd path) c) ;;
       console (Glyph.cross +:+ " Conversion timed out after 5 minutes") ;;
       ret false)
      (add_log (Spawned (debtap_cmd path)) (entered wd path s))
    = (Ok true, converted E wd path c s)).
  { unfold try_except_timeout, bind at 1. rewrite communicate_spec. cbn [p_child p_argv].
    assert (Hexp : negb (c_duration c <=? 300) = false)
      by (apply negb_false_iff, Z.leb_le; exact Hin).
    rewrite Hexp, Herr. fold_answered wd path s. rewrite dirs_answered. cbn [fst].
    rewrite (bind_run _ _ _ _ _ (writes_converter_output (c_stdout c) _)).
    reflexivity. }
  erewrite try_except_bind_run by exact Hwait.
  cbn [negb]. unfold chdir at 1.
  destruct (dirs (converted E wd path c s) !! cwd s) as [here|] eqn:Hback.
  2: { unfold try_except, bind at 1. rewrite Hback. reflexivity. }
  erewrite try_except_bind_run by (rewrite Hback; reflexivity).
  fold (returned E wd path c s). cbn [p_child]. cbv zeta.
  destruct (c_returncode c =? 0); cbn [negb].
  2: { reflexivity. }
  unfold try_except, bind at 1, listdir at 1.
  destruct (dirs (returned E wd path c s) !! wd) as [files|] eqn:Hfiles; [| reflexivity].
  destruct (List.filter is_pkg_file files) as [|pkg_file more]; [| reflexivity].
  rewrite (bind_run _ _ _ _ _ (console_run _ _)).
  rewrite (bind_run _ _ _ _ _ (console_run _ _)).
  unfold bind at 1, listdir. cbn [dirs add_log]. 
  assert (Hfiles' : dirs (add_log files_note (add_log no_package_note (returned E wd path c s)))
                      !! wd = Some files) by exact Hfiles.
  unfold files_note, no_package_note in Hfiles'. cbn [dirs add_log] in Hfiles'.
  rewrite Hfiles'.
  rewrite (bind_run _ _ _ _ _
             (writes_for_each (fun file => console ("  - " +:+ file)) (fun file => [listed file])
                files (fun file => writes_console _) _)).
  unfold ret. f_equal.
  assert (Hm : flat_map (fun file => [listed file]) files = map listed files).
  { clear. induction files as [|f r IH]; simpl; [reflexivity | now rewrite IH]. }
  rewrite Hm. unfold add_logs, add_log. cbn. f_equal. now rewrite <- !app_assoc.
Qed.

Lemma dirs_converted wd path c s :
  dirs (converted E wd path c s) = c_effect c (dirs s).
Proof. reflexivity. Qed.

Lemma log_answered wd path s :
  log (answered E wd path s) =
    (log s ++ [detected_note path; Spawned (debtap_cmd path)]
       ++ (if env_stdin_ok E (debtap_cmd path) (default_answers path)
                (add_log (Spawned (debtap_cmd path)) (entered wd path s))
           then [StdinWrite (debtap_cmd path) (default_answers path)] else []))%list.
Proof.
  unfold answered. cbv zeta. destruct (env_stdin_ok _ _ _ _); cbn;
    now rewrite <- ?app_assoc.
Qed.


(** C6, amended: the conversion starts in a directory that exists, debtap
    is started, its output is collected within the 300 seconds without an
    exception, it has exited with status 0, the directory the conversion
    came from is still there, and the working directory can be listed and
    lists no file that ends in [.pkg.tar.zst] or [.pkg.tar.xz]: then the
    conversion returns [None], and the log ends with the note that no
    package was generated and with one line for every file the working
    directory lists. *)
Theorem conversion_without_package_fails
    (path wd : string) (entries files : list string) (s : State) (c : Child) :
  temp_dir s = Some wd ->
  dirs s !! wd = Some entries ->
  is_Some (dirs s !! cwd s) ->
  env_popen E (debtap_cmd path) (entered wd path s) = Ok c ->
  c_duration c <= 300 ->
  c_comm_error c = None ->
  c_returncode c = 0 ->
  is_Some (c_effect c (dirs s) !! cwd s) ->
  c_effect c (dirs s) !! wd = Some files ->
  List.filter is_pkg_file files = [] ->
  fst (convert_deb_package E path s) = Ok None /\
  exists before,
    emitted (convert_deb_package E path) s =
      (before ++ [no_package_note; files_note] ++ map listed files)%list.
Proof.
  intros Htemp Hdir _ Hp Hin Herr Hrc [here Hback] Hfiles Hnone.
  pose proof (convert_in_time _ _ _ _ _ Htemp Hdir Hp Hin Herr) as Heq.
  rewrite dirs_converted, Hback in Heq. cbv zeta in Heq. rewrite Hrc in Heq.
  change (negb (0 =? 0)) with false in Heq. cbv iota in Heq.
  replace (dirs (returned E wd path c s)) with (c_effect c (dirs s)) in Heq by reflexivity.
  rewrite Hfiles, Hnone in Heq.
  split; [now rewrite Heq |].
  exists ([detected_note path; Spawned (debtap_cmd path)]
          ++ (if env_stdin_ok E (debtap_cmd path) (default_answers path)
                   (add_log (Spawned (debtap_cmd path)) (entered wd path s))
              then [StdinWrite (debtap_cmd path) (default_answers path)] else [])
          ++ converter_output (c_stdout c))%list.
  apply emitted_of_log. rewrite Heq.
  cbn [snd add_logs log returned set_cwd converted set_dirs].
  rewrite log_answered. now rewrite <- !app_assoc.
Qed.

Lemma cwd_convert_in_time path wd entries s c :
  temp_dir s = Some wd -> dirs s !! wd = Some entries ->
  env_popen E (debtap_cmd path) (entered wd path s) = Ok c ->
  c_duration c <= 300 -> c_comm_error c = None ->
  cwd (snd (convert_deb_package E path s)) =
    (if bool_decide (is_Some (c_effect c (dirs s) !! cwd s)) then cwd s else wd) /\
  (c_effect c (dirs s) !! cwd s = None -> fst (convert_deb_package E path s) = Ok None).
Proof.
  intros Htemp Hdir Hp Hin Herr.
  rewrite (convert_in_time _ _ _ _ _ Htemp Hdir Hp Hin Herr), dirs_converted.
  destruct (c_effect c (dirs s) !! cwd s) as [here|] eqn:Hback.
  - split; [| discriminate]. rewrite bool_decide_eq_true_2 by eauto. cbv zeta.
    destruct (negb (c_returncode c =? 0)); [reflexivity |].
    destruct (dirs (returned E wd path c s) !! wd) as [files|]; [| reflexivity].
    destruct (List.filter is_pkg_file files); reflexivity.
  - split; [| reflexivity].
    rewrite bool_decide_eq_false_2 by (intros [? ?]; discriminate).
    cbn. apply cwd_answered.
Qed.

(** C9, amended: a conversion that starts in a directory that exists
    changes into the working directory first.  It is back in the directory
    it came from exactly when debtap has been started, has exited within
    the timeout, [communicate] has raised nothing and the directory it came
    from is still there; it then stays there, also when a later step
    raises.  When debtap times out, and when starting it or waiting for it
    raises an exception, the conversion returns [None] with the process
    still in the working directory. *)
Theorem conversion_restores_cwd_only_on_normal_exit
    (path wd : string) (entries : list string) (s : State) :
  temp_dir s = Some wd ->
  dirs s !! wd = Some entries ->
  is_Some (dirs s !! cwd s) ->
  cwd (snd (convert_deb_package E path s))
    = (if gets_back E wd path s then cwd s else wd) /\
  (gets_back E wd path s = false -> fst (convert_deb_package E path s) = Ok None) /\
  (forall c, env_popen E (debtap_cmd path) (entered wd path s) = Ok c ->
             300 < c_duration c -> gets_back E wd path s = false) /\
  (forall c msg, env_popen E (debtap_cmd path) (entered wd path s) = Ok c ->
                 c_comm_error c = Some msg -> gets_back E wd path s = false) /\
  (forall e, env_popen E (debtap_cmd path) (entered wd path s) = Raise e ->
             gets_back E wd path s = false).
Proof.
  intros Htemp Hdir _. unfold gets_back.
  destruct (env_popen E (debtap_cmd path) (entered wd path s)) as [c|e] eqn:Hp.
  - destruct (Z.leb_spec (c_duration c) 300) as [Hin | Hlate].
    + destruct (c_comm_error c) as [msg|] eqn:Herr.
      * rewrite (convert_comm_error _ _ _ _ _ _ Htemp Hdir Hp Hin Herr).
        cbn [andb]. rewrite bool_decide_eq_false_2 by discriminate. cbn [andb snd fst].
        repeat split; try reflexivity. apply cwd_answered.
      * destruct (cwd_convert_in_time _ _ _ _ _ Htemp Hdir Hp Hin Herr) as [Hcwd Hnone].
        cbn [andb]. rewrite bool_decide_eq_true_2 by reflexivity. cbn [andb].
        split; [exact Hcwd |]. split.
        { intros Hgone. apply Hnone. apply bool_decide_eq_false in Hgone.
          destruct (c_effect c (dirs s) !! cwd s); [exfalso; eauto | reflexivity]. }
        split; [| split].
        -- intros c' Hc' Hlate. injection Hc' as <-. lia.
        -- intros c' msg Hc' Hmsg. injection Hc' as <-. congruence.
        -- discriminate.
    + rewrite (convert_timeout _ _ _ _ _ Htemp Hdir Hp Hlate). cbn [andb snd fst].
      repeat split; try reflexivity. apply cwd_answered.
  - rewrite (convert_popen_raise _ _ _ _ _ Htemp Hdir Hp). cbn [snd fst].
    repeat split; reflexivity.
Qed.

Lemma not_killed_converter_output stdout : Forall not_killed (converter_output stdout).
Proof.
  unfold converter_output. induction (split LF stdout) as [|l r IH]; [constructor |].
  cbn [flat_map]. apply Forall_app. split; [| exact IH].
  unfold converter_line. cbv zeta.
  destruct (truthy (strip l) && negb (startswith "==>" (strip l)));
    repeat constructor.
Qed.

Lemma not_killed_listed files : Forall not_killed (map listed files).
Proof. induction files; cbn; repeat constructor. assumption. Qed.

(** The converse of C4: when debtap exits within the 300 seconds, it is not
    killed, whatever else happens to the conversion. *)
Lemma conversion_in_time_is_not_killed
    (path wd : string) (entries : list string) (s : State) (c : Child) :
  temp_dir s = Some wd ->
  dirs s !! wd = Some entries ->
  env_popen E (debtap_cmd path) (entered wd path s) = Ok c ->
  c_duration c <= 300 ->
  Forall not_killed (emitted (convert_deb_package E path) s).
Proof.
  intros Htemp Hdir Hp Hin. unfold emitted.
  destruct (c_comm_error c) as [msg|] eqn:Herr.
  - rewrite (convert_comm_error _ _ _ _ _ _ Htemp Hdir Hp Hin Herr).
    cbn [snd log add_log set_dirs]. rewrite log_answered, <- !app_assoc, drop_app_length.
    destruct (env_stdin_ok _ _ _ _); repeat constructor.
  - rewrite (convert_in_time _ _ _ _ _ Htemp Hdir Hp Hin Herr).
    assert (Hconv : forall tail, Forall not_killed tail ->
              Forall not_killed
                (drop (List.length (log s))
                      (log (converted E wd path c s) ++ tail))).
    { intros tail Ht. cbn [converted log add_logs set_dirs].
      rewrite log_answered, <- !app_assoc, drop_app_length.
      repeat (apply Forall_app; split); try exact Ht.
      - repeat constructor.
      - destruct (env_stdin_ok _ _ _ _); repeat constructor.
      - apply not_killed_converter_output. }
    destruct (dirs (converted E wd path c s) !! cwd s) as [here|].
    2: { cbn [snd log add_log]. apply Hconv. repeat constructor. }
    cbv zeta. destruct (negb (c_returncode c =? 0)).
    { cbn [snd log add_log returned set_cwd]. apply Hconv. repeat constructor. }
    destruct (dirs (returned E wd path c s) !! wd) as [files|].
    2: { cbn [snd log add_log returned set_cwd]. apply Hconv. repeat constructor. }
    destruct (List.filter is_pkg_file files).
    + cbn [snd log add_logs returned set_cwd]. apply Hconv.
      apply Forall_app. split; [repeat constructor | apply not_killed_listed].
    + cbn [snd log add_log returned set_cwd]. apply Hconv. repeat constructor.
Qed.

End Conversion.

Section ConversionScenarios.


(** C6, as stated, fails.  debtap exits with status 0 and leaves no
    package, but the directory the conversion came from has been removed
    in the meantime, or the output of debtap cannot be decoded: the
    conversion returns [None] through its exception handler, and the log
    holds the text of the exception and no line about the files of the
    working directory. *)
Lemma no_package_without_listing :
  let left_behind := ["build.log"; "myapp_1.0_amd64.deb"] in
  let cmd := debtap_cmd Scenario.temp_deb_path in
  let convert E := convert_deb_package E Scenario.temp_deb_path Scenario.prepared in
  let added E := emitted (convert_deb_package E Scenario.temp_deb_path) Scenario.prepared in
  List.filter is_pkg_file left_behind = [] /\
  (c_returncode Scenario.homeless_debtap = 0 /\
   dirs (snd (convert Scenario.env_homeless_debtap)) !! Scenario.work_dir = Some left_behind /\
   fst (convert Scenario.env_homeless_debtap) = Ok None /\
   added Scenario.env_homeless_debtap =
     [detected_note Scenario.temp_deb_path; Spawned cmd;
      StdinWrite cmd (default_answers Scenario.temp_deb_path);
      ConsoleOutput "Nothing to do";
      conversion_exception_note (no_such_file "/home/alice")]) /\
  (c_returncode Scenario.garbled_debtap = 0 /\
   dirs (snd (convert Scenario.env_garbled_debtap)) !! Scenario.work_dir = Some left_behind /\
   fst (convert Scenario.env_garbled_debtap) = Ok None /\
   added Scenario.env_garbled_debtap =
     [detected_note Scenario.temp_deb_path; Spawned cmd;
      StdinWrite cmd (default_answers Scenario.temp_deb_path);
      conversion_exception_note
        (Error "'utf-8' codec can't decode byte 0xff in position 0: invalid start byte")]).
Proof. vm_compute. repeat split; reflexivity. Qed.

(** C9, as stated, fails: not every exception leaves the process in the
    working directory.  debtap exits with status 0 in time but has removed
    the working directory; the conversion goes back to the directory it
    came from, fails to list the working directory and returns [None]
    through its exception handler, with the process where it was before
    the conversion. *)
Lemma exception_after_return_keeps_cwd :
  let convert := convert_deb_package Scenario.env_vanishing_debtap Scenario.temp_deb_path in
  fst (convert Scenario.prepared) = Ok None /\
  emitted convert Scenario.prepared =
    [detected_note Scenario.temp_deb_path; Spawned (debtap_cmd Scenario.temp_deb_path);
     StdinWrite (debtap_cmd Scenario.temp_deb_path) (default_answers Scenario.temp_deb_path);
     conversion_exception_note (no_such_file Scenario.work_dir)] /\
  cwd (snd (convert Scenario.prepared)) = cwd Scenario.prepared /\
  cwd (snd (convert Scenario.prepared)) <> Scenario.work_dir.
Proof. vm_compute. repeat split; try reflexivity. discriminate. Qed.

Lemma conversion_without_package_fails_witness :
  fst (convert_deb_package Scenario.env_fruitless_debtap Scenario.temp_deb_path Scenario.prepared)
    = Ok None /\
  exists before,
    emitted (convert_deb_package Scenario.env_fruitless_debtap Scenario.temp_deb_path)
            Scenario.prepared
    = (before ++ [no_package_note; files_note; listed "build.log"; listed "myapp_1.0_amd64.deb"])%list.
Proof.
  apply (conversion_without_package_fails Scenario.env_fruitless_debtap
           Scenario.temp_deb_path Scenario.work_dir ["myapp_1.0_amd64.deb"]
           ["build.log"; "myapp_1.0_amd64.deb"]
           Scenario.prepared Scenario.fruitless_debtap).
  - reflexivity.
  - vm_compute. reflexivity.
  - exists ["myapp_1.0_amd64.deb"]. vm_compute. reflexivity.
  - reflexivity.
  - vm_compute. discriminate.
  - reflexivity.
  - reflexivity.
  - exists ["myapp_1.0_amd64.deb"]. vm_compute. reflexivity.
  - vm_compute. reflexivity.
  - vm_compute. reflexivity.
Defined.

Lemma conversion_restores_cwd_only_on_normal_exit_witness :
  cwd (snd (convert_deb_package Scenario.env_slow_debtap Scenario.temp_deb_path Scenario.prepared))
    = Scenario.work_dir /\
  cwd (snd (convert_deb_package Scenario.env_fruitless_debtap Scenario.temp_deb_path
              Scenario.prepared))
    = "/home/alice".
Proof.
  split.
  - destruct (conversion_restores_cwd_only_on_normal_exit Scenario.env_slow_debtap
                Scenario.temp_deb_path Scenario.work_dir ["myapp_1.0_amd64.deb"]
                Scenario.prepared) as [H _].
    + reflexivity.
    + vm_compute. reflexivity.
    + exists ["myapp_1.0_amd64.deb"]. vm_compute. reflexivity.
    + rewrite H. vm_compute. reflexivity.
  - destruct (conversion_restores_cwd_only_on_normal_exit Scenario.env_fruitless_debtap
                Scenario.temp_deb_path Scenario.work_dir ["myapp_1.0_amd64.deb"]
                Scenario.prepared) as [H _].
    + reflexivity.
    + vm_compute. reflexivity.
    + exists ["myapp_1.0_amd64.deb"]. vm_compute. reflexivity.
    + rewrite H. vm_compute. reflexivity.
Defined.

End ConversionScenarios.

(* ------------------------------------------------------------------ *)
(** ** [run]: the working directory is removed on every way out *)
(* ------------------------------------------------------------------ *)

Section Cleanup.

Variable E : Env.
Variable self : Worker.

Lemma cleanup_spec s :
  cleanup E s =
    (Ok tt,
     match temp_dir s with
     | Some d =>
         if PyStr.truthy d && bool_decide (is_Some (dirs s !! d)) then
           let s1 := add_log cleaning_note s in
           let s2 := if env_rmtree_ok E d s1 then set_dirs (delete d (dirs s1)) s1 else s1 in
           add_log cleaned_note (add_log (Rmtree d) s2)
         else s
     | None => s
     end).
Proof.
  unfold cleanup, bind at 1, get_state. destruct (temp_dir s) as [d|]; [| reflexivity].
  unfold bind at 1, path_exists, bind at 1, get_state, ret.
  destruct (PyStr.truthy d && bool_decide (is_Some (dirs s !! d))); reflexivity.
Qed.

Lemma run_spec s :
  run E self s = (Ok tt, snd (cleanup E (before_cleanup E self s))).
Proof.
  unfold run, before_cleanup, now, bind at 1, modify, bind at 1, try_finally.
  destruct (try_except (run_body E self) (run_except E)
              (set_start_time (Some (env_time E s)) s)) as [r s1] eqn:Hbody.
  assert (Hr : r = Ok tt).
  { unfold try_except in Hbody.
    destruct (run_body E self _) as [[[]|e] s'].
    - now injection Hbody as <- _.
    - unfold run_except, bind at 1, get_state in Hbody.
      destruct (start_time s') as [t0|].
      + destruct (Qeq_bool t0 0); now injection Hbody as <- _.
      + now injection Hbody as <- _. }
  cbn [snd]. rewrite cleanup_spec. cbn [snd]. now rewrite Hr.
Qed.

(** C1: [run] always ends normally, with the [finally] block run on what
    the [try] block and the [except] block have left, whatever happened in
    them.  If by then a working directory has been created and still
    exists, the block removes it: the removal is the only thing it does
    besides two log lines, the directory is gone afterwards unless the
    removal itself fails, and such a failure raises nothing.  If the
    directory is already gone, the block does nothing at all; running it
    once more after the run raises nothing either. *)
Theorem working_directory_is_removed (s : State) (d : string) :
  let s1 := before_cleanup E self s in
  let final := snd (run E self s) in
  temp_dir s1 = Some d ->
  d <> "" ->
  fst (run E self s) = Ok tt /\
  final = snd (cleanup E s1) /\
  (is_Some (dirs s1 !! d) ->
     emitted (cleanup E) s1 = [cleaning_note; Rmtree d; cleaned_note] /\
     (env_rmtree_ok E d (add_log cleaning_note s1) = true -> dirs final !! d = None)) /\
  (dirs s1 !! d = None -> final = s1) /\
  fst (cleanup E final) = Ok tt /\
  (dirs final !! d = None -> cleanup E final = (Ok tt, final)).
Proof.
  intros s1 final Htemp Hd.
  assert (Htruthy : PyStr.truthy d = true) by (destruct d; [congruence | reflexivity]).
  assert (Hfinal : final = snd (cleanup E s1)) by (unfold final; now rewrite run_spec).
  split; [now rewrite run_spec |]. split; [exact Hfinal |].
  assert (Htemp' : temp_dir final = Some d).
  { rewrite Hfinal, cleanup_spec, Htemp, Htruthy. cbn [snd andb].
    destruct (bool_decide _); [| exact Htemp].
    cbv zeta. destruct (env_rmtree_ok _ _ _); exact Htemp. }
  split; [| split; [| split]].
  - intros Hthere. rewrite Hfinal, cleanup_spec, Htemp, Htruthy.
    rewrite bool_decide_eq_true_2 by exact Hthere. cbn [snd andb]. cbv zeta. split.
    + apply emitted_of_log. rewrite cleanup_spec, Htemp, Htruthy.
      rewrite bool_decide_eq_true_2 by exact Hthere. cbn [snd andb]. cbv zeta.
      destruct (env_rmtree_ok _ _ _); cbn; now rewrite <- !app_assoc.
    + intros ->. cbn. apply lookup_delete_eq.
  - intros Hgone. rewrite Hfinal, cleanup_spec, Htemp, Htruthy.
    rewrite bool_decide_eq_false_2; [reflexivity |].
    rewrite Hgone. intros [? ?]. discriminate.
  - now rewrite cleanup_spec.
  - intros Hgone. rewrite cleanup_spec, Htemp', Htruthy.
    rewrite bool_decide_eq_false_2; [reflexivity |].
    rewrite Hgone. intros [? ?]. discriminate.
Qed.

End Cleanup.

Section CleanupScenarios.

(** The working directory is gone after a run that installs the package,
    after a run whose conversion times out, and after a run in which the
    copy of the input raises an exception. *)
Lemma working_directory_is_removed_witness :
  (fst (run Scenario.env_success Scenario.worker Scenario.start) = Ok tt /\
   dirs (snd (run Scenario.env_success Scenario.worker Scenario.start))
     !! Scenario.work_dir = None) /\
  (fst (run Scenario.env_slow_debtap Scenario.worker Scenario.start) = Ok tt /\
   dirs (snd (run Scenario.env_slow_debtap Scenario.worker Scenario.start))
     !! Scenario.work_dir = None) /\
  (fst (run Scenario.env_copy_fails Scenario.worker Scenario.start) = Ok tt /\
   dirs (snd (run Scenario.env_copy_fails Scenario.worker Scenario.start))
     !! Scenario.work_dir = None).
Proof.
  split; [| split].
  - destruct (working_directory_is_removed Scenario.env_success Scenario.worker
                Scenario.start Scenario.work_dir) as (Hok & _ & Hthere & _);
      [vm_compute; reflexivity | discriminate |].
    split; [exact Hok |].
    apply Hthere; [eexists; vm_compute; reflexivity | reflexivity].
  - destruct (working_directory_is_removed Scenario.env_slow_debtap Scenario.worker
                Scenario.start Scenario.work_dir) as (Hok & _ & Hthere & _);
      [vm_compute; reflexivity | discriminate |].
    split; [exact Hok |].
    apply Hthere; [eexists; vm_compute; reflexivity | reflexivity].
  - destruct (working_directory_is_removed Scenario.env_copy_fails Scenario.worker
                Scenario.start Scenario.work_dir) as (Hok & _ & Hthere & _);
      [vm_compute; reflexivity | discriminate |].
    split; [exact Hok |].
    apply Hthere; [eexists; vm_compute; reflexivity | reflexivity].
Defined.

(** The three runs end as expected: success, a failed conversion after one
    start of debtap, and the report of the exception. *)
Example runs_end_as_expected :
  In (Finished true ("Package installed successfully!" +:+ PyStr.nl
                     +:+ "Total time: 0.0 seconds"))
     (log (snd (run Scenario.env_success Scenario.worker Scenario.start))) /\
  In (Finished false "Failed to convert .deb package after 0.0s")
     (log (snd (run Scenario.env_slow_debtap Scenario.worker Scenario.start))) /\
  List.filter (fun ev => match ev with Spawned _ => true | _ => false end)
     (log (snd (run Scenario.env_slow_debtap Scenario.worker Scenario.start)))
    = [Spawned (debtap_cmd Scenario.temp_deb_path)] /\
  cwd (snd (run Scenario.env_slow_debtap Scenario.worker Scenario.start))
    = Scenario.work_dir /\
  In (Finished false "Error after 0.0s: [Errno 28] No space left on device")
     (log (snd (run Scenario.env_copy_fails Scenario.worker Scenario.start))).
Proof.
  repeat split; vm_compute; tauto.
Qed.

End CleanupScenarios.

(* ------------------------------------------------------------------ *)
(** ** Events of a kind: what a computation never adds *)
(* ------------------------------------------------------------------ *)

Section Only.

Variable P : Event -> Prop.

Lemma only_ret {A} (a : A) : only P (ret a).
Proof. intros s. exists []. simpl. now rewrite app_nil_r. Qed.

Lemma only_raise {A} e : only P (@raise A e).
Proof. intros s. exists []. simpl. now rewrite app_nil_r. Qed.

Lemma only_emit e : P e -> only P (emit e).
Proof. intros H s. exists [e]. split; [reflexivity | now constructor]. Qed.

Lemma only_bind {A B} (m : M A) (k : A -> M B) :
  only P m -> (forall a, only P (k a)) -> only P (bind m k).
Proof.
  intros Hm Hk s. unfold bind. destruct (Hm s) as (e1 & Hl1 & H1).
  destruct (m s) as [[a|e] s1]; cbn [snd] in Hl1.
  - destruct (Hk a s1) as (e2 & Hl2 & H2). exists (e1 ++ e2)%list.
    rewrite Hl2, Hl1, app_assoc. split; [reflexivity | now apply Forall_app].
  - now exists e1.
Qed.

Lemma only_try_except {A} (m : M A) h :
  only P m -> (forall e, only P (h e)) -> only P (try_except m h).
Proof.
  intros Hm Hh s. unfold try_except. destruct (Hm s) as (e1 & Hl1 & H1).
  destruct (m s) as [[a|e] s1]; cbn [snd] in Hl1.
  - now exists e1.
  - destruct (Hh e s1) as (e2 & Hl2 & H2). exists (e1 ++ e2)%list.
    rewrite Hl2, Hl1, app_assoc. split; [reflexivity | now apply Forall_app].
Qed.

Lemma only_new {A} (m : M A) s ev :
  only P m -> In ev (emitted m s) -> P ev.
Proof.
  intros H Hin. destruct (H s) as (evs & Hl & Hall).
  rewrite (emitted_of_log _ _ _ Hl) in Hin.
  rewrite Forall_forall in Hall. apply Hall. now apply list_elem_of_In.
Qed.

End Only.

(* ------------------------------------------------------------------ *)
(** ** [get_sudo_password]: when the validation succeeds *)
(* ------------------------------------------------------------------ *)

Section Validation.

Import PyStr.

Variable E : Env.
Variable path : option string.

Lemma quiet_since_refl s : quiet_since s s.
Proof. exists []. split; [now rewrite app_nil_r | constructor]. Qed.

Lemma quiet_since_add_log s0 s ev :
  ~ continuation ev -> quiet_since s0 s -> quiet_since s0 (add_log ev s).
Proof.
  intros Hev (pre & Hl & Hq). exists (pre ++ [ev])%list. split.
  - cbn. now rewrite Hl, app_assoc.
  - apply Forall_app. split; [exact Hq | now constructor].
Qed.

Lemma quiet_since_probed s0 s argv input c :
  quiet_since s0 s -> quiet_since s0 (probed E argv input c s).
Proof.
  intros H. unfold probed. cbv zeta.
  assert (H2 : quiet_since s0 (add_log (Spawned argv) s)).
  { apply quiet_since_add_log; [| exact H]. intros [?|?]; discriminate. }
  destruct (env_stdin_ok E argv input (add_log (Spawned argv) s)).
  - destruct (quiet_since_add_log s0 _ (StdinWrite argv input)
                ltac:(intros [?|?]; discriminate) H2) as (pre & Hl & Hq).
    exists pre. split; [exact Hl | exact Hq].
  - destruct H2 as (pre & Hl & Hq). exists pre. split; [exact Hl | exact Hq].
Qed.

Lemma not_continues_after {A} (m : M A) s0 s :
  quiet_since s0 s -> only quiet m ->
  ~ continues (drop (List.length (log s0)) (log (snd (m s)))).
Proof.
  intros (pre & Hl & Hq) Hm. destruct (Hm s) as (evs & Hl' & Hq').
  rewrite Hl', Hl, <- app_assoc, drop_app_length.
  unfold continues. rewrite Exists_exists. intros (ev & Hin & Hc).
  apply elem_of_app in Hin. rewrite Forall_forall in Hq, Hq'.
  destruct Hin as [Hin | Hin]; [now apply (Hq ev) | now apply (Hq' ev)].
Qed.

Lemma continues_after s0 s msg :
  quiet_since s0 s ->
  continues (drop (List.length (log s0))
               (log (snd ((console_append msg ;; continue_flow path) s)))).
Proof.
  intros (pre & Hl & _).
  assert (Hc : exists next, continuation next /\
            log (snd ((console_append msg ;; continue_flow path) s))
              = (log s ++ [ConsoleAppend msg; next])%list).
  { unfold continue_flow. destruct path as [p|]; [destruct (truthy p) |].
    - exists (SingleShot 500 ConfirmAndInstall). split; [now left |].
      cbn. now rewrite <- app_assoc.
    - exists (SingleShot 500 SelectFile). split; [now right |].
      cbn. now rewrite <- app_assoc.
    - exists (SingleShot 500 SelectFile). split; [now right |].
      cbn. now rewrite <- app_assoc. }
  destruct Hc as (next & Hnext & ->).
  rewrite Hl, <- app_assoc, drop_app_length.
  unfold continues. rewrite Exists_exists. exists next. split; [| exact Hnext].
  apply elem_of_app. right. apply list_elem_of_In. right. now left.
Qed.

Lemma communicate_probe argv c input s :
  communicate E (mkProcess argv c) input None (add_log (Spawned argv) s) =
    match c_comm_error c with
    | Some msg => (Raise (Error msg), probed E argv input c s)
    | None => (Ok (c_stdout c, c_stderr c), probed E argv input c s)
    end.
Proof. rewrite communicate_spec. reflexivity. Qed.

Lemma console_append_run msg s :
  console_append msg s = (Ok tt, add_log (ConsoleAppend msg) s).
Proof. reflexivity. Qed.

Ltac is_quiet :=
  repeat first
    [ apply only_ret
    | apply only_emit; intros [?|?]; discriminate
    | apply only_bind; [| intros ?] ].

Lemma only_quiet_handler e :
  only quiet
    (console_append (Glyph.cross +:+ " Authentication error: " +:+ exn_str e) ;;
     emit (MessageBox Critical "Error"
             ("Authentication error: " +:+ exn_str e +:+ nl +:+ "Please try again.")) ;;
     emit (SingleShot 500 GetSudoPassword)).
Proof. unfold console_append. is_quiet. Qed.

Lemma only_quiet_authentication_failed stderr :
  only quiet (authentication_failed stderr).
Proof.
  unfold authentication_failed, console_append. cbv zeta.
  apply only_bind; [is_quiet | intros _].
  repeat match goal with |- context [if ?b then _ else _] => destruct b end; is_quiet.
Qed.

Lemma only_quiet_refused :
  only quiet
    (console_append (Glyph.cross +:+ " Failed to execute sudo commands") ;;
     emit (MessageBox Critical "Authentication Failed"
             ("Password accepted but cannot execute sudo commands." +:+ nl
              +:+ "Please check your sudo permissions.")) ;;
     emit (SingleShot 500 GetSudoPassword)).
Proof. unfold console_append. is_quiet. Qed.

Lemma validate_password_continues password s0 s1 :
  quiet_since s0 s1 ->
  continues (drop (List.length (log s0)) (log (snd (validate_password E path password s1))))
  <-> probes_pass E password s1.
Proof.
  intros Hq0. unfold validate_password, probes_pass.
  fold sudo_validate sudo_whoami.
  destruct (env_popen E sudo_validate s1) as [c1|e1] eqn:Hp1.
  2: { erewrite try_except_bind_raise by (apply (popen_raise E); exact Hp1).
       split.
       - intros H. exfalso. revert H. apply not_continues_after.
         + exact Hq0.
         + apply only_quiet_handler.
       - intros (c1 & c2 & Hc1 & _). discriminate. }
  erewrite try_except_bind_run by (apply (popen_ok E); exact Hp1).
  pose proof (quiet_since_probed s0 s1 sudo_validate (password +:+ nl) c1 Hq0) as Hq1.
  destruct (c_comm_error c1) as [msg1|] eqn:Herr1.
  { erewrite try_except_bind_raise by (rewrite communicate_probe, Herr1; reflexivity).
    split.
    - intros H. exfalso. revert H. apply not_continues_after; [exact Hq1 |].
      apply only_quiet_handler.
    - intros (c1' & c2 & Hc1 & Hn & _). congruence. }
  erewrite try_except_bind_run by (rewrite communicate_probe, Herr1; reflexivity).
  cbn [p_child snd fst].
  destruct (c_returncode c1 =? 0) eqn:Hrc1.
  2: { split.
       - intros H. exfalso. revert H. apply not_continues_after; [exact Hq1 |].
         apply only_try_except; [apply only_quiet_authentication_failed |].
         intros e. apply only_quiet_handler.
       - intros (c1' & c2 & Hc1 & _ & Hz & _). injection Hc1 as <-.
         apply Z.eqb_neq in Hrc1. congruence. }
  apply Z.eqb_eq in Hrc1.
  erewrite try_except_bind_run by apply console_append_run.
  fold password_ok_note.
  set (s4 := add_log password_ok_note (probed E sudo_validate (password +:+ nl) c1 s1)).
  assert (Hq4 : quiet_since s0 s4).
  { apply quiet_since_add_log; [intros [?|?]; discriminate | exact Hq1]. }
  destruct (env_popen E sudo_whoami s4) as [c2|e2] eqn:Hp2.
  2: { erewrite try_except_bind_raise by (apply (popen_raise E); exact Hp2).
       split.
       - intros H. exfalso. revert H. apply not_continues_after; [exact Hq4 |].
         apply only_quiet_handler.
       - intros (c1' & c2 & Hc1 & _ & _ & Hc2 & _). injection Hc1 as <-.
         fold s4 in Hc2. congruence. }
  erewrite try_except_bind_run by (apply (popen_ok E); exact Hp2).
  pose proof (quiet_since_probed s0 s4 sudo_whoami (password +:+ nl) c2 Hq4) as Hq6.
  destruct (c_comm_error c2) as [msg2|] eqn:Herr2.
  { erewrite try_except_bind_raise by (rewrite communicate_probe, Herr2; reflexivity).
    split.
    - intros H. exfalso. revert H. apply not_continues_after; [exact Hq6 |].
      apply only_quiet_handler.
    - intros (c1' & c2' & Hc1 & _ & _ & Hc2 & Hn & _). injection Hc1 as <-.
      fold s4 in Hc2. congruence. }
  erewrite try_except_bind_run by (rewrite communicate_probe, Herr2; reflexivity).
  cbn [p_child snd fst].
  destruct ((c_returncode c2 =? 0) && contains "root" (c_stdout c2)) eqn:Hcond.
  - apply andb_true_iff in Hcond as [Hrc2 Hroot]. apply Z.eqb_eq in Hrc2.
    split.
    + intros _. exists c1, c2. repeat split; assumption.
    + intros _.
      match goal with
      | |- continues (drop _ (log (snd (try_except ?m ?h ?st)))) =>
          assert (Hrun : try_except m h st = m st)
      end.
      { unfold try_except.
        match goal with |- context [let (_, _) := ?m ?st in _] =>
          destruct (m st) as [[[]|e] s9] eqn:Hm end; [reflexivity |].
        exfalso. unfold continue_flow in Hm.
        destruct path as [p|]; [destruct (truthy p) |]; discriminate Hm. }
      rewrite Hrun. apply continues_after. exact Hq6.
  - split.
    + intros H. exfalso. revert H. apply not_continues_after; [exact Hq6 |].
      apply only_try_except; [apply only_quiet_refused |].
      intros e. apply only_quiet_handler.
    + intros (c1' & c2' & Hc1 & _ & _ & Hc2 & _ & Hz & Hroot). injection Hc1 as <-.
      fold s4 in Hc2. rewrite Hp2 in Hc2. injection Hc2 as <-.
      rewrite Hz, Hroot in Hcond. discriminate.
Qed.

(** C8: a password that is empty or consists of whitespace only (of the
    characters that [str.strip] removes, within ASCII and beyond) is rejected
    with a message and a new prompt, and no process is started for it.
    For any other password the validation succeeds, that is, goes on with
    the installation, exactly when the probe [sudo -S -v] and the probe
    [sudo -S whoami] both run to their end with exit status zero and the
    output of the second contains "root". *)
Theorem blank_password_is_rejected_and_probes_decide
    (old : option string) (s : State) (password : string) :
  env_dialog E s = Some password ->
  let added := emitted (get_sudo_password E path old) s in
  (all_space password = true ->
     added = [validating_note;
              MessageBox Critical "Invalid Password" "Password cannot be empty.";
              SingleShot 500 GetSudoPassword]) /\
  (all_space password = false ->
     (continues added <-> probes_pass E password (add_log validating_note s))).
Proof.
  intros Hdialog added. subst added. unfold emitted, get_sudo_password.
  rewrite (bind_run _ _ _ (Some password) s) by (now rewrite Hdialog).
  rewrite (bind_run _ _ _ _ _ (console_append_run _ _)). fold validating_note.
  rewrite truthy_strip, truthy_rstrip_all_space, negb_involutive.
  split; intros Hblank; rewrite Hblank.
  - cbn. now rewrite <- !app_assoc, drop_app_length.
  - assert (Hq : quiet_since s (add_log validating_note s)).
    { apply quiet_since_add_log; [intros [?|?]; discriminate | apply quiet_since_refl]. }
    rewrite <- (validate_password_continues password s _ Hq).
    unfold bind.
    destruct (validate_password E path password (add_log validating_note s)) as [[[]|e] s9];
      reflexivity.
Qed.

End Validation.

Section ValidationScenarios.

Lemma blank_password_is_rejected_and_probes_decide_witness :
  emitted (get_sudo_password Scenario.env_blank (Some Scenario.temp_deb_path) None) Scenario.start
    = [validating_note;
       MessageBox Critical "Invalid Password" "Password cannot be empty.";
       SingleShot 500 GetSudoPassword] /\
  continues (emitted (get_sudo_password Scenario.env_root (Some Scenario.temp_deb_path) None)
               Scenario.start).
Proof.
  split.
  - apply (blank_password_is_rejected_and_probes_decide Scenario.env_blank
             (Some Scenario.temp_deb_path) None Scenario.start Scenario.blank_password);
      reflexivity.
  - apply (blank_password_is_rejected_and_probes_decide Scenario.env_root
             (Some Scenario.temp_deb_path) None Scenario.start "secret");
      [reflexivity | reflexivity |].
    exists (Scenario.child [] "" ("root" +:+ PyStr.nl) 1 0 id),
           (Scenario.child [] "" ("root" +:+ PyStr.nl) 1 0 id).
    repeat split; reflexivity.
Defined.

End ValidationScenarios.

(* ------------------------------------------------------------------ *)
(** ** What a computation adds to the log: the operations *)
(* ------------------------------------------------------------------ *)

Section Footprint.

Variable P : Event -> Prop.

Lemma only_silent {A} (m : M A) :
  (forall s, log (snd (m s)) = log s) -> only P m.
Proof. intros H s. exists []. rewrite H, app_nil_r. split; [reflexivity | constructor]. Qed.

Lemma only_weaken (Q : Event -> Prop) {A} (m : M A) :
  (forall ev, Q ev -> P ev) -> only Q m -> only P m.
Proof.
  intros HQ Hm s. destruct (Hm s) as (evs & Hl & Hall). exists evs.
  split; [exact Hl |]. eapply Forall_impl; eassumption.
Qed.

Lemma only_ask {A} (q : State -> Result A) : only P (ask q).
Proof. now apply only_silent. Qed.

Lemma only_get_state : only P get_state.
Proof. now apply only_silent. Qed.

Lemma only_modify f : (forall s, log (f s) = log s) -> only P (modify f).
Proof. intros H. apply only_silent. exact H. Qed.

Lemma only_when b m : only P m -> only P (when b m).
Proof. intros H. destruct b; [exact H | apply only_ret]. Qed.

Lemma only_for_each {A} (body : A -> M unit) l :
  (forall x, only P (body x)) -> only P (for_each l body).
Proof.
  intros H. induction l as [|x r IH]; [apply only_ret |].
  apply only_bind; [apply H | intros _; exact IH].
Qed.

Lemma only_collect {A B} (body : A -> M (list B)) l :
  (forall x, only P (body x)) -> only P (collect l body).
Proof.
  intros H. induction l as [|x r IH]; [apply only_ret |].
  cbn [collect]. apply only_bind; [apply H | intros a].
  apply only_bind; [exact IH | intros b; apply only_ret].
Qed.

Lemma only_try_except_timeout {A} (m h : M A) :
  only P m -> only P h -> only P (try_except_timeout m h).
Proof.
  intros Hm Hh s. unfold try_except_timeout. destruct (Hm s) as (e1 & Hl1 & H1).
  destruct (m s) as [[a|[|msg]] s1]; cbn [snd] in Hl1; try (now exists e1).
  destruct (Hh s1) as (e2 & Hl2 & H2). exists (e1 ++ e2)%list.
  rewrite Hl2, Hl1, app_assoc. split; [reflexivity | now apply Forall_app].
Qed.

Lemma only_try_finally {A} (m : M A) fin :
  only P m -> only P fin -> only P (try_finally m fin).
Proof.
  intros Hm Hf s. unfold try_finally. destruct (Hm s) as (e1 & Hl1 & H1).
  destruct (m s) as [r s1]. cbn [snd] in Hl1.
  destruct (Hf s1) as (e2 & Hl2 & H2).
  destruct (fin s1) as [[[]|e] s2]; cbn [snd] in *;
    exists (e1 ++ e2)%list; rewrite Hl2, Hl1, app_assoc;
    (split; [reflexivity | now apply Forall_app]).
Qed.

Variable E : Env.

Lemma only_now : only P (now E).
Proof. now apply only_silent. Qed.

Lemma only_console msg : P (ConsoleOutput msg) -> only P (console msg).
Proof. apply only_emit. Qed.

Lemma only_which name : only P (which E name).
Proof. apply only_ask. Qed.

Lemma only_getsize path : only P (getsize E path).
Proof. apply only_ask. Qed.

Lemma only_popen argv : P (Spawned argv) -> only P (popen E argv).
Proof.
  intros H. unfold popen. apply only_bind; [apply only_ask | intros c].
  apply only_bind; [now apply only_emit | intros _; apply only_ret].
Qed.

Lemma only_stdin_write process data :
  P (StdinWrite (p_argv process) data) -> only P (stdin_write E process data).
Proof.
  intros H s. unfold stdin_write. destruct (env_stdin_ok _ _ _ _).
  - exists [StdinWrite (p_argv process) data]. split; [reflexivity | now constructor].
  - exists []. cbn. rewrite app_nil_r. split; [reflexivity | constructor].
Qed.

Lemma only_process_exited process : only P (process_exited process).
Proof. now apply only_modify. Qed.

Lemma only_kill process : P (Killed (p_argv process)) -> only P (kill process).
Proof. apply only_emit. Qed.

Lemma only_communicate process input timeout :
  P (StdinWrite (p_argv process) input) -> only P (communicate E process input timeout).
Proof.
  intros H. unfold communicate.
  apply only_bind.
  { apply only_try_except; [now apply only_stdin_write | intros _; apply only_ret]. }
  intros _. cbv zeta.
  destruct (match timeout with Some t => negb (c_duration (p_child process) <=? t)
                          | None => false end); [apply only_raise |].
  apply only_bind; [apply only_process_exited | intros _].
  destruct (c_comm_error (p_child process)); [apply only_raise | apply only_ret].
Qed.

Lemma only_path_exists path : only P (path_exists path).
Proof. now apply only_silent. Qed.

Lemma only_listdir path : only P (listdir path).
Proof. apply only_silent. intros s. unfold listdir. now destruct (dirs s !! path). Qed.

Lemma only_getcwd : only P getcwd.
Proof. now apply only_silent. Qed.

Lemma only_chdir path : only P (chdir path).
Proof. apply only_silent. intros s. unfold chdir. now destruct (dirs s !! path). Qed.

Lemma only_mkdtemp prefix : only P (mkdtemp E prefix).
Proof.
  unfold mkdtemp. apply only_bind; [apply only_ask | intros d].
  apply only_bind; [now apply only_modify | intros _; apply only_ret].
Qed.

Lemma only_copy2 src dst : only P (copy2 E src dst).
Proof.
  unfold copy2. apply only_bind; [apply only_ask | intros _].
  apply only_silent. intros s. now destruct (dirs s !! dirname dst).
Qed.

Lemma only_rmtree path : P (Rmtree path) -> only P (rmtree_ignore_errors E path).
Proof.
  intros H s. exists [Rmtree path]. unfold rmtree_ignore_errors. cbn [snd].
  split; [| now constructor]. now destruct (env_rmtree_ok E path s).
Qed.

End Footprint.

(* ------------------------------------------------------------------ *)
(** ** What the steps of a run add to the log *)
(* ------------------------------------------------------------------ *)

Section StepFootprint.

Variable E : Env.
Variable self : Worker.

Lemma only_bind_popen P {B} argv (k : Process -> M B) :
  P (Spawned argv) ->
  (forall c, only P (k (mkProcess argv c))) ->
  only P (bind (popen E argv) k).
Proof.
  intros Hs Hk s. unfold bind at 1.
  destruct (env_popen E argv s) as [c|e] eqn:Hp.
  - rewrite (popen_ok E _ _ _ Hp).
    destruct (Hk c (add_log (Spawned argv) s)) as (evs & Hl & Hall).
    exists (Spawned argv :: evs). rewrite Hl. cbn. rewrite <- app_assoc.
    split; [reflexivity | now constructor].
  - rewrite (popen_raise E _ _ _ Hp). exists []. cbn. rewrite app_nil_r.
    split; [reflexivity | constructor].
Qed.

Lemma sudo_is_step cmd :
  has_password self -> step_event self (Spawned ("sudo" :: "-S" :: cmd)).
Proof. intros H. left. split; [now exists cmd | exact H]. Qed.

Lemma password_is_step cmd pw :
  sudo_password self = Some pw ->
  step_event self (StdinWrite ("sudo" :: "-S" :: cmd) (pw +:+ PyStr.nl)).
Proof. intros H. left. split; [now exists cmd | left; now exists pw]. Qed.

Lemma answer_is_step cmd : step_event self (StdinWrite ("sudo" :: "-S" :: cmd) affirmative).
Proof. left. split; [now exists cmd | now right]. Qed.

Lemma run_sudo_command_cases cmd s :
  let argv := "sudo" :: "-S" :: cmd in
  run_sudo_command E self cmd s = (Ok None, s) \/
  (exists e, run_sudo_command E self cmd s = (Raise e, s)) \/
  (has_password self /\
   exists e, run_sudo_command E self cmd s = (Raise e, add_log (Spawned argv) s)) \/
  (exists c pw,
     sudo_password self = Some pw /\ PyStr.truthy pw = true /\
     env_popen E argv s = Ok c /\
     run_sudo_command E self cmd s
       = (Ok (Some (mkProcess argv c)),
          add_logs [Spawned argv; StdinWrite argv (pw +:+ PyStr.nl)] s)).
Proof.
  intros argv. unfold run_sudo_command.
  destruct (sudo_password self) as [pw|] eqn:Hpw; [| now left].
  destruct (PyStr.truthy pw) eqn:Ht; cbn [negb]; [| now left].
  cbn [app]. fold argv.
  destruct (env_popen E argv s) as [c|e] eqn:Hp.
  - rewrite (bind_run _ _ _ _ _ (popen_ok E _ _ _ Hp)).
    unfold bind, stdin_write. cbn [p_argv].
    destruct (env_stdin_ok E argv (pw +:+ PyStr.nl) (add_log (Spawned argv) s)).
    + right. right. right. exists c, pw. repeat split; try assumption.
      unfold ret, add_logs, add_log. cbn. now rewrite <- app_assoc.
    + right. right. left. split; [now exists pw | eexists; reflexivity].
  - right. left. exists e. now rewrite (bind_raise _ _ _ _ _ (popen_raise E _ _ _ Hp)).
Qed.

Lemma only_bind_run_sudo {B} cmd (k : option Process -> M B) :
  (forall c, only (step_event self) (k (Some (mkProcess ("sudo" :: "-S" :: cmd) c)))) ->
  only (step_event self) (k None) ->
  only (step_event self) (bind (run_sudo_command E self cmd) k).
Proof.
  intros Hsome Hnone s. unfold bind at 1.
  destruct (run_sudo_command_cases cmd s)
    as [-> | [[e ->] | [[Hhas [e ->]] | (c & pw & Hpw & Ht & _ & ->)]]].
  - exact (Hnone s).
  - exists []. cbn. rewrite app_nil_r. split; [reflexivity | constructor].
  - eexists [_]. split; [reflexivity |].
    constructor; [now apply sudo_is_step | constructor].
  - destruct (Hsome c (add_logs [Spawned ("sudo" :: "-S" :: cmd);
                                  StdinWrite ("sudo" :: "-S" :: cmd) (pw +:+ PyStr.nl)] s))
      as (evs & Hl & Hall).
    eexists (_ :: _ :: evs). rewrite Hl. cbn. rewrite <- app_assoc. split; [reflexivity |].
    constructor; [apply sudo_is_step; now exists pw |].
    constructor; [now apply password_is_step | exact Hall].
Qed.

Ltac step_side :=
  first [ exact I
        | apply answer_is_step
        | right; eexists; split; reflexivity
        | right; eexists; reflexivity
        | eexists; reflexivity ].

Ltac steps :=
  repeat first
    [ apply only_ret | apply only_raise
    | apply only_console; exact I
    | apply only_which | apply only_getsize | apply only_now | apply only_get_state
    | apply only_listdir | apply only_getcwd | apply only_chdir
    | apply only_process_exited | apply only_path_exists
    | apply only_kill; step_side
    | apply only_stdin_write; step_side
    | apply only_communicate; step_side
    | apply only_when
    | apply only_for_each; intros ?
    | apply only_collect; intros ?
    | apply only_bind_run_sudo; [intros ? |]
    | apply only_bind_popen; [step_side | intros ?]
    | apply only_try_except_timeout
    | apply only_try_except; [| intros ?]
    | apply only_bind; [| intros ?]
    | match goal with |- only _ (if ?b then _ else _) => destruct b end
    | match goal with |- only _ (match ?x with _ => _ end) => destruct x end ].

Lemma only_stream_redacted process : only (step_event self) (stream_redacted process).
Proof. unfold stream_redacted, redacted_line, redacted_rest. steps. Qed.

Lemma only_update_database : only (step_event self) (update_database E self).
Proof.
  unfold update_database.
  apply only_bind; [steps | intros _].
  apply only_try_except; [| intros e; steps].
  apply only_bind_run_sudo; [intros c | steps].
  apply only_bind; [apply only_stream_redacted | intros _]. steps.
Qed.

Lemma only_try_manager cand : only (step_event self) (try_manager E self cand).
Proof.
  destruct cand as [cmd name]. unfold try_manager.
  apply only_try_except; [| intros e; steps].
  apply only_bind; [unfold first_arg; steps | intros cmd0].
  apply only_bind; [steps | intros rc].
  destruct (negb (rc =? 0)); [steps |].
  apply only_bind; [steps | intros _].
  apply only_bind_run_sudo; [intros c | steps].
  apply only_bind; [apply only_stream_redacted | intros _].
  cbv zeta. destruct (_ =? 0); [| steps].
  apply only_bind; [steps | intros _].
  apply only_bind; [steps | intros vrc].
  destruct (vrc =? 0); [| steps].
  apply only_bind; [steps | intros _].
  apply only_bind; [apply only_update_database | intros _]. steps.
Qed.

Lemma only_try_managers cands : only (step_event self) (try_managers E self cands).
Proof.
  induction cands as [|cand rest IH]; [apply only_ret |].
  cbn [try_managers]. apply only_bind; [apply only_try_manager | intros []];
    [apply only_ret | exact IH].
Qed.

Lemma only_report_managers : only (step_event self) (report_managers E).
Proof. unfold report_managers, first_arg. steps. Qed.

Lemma only_install_debtap : only (step_event self) (install_debtap E self).
Proof.
  unfold install_debtap. apply only_bind; [steps | intros _].
  apply only_bind; [apply only_try_managers | intros []]; [apply only_ret |].
  apply only_bind; [apply only_report_managers | intros _; apply only_ret].
Qed.

Lemma only_check_debtap : only (step_event self) (check_debtap E self).
Proof.
  unfold check_debtap. apply only_try_except.
  - apply only_bind; [steps | intros rc]. destruct (rc =? 0); [steps |].
    apply only_bind; [steps | intros _; apply only_install_debtap].
  - intros e. apply only_bind; [steps | intros _].
    apply only_bind; [steps | intros _; apply only_install_debtap].
Qed.

Lemma only_convert_deb_package path :
  only (step_event self) (convert_deb_package E path).
Proof.
  unfold convert_deb_package, self_temp_dir.
  apply only_try_except; [| intros e; steps].
  steps.
Qed.

Lemma only_stream_answering cmd c :
  only (step_event self) (stream_answering E (mkProcess ("sudo" :: "-S" :: cmd) c)).
Proof. unfold stream_answering, answer_line, remaining_lines. steps. Qed.

Lemma only_install_arch_package path :
  only (step_event self) (install_arch_package E self path).
Proof.
  unfold install_arch_package. apply only_try_except; [| intros e; steps].
  cbv zeta. apply only_bind; [steps | intros _].
  apply only_bind_run_sudo; [intros c | steps].
  apply only_bind; [apply only_stream_answering | intros output_lines].
  unfold failure_tip. steps.
Qed.

Lemma try_except_console {A} msg (k : unit -> M A) h s :
  try_except (bind (console msg) k) h s
    = try_except (k tt) h (add_log (ConsoleOutput msg) s).
Proof. reflexivity. Qed.

(** The first thing [install_arch_package] does is to log its command line. *)
Lemma install_arch_package_log (package_path : string) (s : State) :
  exists tail,
    log (snd (install_arch_package E self package_path s))
      = (log s ++ running_note package_path :: tail)%list.
Proof.
  unfold install_arch_package. cbv zeta.
  fold (pacman_cmd package_path). fold (running_note package_path).
  unfold running_note at 1. rewrite try_except_console.
  fold (running_note package_path).
  match goal with
  | |- context [try_except ?m ?h _] =>
      assert (Hrest : only (step_event self) (try_except m h))
  end.
  { apply only_try_except; [| intros e; steps].
    apply only_bind_run_sudo; [intros c | steps].
    apply only_bind; [apply only_stream_answering | intros output_lines].
    unfold failure_tip. steps. }
  destruct (Hrest (add_log (running_note package_path) s)) as (tail & Hl & _).
  exists tail. rewrite Hl. cbn [log add_log]. now rewrite <- app_assoc.
Qed.

End StepFootprint.

(* ------------------------------------------------------------------ *)
(** ** [check_debtap] and [install_arch_package]: what decides the result *)
(* ------------------------------------------------------------------ *)

Section StepResults.

Variable E : Env.
Variable self : Worker.

Lemma install_debtap_total s : exists b, fst (install_debtap E self s) = Ok b.
Proof.
  destruct (try_managers_cases E self package_managers (add_log auto_install_note s))
    as [[s1 Hall] | (before & cand & after & s1 & Hsplit & Hall & Hok)].
  - exists false. now rewrite (install_debtap_fail E self _ _ Hall).
  - exists true. now rewrite (install_debtap_stop E self _ _ _ _ _ Hsplit Hall Hok).
Qed.

Lemma try_except_no_raise {A} (m : M A) h s a :
  fst (m s) = Ok a -> try_except m h s = m s.
Proof. unfold try_except. destruct (m s) as [[a'|e] s1]; [reflexivity | discriminate]. Qed.

(** X7: [check_debtap] never raises.  When [which] finds debtap it returns
    [True] after one log line, with no process started; when [which] does
    not find it, or cannot be run, its result and everything it does are
    those of [install_debtap]. *)
Theorem check_debtap_outcome (s : State) :
  (exists b, fst (check_debtap E self s) = Ok b) /\
  (env_which E "debtap" s = Ok 0 ->
     check_debtap E self s = (Ok true, add_log debtap_ready_note s)) /\
  (forall rc, env_which E "debtap" s = Ok rc -> rc <> 0 ->
     check_debtap E self s = install_debtap E self (add_log debtap_missing_note s)) /\
  (forall e, env_which E "debtap" s = Raise e ->
     check_debtap E self s = install_debtap E self (add_logs (debtap_check_error_notes e) s)).
Proof.
  assert (Hfound : env_which E "debtap" s = Ok 0 ->
            check_debtap E self s = (Ok true, add_log debtap_ready_note s)).
  { intros Hw. unfold check_debtap.
    erewrite try_except_bind_run by (unfold which, ask; rewrite Hw; reflexivity).
    reflexivity. }
  assert (Hmissing : forall rc, env_which E "debtap" s = Ok rc -> rc <> 0 ->
            check_debtap E self s = install_debtap E self (add_log debtap_missing_note s)).
  { intros rc Hw Hrc. unfold check_debtap.
    erewrite try_except_bind_run by (unfold which, ask; rewrite Hw; reflexivity).
    apply Z.eqb_neq in Hrc. rewrite Hrc.
    erewrite try_except_bind_run by apply console_run.
    destruct (install_debtap_total (add_log debtap_missing_note s)) as [b Hb].
    now apply (try_except_no_raise _ _ _ b). }
  assert (Herror : forall e, env_which E "debtap" s = Raise e ->
            check_debtap E self s
              = install_debtap E self (add_logs (debtap_check_error_notes e) s)).
  { intros e Hw. unfold check_debtap.
    erewrite try_except_bind_raise by (unfold which, ask; rewrite Hw; reflexivity).
    rewrite (bind_run _ _ _ _ _ (console_run _ _)).
    rewrite (bind_run _ _ _ _ _ (console_run _ _)).
    f_equal. unfold add_logs, add_log, debtap_check_error_notes. cbn.
    now rewrite <- app_assoc. }
  split; [| now repeat split].
  destruct (env_which E "debtap" s) as [rc|e] eqn:Hw.
  - destruct (Z.eq_dec rc 0) as [-> | Hrc].
    + exists true. now rewrite Hfound.
    + rewrite (Hmissing rc eq_refl Hrc). apply install_debtap_total.
  - rewrite (Herror e eq_refl). apply install_debtap_total.
Qed.

Lemma install_arch_package_verdict (package_path : string) (s : State) :
  (fst (install_arch_package E self package_path s) = Ok false
   /\ ~ pacman_succeeds E self package_path s)
  \/ (fst (install_arch_package E self package_path s) = Ok true
      /\ pacman_succeeds E self package_path s).
Proof.
  unfold pacman_succeeds.
  destruct (run_sudo_command_cases E self (pacman_cmd package_path)
              (add_log (running_note package_path) s))
    as [Hrun | [[e Hrun] | [[_ [e Hrun]] | (c & pw & _ & _ & _ & Hrun)]]].
  - left. split.
    + unfold install_arch_package, try_except. cbv zeta.
      rewrite (bind_run _ _ _ _ _ (console_run _ _)).
      fold (pacman_cmd package_path). fold (running_note package_path).
      rewrite (bind_run _ _ _ _ _ Hrun). reflexivity.
    + intros (process & s2 & Hs & _). congruence.
  - left. split.
    + unfold install_arch_package, try_except. cbv zeta.
      rewrite (bind_run _ _ _ _ _ (console_run _ _)).
      fold (pacman_cmd package_path). fold (running_note package_path).
      rewrite (bind_raise _ _ _ _ _ Hrun). reflexivity.
    + intros (process & s2 & Hs & _). congruence.
  - left. split.
    + unfold install_arch_package, try_except. cbv zeta.
      rewrite (bind_run _ _ _ _ _ (console_run _ _)).
      fold (pacman_cmd package_path). fold (running_note package_path).
      rewrite (bind_raise _ _ _ _ _ Hrun). reflexivity.
    + intros (process & s2 & Hs & _). congruence.
  - destruct (install_arch_package_started E self _ _ _ _ Hrun) as [tail ->].
    cbn [fst p_child].
    destruct (Z.eqb_spec (c_returncode c) 0) as [Hz | Hz]; [right | left];
      (split; [reflexivity |]).
    + eexists _, _. split; [exact Hrun | exact Hz].
    + intros (process & s2 & Hs & Hz'). rewrite Hrun in Hs. injection Hs as <- _.
      now cbn [p_child] in Hz'.
Qed.

Lemma run_sudo_command_some cmd s process s2 :
  let argv := "sudo" :: "-S" :: cmd in
  run_sudo_command E self cmd s = (Ok (Some process), s2) <->
  exists pw c,
    sudo_password self = Some pw /\ PyStr.truthy pw = true /\
    env_popen E argv s = Ok c /\
    env_stdin_ok E argv (pw +:+ PyStr.nl) (add_log (Spawned argv) s) = true /\
    process = mkProcess argv c /\
    s2 = add_logs [Spawned argv; StdinWrite argv (pw +:+ PyStr.nl)] s.
Proof.
  intros argv.
  cbv beta iota zeta delta
    [run_sudo_command bind popen ask emit modify ret stdin_write].
  destruct (sudo_password self) as [pw|];
    [| split; [discriminate | intros (? & ? & ? & _); discriminate]].
  destruct (PyStr.truthy pw) eqn:Ht; cbn [negb].
  2: { split; [discriminate | intros (pw' & c & Hpw & Ht' & _)].
       injection Hpw as <-. congruence. }
  cbn [app]. fold argv.
  destruct (env_popen E argv s) as [c|e] eqn:Hp; cbn [p_argv].
  2: { split; [discriminate | intros (pw' & c & _ & _ & Hc & _); discriminate]. }
  destruct (env_stdin_ok E argv (pw +:+ PyStr.nl) (add_log (Spawned argv) s)) eqn:Hok.
  - split.
    + intros H. injection H as <- <-. exists pw, c. repeat split; try assumption.
      unfold add_logs, add_log. cbn. now rewrite <- app_assoc.
    + intros (pw' & c' & Hpw & _ & Hc & _ & -> & ->).
      injection Hpw as <-. injection Hc as <-. f_equal.
      unfold add_logs, add_log. cbn. now rewrite <- app_assoc.
  - split; [discriminate | intros (pw' & c' & Hpw & _ & _ & Hok' & _)].
    injection Hpw as <-. congruence.
Qed.

Lemma pacman_succeeds_started package_path s :
  pacman_succeeds E self package_path s <->
  exists pw c,
    pacman_started E self package_path (add_log (running_note package_path) s) pw c /\
    c_returncode c = 0.
Proof.
  unfold pacman_succeeds, pacman_started. cbv zeta. split.
  - intros (process & s2 & Hrun & Hz).
    apply run_sudo_command_some in Hrun as (pw & c & Hpw & Ht & Hp & Hok & -> & _).
    now exists pw, c.
  - intros (pw & c & (Hpw & Ht & Hp & Hok) & Hz).
    eexists (mkProcess _ c), _. split; [| exact Hz].
    apply run_sudo_command_some. exists pw, c. now repeat split.
Qed.

(** X8: [install_arch_package] never raises, and it returns [True] only
    when the worker holds a password that is not empty, the command line
    [sudo -S pacman -U --noconfirm --needed] with the package has been
    started, has taken the password and has exited with status zero.
    Conversely, when pacman has been started in this way, the loop that
    reads its output has come to its end with the lines it collected, and
    the exit status is zero, it returns [True]: what the lines say does
    not change the result. *)
Theorem install_succeeds_only_when_pacman_exits_zero (package_path : string) (s : State) :
  let argv := "sudo" :: "-S" :: pacman_cmd package_path in
  let s1 := add_log (running_note package_path) s in
  (exists b, fst (install_arch_package E self package_path s) = Ok b) /\
  (fst (install_arch_package E self package_path s) = Ok true ->
   exists pw c, pacman_started E self package_path s1 pw c /\ c_returncode c = 0) /\
  (forall pw c collected s3,
     pacman_started E self package_path s1 pw c ->
     stream_answering E (mkProcess argv c)
       (add_logs [Spawned argv; StdinWrite argv (pw +:+ PyStr.nl)] s1) = (Ok collected, s3) ->
     c_returncode c = 0 ->
     fst (install_arch_package E self package_path s) = Ok true).
Proof.
  cbv zeta.
  destruct (install_arch_package_verdict package_path s) as [[Hr Hp] | [Hr Hp]];
    rewrite Hr; (split; [eexists; reflexivity |]); split.
  - discriminate.
  - intros pw c collected s3 Hstart _ Hz. destruct Hp.
    apply pacman_succeeds_started. now exists pw, c.
  - intros _. now apply pacman_succeeds_started.
  - reflexivity.
Qed.

End StepResults.

(* ------------------------------------------------------------------ *)
(** ** What a whole run adds to the log *)
(* ------------------------------------------------------------------ *)

Section RunFootprint.

Variable E : Env.
Variable self : Worker.

Section AnyKind.

Variable P : Event -> Prop.
Hypothesis Hstep : forall ev, step_event self ev -> P ev.

Lemma only_step_check_debtap : only P (check_debtap E self).
Proof. apply (only_weaken P (step_event self)); [exact Hstep | apply only_check_debtap]. Qed.

Lemma only_step_convert path : only P (convert_deb_package E path).
Proof.
  apply (only_weaken P (step_event self)); [exact Hstep | apply only_convert_deb_package].
Qed.

Lemma only_step_install path : only P (install_arch_package E self path).
Proof.
  apply (only_weaken P (step_event self)); [exact Hstep | apply only_install_arch_package].
Qed.

Lemma only_step_console msg : only P (console msg).
Proof. apply only_console. apply Hstep. exact I. Qed.

Lemma only_elapsed_since t0 : only P (elapsed_since E t0).
Proof. unfold elapsed_since. apply only_bind; [apply only_now | intros t; apply only_ret]. Qed.

End AnyKind.

(** One statement of [run_body] that is not a branch: [P] holds of what it
    adds, given that it holds of the events of the steps. *)
Ltac run_step Hstep :=
  first
    [ apply only_step_check_debtap; exact Hstep
    | apply only_step_convert; exact Hstep
    | apply only_step_install; exact Hstep
    | apply only_step_console; exact Hstep
    | apply only_elapsed_since
    | apply only_getsize | apply only_now | apply only_mkdtemp | apply only_copy2
    | apply only_get_state
    | apply only_modify; reflexivity
    | apply only_emit; first [exact I | reflexivity | intros ?; discriminate] ].

Ltac run_walk Hstep :=
  repeat first
    [ apply only_bind; [run_step Hstep | intros ?]
    | run_step Hstep
    | match goal with |- only _ (if ?b then _ else _) => destruct b end
    | match goal with |- only _ (match ?x with _ => _ end) => destruct x end ].

Lemma worker_event_step ev : step_event self ev -> worker_event self ev.
Proof. destruct ev; cbn; tauto. Qed.

Lemma only_run : only (worker_event self) (run E self).
Proof.
  unfold run.
  apply only_bind; [apply only_now | intros t0].
  apply only_bind; [now apply only_modify | intros _].
  apply only_try_finally; [apply only_try_except |].
  - unfold run_body. cbv zeta. run_walk worker_event_step.
  - intros e. unfold run_except.
    apply only_bind; [apply only_get_state | intros st].
    apply only_bind; [| intros total_time; run_walk worker_event_step].
    destruct (start_time st) as [t1|]; [destruct (Qeq_bool t1 0) |];
      first [apply only_ret | apply only_elapsed_since].
  - unfold cleanup. apply only_bind; [apply only_get_state | intros st].
    destruct (temp_dir st) as [d|]; [| apply only_ret].
    apply only_bind; [apply only_path_exists | intros there].
    apply only_when.
    apply only_bind; [apply only_step_console, worker_event_step | intros _].
    apply only_bind; [now apply only_rmtree | intros _].
    apply only_step_console, worker_event_step.
Qed.

(** *** Events that come once *)

Lemma filter_none f evs : Forall (other_than f) evs -> List.filter f evs = [].
Proof.
  induction 1 as [|ev evs Hev _ IH]; [reflexivity |].
  cbn. unfold other_than in Hev. now rewrite Hev.
Qed.

Lemma once_bind_step f {A B} (m : M A) (k : A -> M B) :
  only (other_than f) m -> (forall a, once f (k a)) -> once f (bind m k).
Proof.
  intros Hm Hk s. unfold bind. destruct (Hm s) as (e1 & Hl1 & H1).
  destruct (m s) as [[a|e] s1]; cbn [snd] in Hl1.
  - destruct (Hk a s1) as (e2 & Hl2 & H2). exists (e1 ++ e2)%list.
    rewrite Hl2, Hl1, app_assoc. split; [reflexivity |].
    rewrite List.filter_app, (filter_none _ _ H1). exact H2.
  - exists e1. split; [exact Hl1 |]. cbn. now apply filter_none.
Qed.

Lemma once_emit f ev : f ev = true -> once f (emit ev).
Proof. intros H s. exists [ev]. split; [reflexivity |]. cbn. now rewrite H. Qed.

Lemma results_app a b : results (a ++ b) = (results a ++ results b)%list.
Proof. apply List.filter_app. Qed.

Lemma results_none evs : Forall no_result evs -> results evs = [].
Proof. apply filter_none. Qed.

Lemma no_result_step ev : step_event self ev -> no_result ev.
Proof. destruct ev; cbn; first [reflexivity | intros []]. Qed.

Ltac report_walk :=
  repeat first
    [ apply once_emit; reflexivity
    | apply once_bind_step; [run_step no_result_step | intros ?]
    | match goal with |- once _ (if ?b then _ else _) => destruct b end
    | match goal with |- once _ (match ?x with _ => _ end) => destruct x end ].

Lemma reports_run_body : once is_finished (run_body E self).
Proof. unfold run_body. cbv zeta. report_walk. Qed.

Lemma reports_run_except e :
  once is_finished (run_except E e) /\ forall s, fst (run_except E e s) = Ok tt.
Proof.
  split.
  - unfold run_except.
    apply once_bind_step; [apply only_get_state | intros st].
    apply once_bind_step; [| intros total_time; report_walk].
    destruct (start_time st) as [t1|]; [destruct (Qeq_bool t1 0) |];
      first [apply only_ret | apply only_elapsed_since].
  - intros s. unfold run_except, bind at 1, get_state.
    destruct (start_time s) as [t1|]; [destruct (Qeq_bool t1 0) |]; reflexivity.
Qed.

Lemma only_cleanup P :
  (forall msg, P (ConsoleOutput msg)) -> (forall d, P (Rmtree d)) -> only P (cleanup E).
Proof.
  intros Hc Hr. unfold cleanup. apply only_bind; [apply only_get_state | intros st].
  destruct (temp_dir st) as [d|]; [| apply only_ret].
  apply only_bind; [apply only_path_exists | intros there].
  apply only_when.
  apply only_bind; [apply only_console, Hc | intros _].
  apply only_bind; [apply only_rmtree, Hr | intros _].
  apply only_console, Hc.
Qed.

(** *** The percentages *)

Lemma progress_of_app a b : progress_of (a ++ b) = (progress_of a ++ progress_of b)%list.
Proof. apply flat_map_app. Qed.

Lemma progress_none evs : Forall no_progress evs -> progress_of evs = [].
Proof.
  induction 1 as [|ev evs Hev _ IH]; [reflexivity |].
  unfold no_progress, progress_of in Hev. cbn [flat_map] in Hev.
  rewrite app_nil_r in Hev. unfold progress_of in *. cbn [flat_map].
  now rewrite Hev, IH.
Qed.

Lemma stages_last {A} (m : M A) marks : only no_progress m -> stages m marks.
Proof.
  intros Hm s. destruct (Hm s) as (evs & Hl & Hall). exists evs.
  split; [exact Hl |]. rewrite (progress_none _ Hall). apply prefix_nil.
Qed.

Lemma stages_bind_step {A B} (m : M A) (k : A -> M B) marks :
  only no_progress m -> (forall a, stages (k a) marks) -> stages (bind m k) marks.
Proof.
  intros Hm Hk s. unfold bind. destruct (Hm s) as (e1 & Hl1 & H1).
  destruct (m s) as [[a|e] s1]; cbn [snd] in Hl1.
  - destruct (Hk a s1) as (e2 & Hl2 & H2). exists (e1 ++ e2)%list.
    rewrite Hl2, Hl1, app_assoc. split; [reflexivity |].
    now rewrite progress_of_app, (progress_none _ H1).
  - exists e1. split; [exact Hl1 |]. rewrite (progress_none _ H1). apply prefix_nil.
Qed.

Lemma stages_progress {B} pct (k : M B) marks :
  stages k marks -> stages (bind (emit (ProgressValue pct)) (fun _ => k)) (pct :: marks).
Proof.
  intros Hk s. unfold bind, emit, modify.
  destruct (Hk (add_log (ProgressValue pct) s)) as (evs & Hl & Hp).
  exists (ProgressValue pct :: evs). rewrite Hl. cbn. rewrite <- app_assoc.
  split; [reflexivity |]. now apply prefix_cons.
Qed.

Lemma no_progress_step ev : step_event self ev -> no_progress ev.
Proof. destruct ev; cbn; first [reflexivity | intros []]. Qed.

Ltac stage_walk :=
  repeat first
    [ apply stages_progress
    | apply stages_bind_step; [run_step no_progress_step | intros ?]
    | apply stages_last; run_step no_progress_step
    | match goal with |- stages (if ?b then _ else _) _ => destruct b end
    | match goal with |- stages (match ?x with _ => _ end) _ => destruct x end ].

Lemma stages_run_body : stages (run_body E self) progress_marks.
Proof. unfold run_body, progress_marks. cbv zeta. stage_walk. Qed.

(** *** The removal *)

Lemma no_removal_step ev : step_event self ev -> no_removal ev.
Proof. destruct ev; cbn; first [reflexivity | intros []]. Qed.

Lemma no_removal_before_cleanup :
  only no_removal (try_except (run_body E self) (run_except E)).
Proof.
  apply only_try_except.
  - unfold run_body. cbv zeta. run_walk no_removal_step.
  - intros e. unfold run_except.
    apply only_bind; [apply only_get_state | intros st].
    apply only_bind; [| intros total_time; run_walk no_removal_step].
    destruct (start_time st) as [t1|]; [destruct (Qeq_bool t1 0) |];
      first [apply only_ret | apply only_elapsed_since].
Qed.

Lemma no_success_quiet evs :
  Forall (other_than is_success) evs -> reports_success evs = false.
Proof.
  induction 1 as [| ev evs Hev _ IH]; [reflexivity |].
  cbn. unfold other_than in Hev. now rewrite Hev.
Qed.

Lemma after_pacman_later l e1 e2 :
  after_pacman E self (l ++ e1) e2 -> after_pacman E self l (e1 ++ e2).
Proof.
  intros (p & s1 & pre & post & Hp & Hl & He).
  exists p, s1, (e1 ++ pre)%list, post. split; [exact Hp |]. split.
  - now rewrite Hl, <- app_assoc.
  - now rewrite He, app_assoc.
Qed.

Lemma after_pacman_more l e1 e2 :
  after_pacman E self l e1 -> after_pacman E self l (e1 ++ e2).
Proof.
  intros (p & s1 & pre & post & Hp & Hl & He).
  exists p, s1, pre, (post ++ e2)%list. split; [exact Hp |]. split; [exact Hl |].
  now rewrite He, <- app_assoc.
Qed.

Lemma vouched_only {A} (m : M A) : only (other_than is_success) m -> vouched E self m.
Proof.
  intros H s. destruct (H s) as (evs & Hl & Hq). exists evs. split; [exact Hl |].
  rewrite (no_success_quiet _ Hq). discriminate.
Qed.

Lemma vouched_bind_step {A B} (m : M A) (k : A -> M B) :
  only (other_than is_success) m -> (forall a, vouched E self (k a)) ->
  vouched E self (bind m k).
Proof.
  intros Hm Hk s. unfold bind. destruct (Hm s) as (e1 & Hl1 & H1).
  destruct (m s) as [[a|e] s1]; cbn [snd] in Hl1.
  - destruct (Hk a s1) as (e2 & Hl2 & H2). exists (e1 ++ e2)%list.
    split; [now rewrite Hl2, Hl1, app_assoc |].
    unfold reports_success. rewrite existsb_app.
    fold (reports_success e1). rewrite (no_success_quiet _ H1). cbn [orb].
    intros Hs. apply after_pacman_later. rewrite <- Hl1. now apply H2.
  - exists e1. split; [exact Hl1 |]. rewrite (no_success_quiet _ H1). discriminate.
Qed.

Lemma vouched_followed l e1 e2 :
  (reports_success e1 = true -> after_pacman E self l e1) ->
  Forall (other_than is_success) e2 ->
  reports_success (e1 ++ e2) = true -> after_pacman E self l (e1 ++ e2).
Proof.
  intros H1 H2. unfold reports_success. rewrite existsb_app.
  fold (reports_success e2). rewrite (no_success_quiet _ H2), orb_false_r.
  intros Hs. apply after_pacman_more. now apply H1.
Qed.

Lemma vouched_try_except {A} (m : M A) h :
  vouched E self m -> (forall e, only (other_than is_success) (h e)) ->
  vouched E self (try_except m h).
Proof.
  intros Hm Hh s. unfold try_except. destruct (Hm s) as (e1 & Hl1 & H1).
  destruct (m s) as [[a|e] s1]; cbn [snd] in Hl1.
  - now exists e1.
  - destruct (Hh e s1) as (e2 & Hl2 & H2). exists (e1 ++ e2)%list.
    split; [now rewrite Hl2, Hl1, app_assoc |]. now apply vouched_followed.
Qed.

Lemma vouched_try_finally {A} (m : M A) fin :
  vouched E self m -> only (other_than is_success) fin ->
  vouched E self (try_finally m fin).
Proof.
  intros Hm Hf s. unfold try_finally. destruct (Hm s) as (e1 & Hl1 & H1).
  destruct (m s) as [r s1]. cbn [snd] in Hl1.
  destruct (Hf s1) as (e2 & Hl2 & H2).
  destruct (fin s1) as [[[]|e] s2]; cbn [snd] in *;
    exists (e1 ++ e2)%list;
    (split; [now rewrite Hl2, Hl1, app_assoc | now apply vouched_followed]).
Qed.

Lemma not_success_step ev : step_event self ev -> other_than is_success ev.
Proof. destruct ev; cbn; first [reflexivity | intros []]. Qed.

Lemma vouched_bind_install {B} package_path (k : bool -> M B) :
  only (other_than is_success) (k false) -> only (fun _ => True) (k true) ->
  vouched E self (bind (install_arch_package E self package_path) k).
Proof.
  intros Hf Ht s. unfold bind.
  destruct (install_arch_package_log E self package_path s) as [tail Hl].
  destruct (only_step_install _ not_success_step package_path s)
    as (e1 & Hl1 & H1).
  destruct (install_arch_package_verdict E self package_path s) as [[Hr Hp] | [Hr Hp]];
    destruct (install_arch_package E self package_path s) as [[b|e] s1];
    cbn [fst snd] in *; try discriminate; injection Hr as ->.
  - destruct (Hf s1) as (e2 & Hl2 & H2). exists (e1 ++ e2)%list.
    split; [now rewrite Hl2, Hl1, app_assoc |].
    rewrite no_success_quiet by (apply Forall_app; now split). discriminate.
  - destruct (Ht s1) as (e2 & Hl2 & _).
    exists ((running_note package_path :: tail) ++ e2)%list.
    split; [now rewrite Hl2, Hl, app_assoc |]. intros _.
    exists package_path, s, [], (tail ++ e2)%list.
    split; [exact Hp |]. split; [now rewrite app_nil_r | reflexivity].
Qed.

Ltac vouch_walk :=
  repeat first
    [ apply vouched_bind_install;
        [run_walk not_success_step | run_walk (fun (ev : Event) (_ : step_event self ev) => I)]
    | apply vouched_bind_step; [run_step not_success_step | intros ?]
    | apply vouched_only; apply only_emit; reflexivity
    | match goal with |- vouched _ _ (if ?b then _ else _) => destruct b end
    | match goal with |- vouched _ _ (match ?x with _ => _ end) => destruct x end ].

Lemma vouched_run_body : vouched E self (run_body E self).
Proof. unfold run_body. cbv zeta. vouch_walk. Qed.

Lemma vouched_run : vouched E self (run E self).
Proof.
  unfold run.
  apply vouched_bind_step; [apply only_now | intros t0].
  apply vouched_bind_step; [now apply only_modify | intros _].
  apply vouched_try_finally; [apply vouched_try_except |].
  - apply vouched_run_body.
  - intros e. unfold run_except.
    apply only_bind; [apply only_get_state | intros st].
    apply only_bind; [| intros total_time; run_walk not_success_step].
    destruct (start_time st) as [t1|]; [destruct (Qeq_bool t1 0) |];
      first [apply only_ret | apply only_elapsed_since].
  - apply only_cleanup; reflexivity.
Qed.

Lemma no_milestone evs :
  Forall (other_than is_milestone) evs ->
  reports_complete evs = false /\ reports_success evs = false.
Proof.
  induction 1 as [| ev evs Hev _ [IH1 IH2]]; [now split |].
  unfold other_than, is_milestone in Hev. apply orb_false_iff in Hev as [H1 H2].
  cbn. now rewrite H1, H2.
Qed.

Lemma agrees_app_l e1 e2 :
  Forall (other_than is_milestone) e1 -> agrees e2 -> agrees (e1 ++ e2).
Proof.
  intros H1 H2. destruct (no_milestone _ H1) as [Hc Hs].
  unfold agrees, reports_complete, reports_success in *.
  rewrite !existsb_app. now rewrite Hc, Hs.
Qed.

Lemma agrees_app_r e1 e2 :
  agrees e1 -> Forall (other_than is_milestone) e2 -> agrees (e1 ++ e2).
Proof.
  intros H1 H2. destruct (no_milestone _ H2) as [Hc Hs].
  unfold agrees, reports_complete, reports_success in *.
  rewrite !existsb_app. now rewrite Hc, Hs, !orb_false_r.
Qed.

Lemma agree_only {A} (m : M A) : only (other_than is_milestone) m -> agree m.
Proof.
  intros H s. destruct (H s) as (evs & Hl & Hq). exists evs. split; [exact Hl |].
  destruct (no_milestone _ Hq) as [Hc Hs]. unfold agrees. now rewrite Hc, Hs.
Qed.

Lemma agree_bind_step {A B} (m : M A) (k : A -> M B) :
  only (other_than is_milestone) m -> (forall a, agree (k a)) -> agree (bind m k).
Proof.
  intros Hm Hk s. unfold bind. destruct (Hm s) as (e1 & Hl1 & H1).
  destruct (m s) as [[a|e] s1]; cbn [snd] in Hl1.
  - destruct (Hk a s1) as (e2 & Hl2 & H2). exists (e1 ++ e2)%list.
    split; [now rewrite Hl2, Hl1, app_assoc | now apply agrees_app_l].
  - exists e1. split; [exact Hl1 |].
    destruct (no_milestone _ H1) as [Hc Hs]. unfold agrees. now rewrite Hc, Hs.
Qed.

Lemma agree_try_except {A} (m : M A) h :
  agree m -> (forall e, only (other_than is_milestone) (h e)) -> agree (try_except m h).
Proof.
  intros Hm Hh s. unfold try_except. destruct (Hm s) as (e1 & Hl1 & H1).
  destruct (m s) as [[a|e] s1]; cbn [snd] in Hl1.
  - now exists e1.
  - destruct (Hh e s1) as (e2 & Hl2 & H2). exists (e1 ++ e2)%list.
    split; [now rewrite Hl2, Hl1, app_assoc | now apply agrees_app_r].
Qed.

Lemma agree_try_finally {A} (m : M A) fin :
  agree m -> only (other_than is_milestone) fin -> agree (try_finally m fin).
Proof.
  intros Hm Hf s. unfold try_finally. destruct (Hm s) as (e1 & Hl1 & H1).
  destruct (m s) as [r s1]. cbn [snd] in Hl1.
  destruct (Hf s1) as (e2 & Hl2 & H2).
  destruct (fin s1) as [[[]|e] s2]; cbn [snd] in *;
    exists (e1 ++ e2)%list;
    (split; [now rewrite Hl2, Hl1, app_assoc | now apply agrees_app_r]).
Qed.

Lemma agree_tail e1 e2 e3 :
  agrees [e1; e2; e3] -> agree (emit e1 ;; emit e2 ;; emit e3).
Proof.
  intros H s. exists [e1; e2; e3]. split; [| exact H]. cbn. now rewrite <- !app_assoc.
Qed.

Lemma no_milestone_step ev : step_event self ev -> other_than is_milestone ev.
Proof. destruct ev; cbn; first [reflexivity | intros []]. Qed.

Ltac agree_walk :=
  repeat first
    [ apply agree_bind_step; [run_step no_milestone_step | intros ?]
    | apply agree_only; apply only_emit; reflexivity
    | apply agree_tail; reflexivity
    | match goal with |- agree (if ?b then _ else _) => destruct b end
    | match goal with |- agree (match ?x with _ => _ end) => destruct x end ].

Lemma agree_run : agree (run E self).
Proof.
  unfold run.
  apply agree_bind_step; [apply only_now | intros t0].
  apply agree_bind_step; [now apply only_modify | intros _].
  apply agree_try_finally; [apply agree_try_except |].
  - unfold run_body. cbv zeta. agree_walk.
  - intros e. unfold run_except.
    apply only_bind; [apply only_get_state | intros st].
    apply only_bind; [| intros total_time; run_walk no_milestone_step].
    destruct (start_time st) as [t1|]; [destruct (Qeq_bool t1 0) |];
      first [apply only_ret | apply only_elapsed_since].
  - apply only_cleanup; reflexivity.
Qed.

Lemma ends_bind_step {A B} (m : M A) (k : A -> M B) :
  only (fun _ => True) m -> (forall a, ends_with_result (k a)) ->
  ends_with_result (bind m k).
Proof.
  intros Hm Hk s. unfold bind. destruct (Hm s) as (e1 & Hl1 & _).
  destruct (m s) as [[a|e] s1]; cbn [fst snd] in *.
  - destruct (Hk a s1) as (e2 & Hl2 & H2). exists (e1 ++ e2)%list.
    split; [now rewrite Hl2, Hl1, app_assoc |].
    destruct (fst (k a s1)); [| exact I].
    destruct H2 as (before & ok & msg & ->).
    exists (e1 ++ before)%list, ok, msg. now rewrite app_assoc.
  - now exists e1.
Qed.

Lemma ends_emit ok msg : ends_with_result (emit (Finished ok msg)).
Proof. intros s. exists [Finished ok msg]. split; [reflexivity |]. now exists [], ok, msg. Qed.

Ltac ends_walk :=
  repeat first
    [ apply ends_emit
    | apply ends_bind_step;
        [run_step (fun (ev : Event) (_ : step_event self ev) => I) | intros ?]
    | match goal with |- ends_with_result (if ?b then _ else _) => destruct b end
    | match goal with |- ends_with_result (match ?x with _ => _ end) => destruct x end ].

Lemma ends_run_body : ends_with_result (run_body E self).
Proof. unfold run_body. cbv zeta. ends_walk. Qed.

Lemma run_except_run e s :
  exists total_time,
    run_except E e s
      = (Ok tt,
         add_logs [ConsoleOutput (PyStr.nl +:+ Glyph.cross +:+ " Error after "
                                  +:+ env_fmt1 E total_time +:+ "s: " +:+ exn_str e);
                   error_result E total_time e] s).
Proof.
  unfold run_except, bind at 1, get_state.
  destruct (start_time s) as [t1|]; [destruct (Qeq_bool t1 0) |];
    eexists; unfold elapsed_since, now, ask, bind, ret, console, emit, modify, fmt1,
      error_result, add_logs, add_log; cbn; now rewrite <- app_assoc.
Qed.

End RunFootprint.

(* ------------------------------------------------------------------ *)
(** ** [run]: one result, ordered percentages, one removal, known children *)
(* ------------------------------------------------------------------ *)

Section RunProperties.

Variable E : Env.
Variable self : Worker.

Lemma only_no_result_cleanup : only no_result (cleanup E).
Proof. now apply only_cleanup. Qed.

Lemma only_no_progress_cleanup : only no_progress (cleanup E).
Proof. now apply only_cleanup. Qed.

Lemma run_log s :
  log (snd (run E self s)) = log (snd (cleanup E (before_cleanup E self s))).
Proof. now rewrite run_spec. Qed.

Lemma run_results_once s : List.length (results (emitted (run E self) s)) = 1%nat.
Proof.
  unfold emitted. rewrite run_log. unfold before_cleanup.
  set (s0 := set_start_time (Some (env_time E s)) s).
  change (log s) with (log s0).
  destruct (only_no_result_cleanup
              (snd (try_except (run_body E self) (run_except E) s0))) as (e3 & Hl3 & H3).
  rewrite Hl3. clear Hl3.
  assert (Hmid : exists evs,
            log (snd (try_except (run_body E self) (run_except E) s0)) = (log s0 ++ evs)%list
            /\ List.length (results evs) = 1%nat).
  { unfold try_except. destruct (reports_run_body E self s0) as (e1 & Hl1 & H1).
    destruct (run_body E self s0) as [[[]|e] s1]; cbn [fst snd] in *.
    - now exists e1.
    - destruct (reports_run_except E self e) as [Hrep Hok].
      destruct (Hrep s1) as (e2 & Hl2 & H2). rewrite Hok in H2.
      exists (e1 ++ e2)%list. rewrite Hl2, Hl1, app_assoc. split; [reflexivity |].
      unfold results. now rewrite List.filter_app, H1. }
  destruct Hmid as (evs & -> & Hone).
  rewrite <- app_assoc, drop_app_length, results_app, (results_none _ H3), app_nil_r.
  exact Hone.
Qed.

(** X1: when [run] returns, [finished] has been emitted exactly once,
    whether the run has installed the package, stopped at a failed step or
    been cut short by an exception; and at no point of a run has it been
    emitted twice: every initial part of what the run emits holds at most
    one result.  (The children of the model are finite scripts, so that
    every run of the model returns; a run that waits for ever for a child
    that never exits has emitted an initial part only.) *)
Theorem run_reports_exactly_once (s : State) :
  List.length (results (emitted (run E self) s)) = 1%nat /\
  forall sofar,
    sofar `prefix_of` emitted (run E self) s -> (List.length (results sofar) <= 1)%nat.
Proof.
  pose proof (run_results_once s) as Hone. split; [exact Hone |].
  intros sofar [rest Hrest]. rewrite Hrest, results_app, List.length_app in Hone. lia.
Qed.

Lemma only_no_progress_run_except e : only no_progress (run_except E e).
Proof.
  unfold run_except.
  apply only_bind; [apply only_get_state | intros st].
  apply only_bind.
  - destruct (start_time st) as [t1|]; [destruct (Qeq_bool t1 0) |];
      first [apply only_ret | apply only_elapsed_since].
  - intros total_time.
    apply only_bind; [apply only_console; reflexivity | intros _].
    apply only_emit. reflexivity.
Qed.

(** X2: the percentages of a run are, in order, the first ones of 5, 10,
    15, 20, 70, 75, 100: they never decrease, never repeat and stay within
    0..100, on every way through the run. *)
Theorem run_progress_is_ordered (s : State) :
  progress_of (emitted (run E self) s) `prefix_of` progress_marks.
Proof.
  unfold emitted. rewrite run_log. unfold before_cleanup.
  set (s0 := set_start_time (Some (env_time E s)) s).
  change (log s) with (log s0).
  destruct (only_no_progress_cleanup
              (snd (try_except (run_body E self) (run_except E) s0))) as (e3 & Hl3 & H3).
  rewrite Hl3. clear Hl3.
  assert (Hmid : exists evs,
            log (snd (try_except (run_body E self) (run_except E) s0)) = (log s0 ++ evs)%list
            /\ progress_of evs `prefix_of` progress_marks).
  { unfold try_except. destruct (stages_run_body E self s0) as (e1 & Hl1 & H1).
    destruct (run_body E self s0) as [[[]|e] s1]; cbn [fst snd] in *.
    - now exists e1.
    - destruct (only_no_progress_run_except e s1) as (e2 & Hl2 & H2).
      exists (e1 ++ e2)%list. rewrite Hl2, Hl1, app_assoc. split; [reflexivity |].
      now rewrite progress_of_app, (progress_none _ H2), app_nil_r. }
  destruct Hmid as (evs & -> & Hpre).
  rewrite <- app_assoc, drop_app_length, progress_of_app, (progress_none _ H3), app_nil_r.
  exact Hpre.
Qed.

Lemma removals_none evs : Forall no_removal evs -> List.filter is_rmtree evs = [].
Proof. apply filter_none. Qed.

(** X3: a run removes a tree at most once, and only in its [finally]
    block: the one removal is that of its working directory, when one has
    been created and is still there. *)
Theorem run_removes_once (s : State) :
  let s1 := before_cleanup E self s in
  List.filter is_rmtree (emitted (run E self) s) =
    match temp_dir s1 with
    | Some d =>
        if PyStr.truthy d && bool_decide (is_Some (dirs s1 !! d)) then [Rmtree d] else []
    | None => []
    end.
Proof.
  intros s1. unfold emitted. rewrite run_log. fold s1.
  assert (Hmid : exists evs, log s1 = (log s ++ evs)%list /\ Forall no_removal evs).
  { unfold s1, before_cleanup.
    exact (no_removal_before_cleanup E self (set_start_time (Some (env_time E s)) s)). }
  destruct Hmid as (evs & Hl & Hnone).
  rewrite cleanup_spec. cbn [snd].
  destruct (temp_dir s1) as [d|].
  2: { rewrite Hl, drop_app_length. now apply removals_none. }
  destruct (PyStr.truthy d && bool_decide (is_Some (dirs s1 !! d))).
  2: { rewrite Hl, drop_app_length. now apply removals_none. }
  cbv zeta.
  assert (Hlog : forall st, log st = log (add_log cleaning_note s1) ->
            log (add_log cleaned_note (add_log (Rmtree d) st))
              = (log s ++ evs ++ [cleaning_note; Rmtree d; cleaned_note])%list).
  { intros st Hst. cbn [log add_log]. rewrite Hst. cbn [log add_log].
    rewrite Hl, <- !app_assoc. reflexivity. }
  destruct (env_rmtree_ok E d (add_log cleaning_note s1));
    rewrite Hlog by reflexivity;
    rewrite drop_app_length, List.filter_app, (removals_none _ Hnone); reflexivity.
Qed.

(** X4: the only processes a run starts with [subprocess.Popen] are sudo
    command lines and debtap on the copied package, and a sudo command
    line is started only when the worker holds a password that is not
    empty.  (The look-ups with [which], which go through [subprocess.run],
    are no [Popen] of the program and are not among the events.) *)
Theorem run_starts_only_sudo_and_debtap (s : State) (argv : list string) :
  In (Spawned argv) (emitted (run E self) s) ->
  (to_sudo argv /\ has_password self) \/ to_debtap argv.
Proof. intros H. exact (only_new _ _ _ _ (only_run E self) H). Qed.

(** X5: whatever a run writes to a child goes to one of two places.  A sudo
    command line gets the password of the worker followed by a newline, or
    the answer "y" and a newline; debtap gets its three default answers.
    In particular the password is written to sudo only. *)
Theorem run_writes_only_password_and_answers (s : State) (argv : list string) (data : string) :
  In (StdinWrite argv data) (emitted (run E self) s) ->
  (to_sudo argv /\
   ((exists pw, sudo_password self = Some pw /\ data = pw +:+ PyStr.nl)
    \/ data = affirmative))
  \/ (exists temp_deb_path,
        argv = debtap_cmd temp_deb_path /\ data = default_answers temp_deb_path).
Proof. intros H. exact (only_new _ _ _ _ (only_run E self) H). Qed.

(** X6: the only process a run ever kills is debtap: neither a backend
    install nor the pacman install is bounded by a timeout. *)
Theorem run_kills_only_debtap (s : State) (argv : list string) :
  In (Killed argv) (emitted (run E self) s) -> to_debtap argv.
Proof. intros H. exact (only_new _ _ _ _ (only_run E self) H). Qed.

End RunProperties.

Section RunPropertyScenarios.

Lemma run_starts_only_sudo_and_debtap_witness :
  (to_sudo ("sudo" :: "-S" :: pacman_cmd Scenario.package) /\ has_password Scenario.worker)
  \/ to_debtap ("sudo" :: "-S" :: pacman_cmd Scenario.package).
Proof.
  apply (run_starts_only_sudo_and_debtap Scenario.env_success Scenario.worker Scenario.start).
  vm_compute. tauto.
Defined.

Lemma run_writes_only_password_and_answers_witness :
  (to_sudo ("sudo" :: "-S" :: pacman_cmd Scenario.package) /\
   ((exists pw, sudo_password Scenario.worker = Some pw /\ affirmative = pw +:+ PyStr.nl)
    \/ affirmative = affirmative))
  \/ (exists temp_deb_path,
        "sudo" :: "-S" :: pacman_cmd Scenario.package = debtap_cmd temp_deb_path
        /\ affirmative = default_answers temp_deb_path).
Proof.
  apply (run_writes_only_password_and_answers Scenario.env_success Scenario.worker
           Scenario.start).
  vm_compute. tauto.
Defined.

Lemma run_kills_only_debtap_witness :
  to_debtap (debtap_cmd Scenario.temp_deb_path).
Proof.
  apply (run_kills_only_debtap Scenario.env_slow_debtap Scenario.worker Scenario.start).
  vm_compute. tauto.
Defined.

End RunPropertyScenarios.



(* ------------------------------------------------------------------ *)
(** ** Success is reported only after pacman has succeeded *)
(* ------------------------------------------------------------------ *)

Section HonestSuccess.

Variable E : Env.
Variable self : Worker.

(** X9: a run reports success only after pacman has succeeded: when
    [finished] is emitted with [True], the log of the run holds the command
    line of [install_arch_package] for a package, and pacman, started behind
    sudo from the state in which that line was logged, exited with status
    zero. *)
Theorem run_reports_success_only_after_pacman (s : State) :
  reports_success (emitted (run E self) s) = true ->
  after_pacman E self (log s) (emitted (run E self) s).
Proof.
  destruct (vouched_run E self s) as (evs & Hl & H).
  now rewrite (emitted_of_log _ _ _ Hl).
Qed.

End HonestSuccess.

Lemma run_reports_success_only_after_pacman_witness :
  after_pacman Scenario.env_success Scenario.worker (log Scenario.start)
    (emitted (run Scenario.env_success Scenario.worker) Scenario.start).
Proof.
  apply (run_reports_success_only_after_pacman Scenario.env_success Scenario.worker
           Scenario.start).
  vm_compute. reflexivity.
Defined.

(* ------------------------------------------------------------------ *)
(** ** [convert_deb_package]: when a path comes back *)
(* ------------------------------------------------------------------ *)

Section ConversionResult.

Variable E : Env.



End ConversionResult.


(* ------------------------------------------------------------------ *)
(** ** [install_arch_package]: the hint after a failure *)
(* ------------------------------------------------------------------ *)

Section FailureTip.

Import PyStr.

Lemma startswith_app p : forall a b, startswith p a = true -> startswith p (a +:+ b) = true.
Proof.
  induction p as [|x p IH]; [reflexivity |].
  intros [|y a] b; [discriminate |]. cbn [startswith]. intros H.
  apply andb_true_iff in H as [Hx Hp].
  change (startswith (String x p) (String y (a +:+ b)) = true). cbn [startswith].
  now rewrite Hx, (IH _ _ Hp).
Qed.

Lemma contains_cons p c r :
  contains p (String c r) = startswith p (String c r) || contains p r.
Proof. reflexivity. Qed.

Lemma contains_nil p : contains p EmptyString = startswith p EmptyString.
Proof. cbn. apply orb_false_r. Qed.

Lemma contains_start p a : startswith p a = true -> contains p a = true.
Proof. destruct a; [now rewrite contains_nil | rewrite contains_cons; now intros ->]. Qed.

Lemma contains_app_l p a b : contains p a = true -> contains p (a +:+ b) = true.
Proof.
  induction a as [|c r IH].
  - rewrite contains_nil. intros H. apply contains_start.
    now apply (startswith_app p EmptyString b).
  - rewrite contains_cons. intros H. apply orb_true_iff in H as [H | H].
    + apply contains_start. now apply (startswith_app p (String c r) b).
    + change (contains p (String c (r +:+ b)) = true). rewrite contains_cons.
      rewrite (IH H). apply orb_true_r.
Qed.

Lemma contains_app_r p a b : contains p b = true -> contains p (a +:+ b) = true.
Proof.
  intros H. induction a as [|c r IH]; [exact H |].
  change (contains p (String c (r +:+ b)) = true). rewrite contains_cons, IH.
  apply orb_true_r.
Qed.

Lemma mentions_join p sep line lines :
  In line lines -> mentions p line = true -> mentions p (join sep lines) = true.
Proof.
  unfold mentions, join. intros Hin Hm.
  induction lines as [|x [|y r] IH]; [destruct Hin | |].
  - destruct Hin as [-> | []]. exact Hm.
  - change (concat sep (x :: y :: r)) with (x +:+ sep +:+ concat sep (y :: r)).
    rewrite !lower_app. destruct Hin as [-> | Hin].
    + now apply contains_app_l.
    + apply contains_app_r, contains_app_r. now apply IH.
Qed.

Variable E : Env.
Variable self : Worker.

(** X11: pacman has been started behind sudo and has taken the password,
    the loop that reads its output has come to its end, and the exit
    status is not zero.  If one of the lines the loop has collected
    mentions "conflicting files", in any letter case,
    [install_arch_package] returns [False] and the last two lines it logs
    are the return code and the hint about conflicting files, whatever the
    other lines say. *)
Theorem failed_install_names_the_conflict
    (package_path : string) (s s3 : State) (pw : string) (c : Child)
    (collected : list string) (line : string) :
  let argv := "sudo" :: "-S" :: pacman_cmd package_path in
  let s1 := add_log (running_note package_path) s in
  pacman_started E self package_path s1 pw c ->
  stream_answering E (mkProcess argv c)
    (add_logs [Spawned argv; StdinWrite argv (pw +:+ nl)] s1) = (Ok collected, s3) ->
  c_returncode c <> 0 ->
  In line collected ->
  mentions "conflicting files" line = true ->
  fst (install_arch_package E self package_path s) = Ok false /\
  exists before,
    emitted (install_arch_package E self package_path) s
      = (before ++ [failed_note (c_returncode c); conflict_tip])%list.
Proof.
  intros argv s1 (Hpw & Ht & Hp & Hok) Hread Hrc Hin Hm.
  set (process := mkProcess argv c) in *.
  set (s2 := add_logs [Spawned argv; StdinWrite argv (pw +:+ nl)] s1) in *.
  assert (Hrun : run_sudo_command E self (pacman_cmd package_path) s1
                 = (Ok (Some process), s2)).
  { apply run_sudo_command_some. exists pw, c. now repeat split. }
  change (c_returncode c) with (c_returncode (p_child process)) in *.
  subst s1.
  pose proof (mentions_join "conflicting files" nl line collected Hin Hm) as Htext.
  unfold mentions in Htext.
  assert (Hinstall :
    install_arch_package E self package_path s
      = (Ok false,
         add_logs [failed_note (c_returncode (p_child process)); conflict_tip] s3)).
  { unfold install_arch_package, try_except.
    unfold bind at 1. unfold console at 1, emit, modify.
    fold (pacman_cmd package_path). fold (running_note package_path).
    unfold bind at 1. rewrite Hrun.
    unfold bind at 1. rewrite Hread.
    apply Z.eqb_neq in Hrc. rewrite Hrc.
    unfold bind at 1. unfold console at 1, emit, modify.
    unfold bind at 1. unfold failure_tip. rewrite Htext.
    unfold console, emit, modify, ret. cbn [snd]. f_equal.
    unfold add_logs, add_log, failed_note, conflict_tip. cbn. f_equal.
    now rewrite <- app_assoc. }
  split; [now rewrite Hinstall |].
  assert (Hlog : exists evs, log s3 = (log s ++ evs)%list).
  { replace s3 with (snd (stream_answering E process s2)) by (now rewrite Hread).
    rewrite stream_answering_spec. subst s2. cbn [snd log add_logs add_log set_dirs].
    eexists. rewrite <- !app_assoc. reflexivity. }
  destruct Hlog as [evs Hlog]. exists evs.
  unfold emitted. rewrite Hinstall. unfold add_logs at 1. cbn [snd log].
  rewrite Hlog, <- app_assoc, !drop_app_length. reflexivity.
Qed.

End FailureTip.

(* ------------------------------------------------------------------ *)
(** ** [get_sudo_password]: what every call leaves behind *)
(* ------------------------------------------------------------------ *)

Section NextStep.

Variable E : Env.
Variable path : option string.

Lemma once_try_except f {A} (m : M A) h :
  once f m -> (forall e, once f (h e)) -> once f (try_except m h).
Proof.
  intros Hm Hh s. unfold try_except. destruct (Hm s) as (e1 & Hl1 & H1).
  destruct (m s) as [[a|e] s1]; cbn [fst snd] in *.
  - now exists e1.
  - destruct (Hh e s1) as (e2 & Hl2 & H2). exists (e1 ++ e2)%list.
    split; [now rewrite Hl2, Hl1, app_assoc |].
    rewrite List.filter_app, H1. exact H2.
Qed.

Lemma once_then_ret f {A B} (m : M A) (b : B) :
  once f m -> once f (bind m (fun _ => ret b)).
Proof.
  intros Hm s. unfold bind. destruct (Hm s) as (e1 & Hl1 & H1).
  destruct (m s) as [[a|e] s1]; cbn [fst snd] in *; exists e1; now split.
Qed.

Ltac next_walk :=
  repeat first
    [ apply once_emit; reflexivity
    | apply once_bind_step;
        [ first [ apply only_emit; reflexivity
                | apply only_popen; reflexivity
                | apply only_communicate; reflexivity ]
        | intros ? ]
    | match goal with |- once _ (if ?b then _ else _) => destruct b end
    | match goal with |- once _ (match ?x with _ => _ end) => destruct x end ].

Lemma once_validate_password password :
  once is_next (validate_password E path password).
Proof.
  unfold validate_password, authentication_failed, continue_flow, console_append.
  apply once_try_except; [| intros e]; cbv zeta; next_walk.
Qed.

Lemma validate_password_total password s :
  fst (validate_password E path password s) = Ok tt.
Proof.
  unfold validate_password, try_except.
  match goal with |- context [match ?m s with _ => _ end] => destruct (m s) as [[[]|e] s1] end;
    reflexivity.
Qed.

Lemma once_get_sudo_password old : once is_next (get_sudo_password E path old).
Proof.
  unfold get_sudo_password, console_append.
  apply once_bind_step.
  { apply only_silent. intros s. reflexivity. }
  intros [password|].
  - apply once_bind_step; [apply only_emit; reflexivity | intros _].
    apply once_then_ret.
    destruct (negb (PyStr.truthy (PyStr.strip password)));
      [next_walk | apply once_validate_password].
  - apply once_bind_step; [apply only_emit; reflexivity | intros _].
    apply once_then_ret. apply once_emit. reflexivity.
Qed.

(** X12: a call of [get_sudo_password] never raises and hands over exactly
    once: among the events it adds there is one timer shot or one quit of
    the application, never both and never none.  The password typed into an
    accepted dialog is stored whether or not it passes the validation; a
    cancelled dialog leaves the stored password as it was. *)
Theorem every_prompt_hands_over_once (old : option string) (s : State) :
  fst (get_sudo_password E path old s)
    = Ok (match env_dialog E s with Some password => Some password | None => old end) /\
  List.length (List.filter is_next (emitted (get_sudo_password E path old) s)) = 1%nat.
Proof.
  assert (Hres : fst (get_sudo_password E path old s)
            = Ok (match env_dialog E s with Some password => Some password | None => old end)).
  { unfold get_sudo_password. unfold bind at 1.
    destruct (env_dialog E s) as [password|]; [| reflexivity].
    unfold bind at 1. unfold console_append at 1, emit, modify.
    unfold bind at 1.
    destruct (negb (PyStr.truthy (PyStr.strip password))); [reflexivity |].
    pose proof (validate_password_total password
                  (add_log (ConsoleAppend (Glyph.lock +:+ " Validating administrator credentials..."))
                     s)) as Hv.
    destruct (validate_password E path password _) as [[[]|e] s1];
      [reflexivity | discriminate]. }
  split; [exact Hres |].
  destruct (once_get_sudo_password old s) as (evs & Hl & H).
  rewrite (emitted_of_log _ _ _ Hl). now rewrite Hres in H.
Qed.

End NextStep.

Lemma failed_install_names_the_conflict_witness :
  fst (install_arch_package Scenario.env_conflict Scenario.worker Scenario.package
         Scenario.prepared) = Ok false /\
  exists before,
    emitted (install_arch_package Scenario.env_conflict Scenario.worker Scenario.package)
            Scenario.prepared
      = (before ++ [failed_note 1; conflict_tip])%list.
Proof.
  pose (argv := "sudo" :: "-S" :: pacman_cmd Scenario.package).
  pose (s2 := add_logs [Spawned argv; StdinWrite argv ("secret" +:+ PyStr.nl)]
                (add_log (running_note Scenario.package) Scenario.prepared)).
  apply (failed_install_names_the_conflict Scenario.env_conflict Scenario.worker
           Scenario.package Scenario.prepared
           (snd (stream_answering Scenario.env_conflict
                   (mkProcess argv Scenario.conflicted) s2))
           "secret" Scenario.conflicted
           ["error: failed to commit transaction (Conflicting Files)"]
           "error: failed to commit transaction (Conflicting Files)").
  - repeat split; reflexivity.
  - vm_compute. reflexivity.
  - discriminate.
  - left. reflexivity.
  - vm_compute. reflexivity.
Defined.

(* ------------------------------------------------------------------ *)
(** ** File names: what debtap is run on *)
(* ------------------------------------------------------------------ *)

Section FileNames.

Import PyStr.

Lemma split_nonempty sep s : exists h t, split sep s = h :: t.
Proof.
  destruct s as [|c r]; [now exists EmptyString, [] |].
  cbn [split]. destruct (Ascii.eqb c sep); [now eexists _, _ |].
  destruct (split sep r); now eexists _, _.
Qed.

Lemma contains_char_cons sep c r :
  contains (String sep EmptyString) (String c r)
    = Ascii.eqb sep c || contains (String sep EmptyString) r.
Proof.
  change (contains (String sep EmptyString) (String c r))
    with (startswith (String sep EmptyString) (String c r)
          || contains (String sep EmptyString) r).
  cbn [startswith]. now rewrite andb_true_r.
Qed.

Lemma hd_split sep s :
  let h := hd EmptyString (split sep s) in
  contains (String sep EmptyString) h = false /\
  (s = h \/ exists rest, s = h +:+ String sep rest).
Proof.
  induction s as [|c r IH]; [split; [reflexivity | now left] |].
  cbn [split]. destruct (Ascii.eqb c sep) eqn:Hc.
  - apply Ascii.eqb_eq in Hc as ->. split; [reflexivity |]. right. now exists r.
  - destruct (split_nonempty sep r) as (h & t & Hr). rewrite Hr in *. cbn [hd] in *.
    destruct IH as [Hno Hr']. split.
    + rewrite contains_char_cons, Hno, Ascii.eqb_sym, Hc. reflexivity.
    + destruct Hr' as [-> | [rest ->]]; [now left | right; now exists rest].
Qed.

Lemma last_split sep s :
  contains (String sep EmptyString) (List.last (split sep s) EmptyString) = false.
Proof.
  induction s as [|c r IH]; [reflexivity |].
  cbn [split]. destruct (split_nonempty sep r) as (h & t & Hr). rewrite Hr in *.
  destruct (Ascii.eqb c sep) eqn:Hc.
  - exact IH.
  - destruct t as [|h' t']; [| exact IH].
    cbn [List.last] in *. now rewrite contains_char_cons, IH, Ascii.eqb_sym, Hc.
Qed.

Lemma split_whole sep s :
  contains (String sep EmptyString) s = false -> split sep s = [s].
Proof.
  induction s as [|c r IH]; [reflexivity |].
  rewrite contains_char_cons. intros H. apply orb_false_iff in H as [Hc Hr].
  cbn [split]. rewrite Ascii.eqb_sym, Hc, (IH Hr). reflexivity.
Qed.

Lemma split_app_sep sep a b :
  split sep (a +:+ String sep b) = (split sep a ++ split sep b)%list.
Proof.
  induction a as [|c r IH].
  - change (split sep (String sep b) = EmptyString :: split sep b).
    cbn [split]. now rewrite Ascii.eqb_refl.
  - change (split sep (String c (r +:+ String sep b))
            = (split sep (String c r) ++ split sep b)%list).
    cbn [split]. rewrite IH. destruct (Ascii.eqb c sep); [reflexivity |].
    destruct (split_nonempty sep r) as (h & t & ->). reflexivity.
Qed.

Lemma last_app_nonempty {A} (l1 l2 : list A) d :
  l2 <> [] -> List.last (l1 ++ l2) d = List.last l2 d.
Proof.
  intros H. induction l1 as [|x l1 IH]; [reflexivity |].
  cbn [app]. destruct (l1 ++ l2)%list eqn:Hl; [| exact IH].
  apply app_eq_nil in Hl as [_ ->]. now destruct H.
Qed.

Lemma basename_after_slash a b : basename (a +:+ String "/" b) = basename b.
Proof.
  unfold basename. rewrite split_app_sep. apply last_app_nonempty.
  destruct (split_nonempty "/" b) as (h & t & ->). discriminate.
Qed.

Lemma basename_whole b : contains "/" b = false -> basename b = b.
Proof. intros H. unfold basename. now rewrite (split_whole "/" b H). Qed.

Lemma basename_no_slash p : contains "/" (basename p) = false.
Proof. apply (last_split "/"). Qed.

Lemma endswith_char sep a :
  endswith (String sep EmptyString) a = true -> exists a', a = a' +:+ String sep EmptyString.
Proof.
  induction a as [|c r IH]; [discriminate |].
  cbn [endswith]. intros H. apply orb_true_iff in H as [H | H].
  - apply String.eqb_eq in H as <-. now exists EmptyString.
  - destruct (IH H) as [a' ->]. now exists (String c a').
Qed.

Lemma append_assoc_cons a c b :
  (a +:+ String c EmptyString) +:+ b = a +:+ String c b.
Proof.
  induction a as [|x r IH]; [reflexivity |].
  change (String x ((r +:+ String c EmptyString) +:+ b) = String x (r +:+ String c b)).
  now rewrite IH.
Qed.

Lemma basename_path_join a b :
  contains "/" b = false -> basename (path_join a b) = b.
Proof.
  intros Hb. unfold path_join.
  assert (Hs : startswith "/" b = false).
  { destruct (startswith "/" b) eqn:H; [| reflexivity].
    now rewrite (contains_start _ _ H) in Hb. }
  rewrite Hs. destruct (truthy a && negb (endswith "/" a)) eqn:Hcase.
  - change (a +:+ "/" +:+ b) with (a +:+ String "/" b).
    now rewrite basename_after_slash, basename_whole.
  - destruct a as [|c r]; [now apply basename_whole |].
    cbn [truthy andb] in Hcase. apply negb_false_iff in Hcase.
    destruct (endswith_char _ _ Hcase) as [a' ->].
    now rewrite append_assoc_cons, basename_after_slash, basename_whole.
Qed.

(** X13: the package name that [convert_deb_package] answers debtap with is
    the file name of the package up to its first underscore: it holds no
    underscore, and the file name is the name itself or the name, an
    underscore and what follows. *)
Theorem package_name_is_cut_at_first_underscore (temp_deb_path : string) :
  let name := package_name_of temp_deb_path in
  contains "_" name = false /\
  (basename temp_deb_path = name
   \/ exists rest, basename temp_deb_path = name +:+ "_" +:+ rest).
Proof. apply (hd_split "_" (basename temp_deb_path)). Qed.

(** The copy in the working directory keeps the file name of the input,
    whatever the working directory is called. *)
Lemma copy_keeps_the_file_name (work_dir deb_file_path : string) :
  let temp_deb_path := path_join work_dir (basename deb_file_path) in
  contains "/" (basename deb_file_path) = false /\
  debtap_cmd temp_deb_path = ["debtap"; "-Q"; basename deb_file_path] /\
  package_name_of temp_deb_path = package_name_of deb_file_path.
Proof.
  pose proof (basename_no_slash deb_file_path) as Hb.
  cbv zeta. unfold debtap_cmd, package_name_of.
  rewrite (basename_path_join work_dir _ Hb). now repeat split.
Qed.

End FileNames.

(* ------------------------------------------------------------------ *)
(** ** A whole run: the progress bar, and a run without a password *)
(* ------------------------------------------------------------------ *)

Section RunMilestones.

Variable E : Env.
Variable self : Worker.

(** X15: the progress bar reaches 100 in a run exactly when the run reports
    success: no failed run fills the bar, and no successful one leaves it
    short. *)
Theorem progress_is_full_iff_success (s : State) :
  reports_complete (emitted (run E self) s) = reports_success (emitted (run E self) s).
Proof.
  destruct (agree_run E self s) as (evs & Hl & H).
  now rewrite (emitted_of_log _ _ _ Hl).
Qed.

Lemma pacman_needs_password package_path s :
  pacman_succeeds E self package_path s -> has_password self.
Proof.
  intros (process & s2 & Hrun & _).
  destruct (run_sudo_command_cases E self (pacman_cmd package_path)
              (add_log (running_note package_path) s))
    as [H | [[e H] | [[_ [e H]] | (c & pw & Hpw & Ht & _)]]];
    try (rewrite H in Hrun; discriminate).
  now exists pw.
Qed.

(** X16: a worker that was given no password, or an empty one, never
    reports success, and the only processes its run starts with
    [subprocess.Popen] are debtap on the package: no sudo command line is
    started.  (The look-ups with [which] go through [subprocess.run] and
    are not among the events.) *)
Theorem run_without_password_cannot_succeed (s : State) :
  ~ has_password self ->
  reports_success (emitted (run E self) s) = false /\
  forall argv, In (Spawned argv) (emitted (run E self) s) -> to_debtap argv.
Proof.
  intros Hno. split.
  - destruct (vouched_run E self s) as (evs & Hl & H).
    rewrite (emitted_of_log _ _ _ Hl).
    destruct (reports_success evs); [| reflexivity].
    destruct (H eq_refl) as (p & s1 & _ & _ & Hp & _).
    destruct Hno. exact (pacman_needs_password _ _ Hp).
  - intros argv Hin.
    destruct (only_new _ _ _ _ (only_run E self) Hin) as [[_ Hpw] | Hd];
      [now destruct Hno | exact Hd].
Qed.

End RunMilestones.

Lemma run_without_password_cannot_succeed_witness :
  reports_success (emitted (run Scenario.env_success Scenario.worker_locked) Scenario.start)
    = false /\
  forall argv,
    In (Spawned argv) (emitted (run Scenario.env_success Scenario.worker_locked) Scenario.start)
    -> to_debtap argv.
Proof.
  apply (run_without_password_cannot_succeed Scenario.env_success Scenario.worker_locked
           Scenario.start).
  intros (pw & Hpw & _). discriminate Hpw.
Defined.

(* ------------------------------------------------------------------ *)
(** ** [get_sudo_password]: when the application quits *)
(* ------------------------------------------------------------------ *)

Section Quit.

Import PyStr.

Variable E : Env.
Variable path : option string.

Lemma since_refl f s : since f s s.
Proof. exists []. split; [now rewrite app_nil_r | constructor]. Qed.

Lemma since_add_log f s0 s ev :
  f ev = false -> since f s0 s -> since f s0 (add_log ev s).
Proof.
  intros Hev (pre & Hl & Hq). exists (pre ++ [ev])%list. split.
  - cbn. now rewrite Hl, app_assoc.
  - apply Forall_app. split; [exact Hq | now constructor].
Qed.

Lemma since_probed f s0 s argv input c :
  f (Spawned argv) = false -> f (StdinWrite argv input) = false ->
  since f s0 s -> since f s0 (probed E argv input c s).
Proof.
  intros Hsp Hw H. unfold probed. cbv zeta.
  pose proof (since_add_log f s0 s _ Hsp H) as H2.
  destruct (env_stdin_ok E argv input (add_log (Spawned argv) s)).
  - destruct (since_add_log f s0 _ _ Hw H2) as (pre & Hl & Hq).
    exists pre. split; [exact Hl | exact Hq].
  - destruct H2 as (pre & Hl & Hq). exists pre. split; [exact Hl | exact Hq].
Qed.

Lemma absent_after f {A} (m : M A) s0 s ev :
  f ev = true -> since f s0 s -> only (other_than f) m ->
  ~ In ev (drop (List.length (log s0)) (log (snd (m s)))).
Proof.
  intros Hev (pre & Hl & Hq) Hm. destruct (Hm s) as (evs & Hl' & Hq').
  rewrite Hl', Hl, <- app_assoc, drop_app_length. intros Hin.
  apply in_app_or in Hin. rewrite Forall_forall in Hq, Hq'.
  destruct Hin as [Hin | Hin]; apply list_elem_of_In in Hin;
    [apply Hq in Hin | apply Hq' in Hin]; unfold other_than in Hin; congruence.
Qed.

Ltac calm :=
  repeat first
    [ apply only_ret
    | apply only_emit; reflexivity
    | apply only_popen; reflexivity
    | apply only_communicate; reflexivity
    | apply only_try_except; [| intros ?]
    | apply only_bind; [| intros ?]
    | match goal with |- only _ (if ?b then _ else _) => destruct b end
    | match goal with |- only _ (match ?x with _ => _ end) => destruct x end ].

Lemma three_more {A} (l : list A) a b c :
  (((l ++ [a]) ++ [b]) ++ [c] = l ++ [a; b; c])%list.
Proof. now rewrite <- !app_assoc. Qed.

Lemma authentication_failed_run stderr s :
  exists note box,
    authentication_failed stderr s
      = (Ok tt, add_logs [note; box;
                          if denies stderr then AppQuit else SingleShot 500 GetSudoPassword] s)
    /\ is_quit note = false /\ is_quit box = false.
Proof.
  unfold authentication_failed, denies. fold (error_text stderr). cbv zeta.
  destruct (contains "incorrect password" (lower (error_text stderr))
            || contains "sorry" (lower (error_text stderr)));
    [| destruct (contains "not in the sudoers file" (lower (error_text stderr)))];
    eexists _, _;
    (split;
     [ unfold bind, console_append, emit, modify, add_logs, add_log; cbn;
       rewrite three_more; reflexivity
     | split; reflexivity ]).
Qed.

Lemma validate_password_quits password s0 s1 :
  since is_quit s0 s1 ->
  In AppQuit (drop (List.length (log s0)) (log (snd (validate_password E path password s1))))
  <-> exists c,
        env_popen E sudo_validate s1 = Ok c /\
        c_comm_error c = None /\
        c_returncode c <> 0 /\
        denies (c_stderr c) = true.
Proof.
  intros Hq0. unfold validate_password. fold sudo_validate sudo_whoami.
  destruct (env_popen E sudo_validate s1) as [c1|e1] eqn:Hp1.
  2: { erewrite try_except_bind_raise by (apply (popen_raise E); exact Hp1).
       split.
       - intros H. exfalso. revert H.
         apply (absent_after is_quit); [reflexivity | exact Hq0 |].
         unfold console_append. calm.
       - intros (c & Hc & _). discriminate. }
  erewrite try_except_bind_run by (apply (popen_ok E); exact Hp1).
  assert (Hq1 : since is_quit s0 (probed E sudo_validate (password +:+ nl) c1 s1))
    by (now apply since_probed).
  destruct (c_comm_error c1) as [msg1|] eqn:Herr1.
  { erewrite try_except_bind_raise by (rewrite communicate_probe, Herr1; reflexivity).
    split.
    - intros H. exfalso. revert H.
      apply (absent_after is_quit); [reflexivity | exact Hq1 |].
      unfold console_append. calm.
    - intros (c & Hc & Hn & _). congruence. }
  erewrite try_except_bind_run by (rewrite communicate_probe, Herr1; reflexivity).
  cbn [p_child snd fst].
  destruct (c_returncode c1 =? 0) eqn:Hrc1.
  { apply Z.eqb_eq in Hrc1. split.
    - intros H. exfalso. revert H.
      apply (absent_after is_quit); [reflexivity | exact Hq1 |].
      unfold console_append, continue_flow. calm.
    - intros (c & Hc & _ & Hnz & _). congruence. }
  apply Z.eqb_neq in Hrc1.
  destruct (authentication_failed_run (c_stderr c1)
              (probed E sudo_validate (password +:+ nl) c1 s1))
    as (note & box & Hrun & Hnote & Hbox).
  unfold try_except. rewrite Hrun. cbn [snd].
  destruct Hq1 as (pre & Hl & Hpre). unfold add_logs. cbn [log].
  rewrite Hl, <- app_assoc, drop_app_length. split.
  - intros Hin. exists c1. repeat split; try assumption.
    destruct (denies (c_stderr c1)); [reflexivity |]. exfalso.
    apply in_app_or in Hin. destruct Hin as [Hin | Hin].
    + rewrite Forall_forall in Hpre. apply list_elem_of_In, Hpre in Hin. discriminate Hin.
    + destruct Hin as [-> | [-> | [H | []]]]; discriminate.
  - intros (c & Hc & _ & _ & Hd). injection Hc as <-. rewrite Hd.
    apply in_or_app. right. right. right. now left.
Qed.

(** X17: a call of [get_sudo_password] ends the application in exactly two
    cases: the dialog is cancelled, or [sudo -S -v], run for a password that
    is not blank, exits with a status other than zero and its error output
    names the sudoers file without saying "incorrect password" or "sorry".
    Every other failure leaves the application running. *)
Theorem prompt_quits_only_when_cancelled_or_denied (old : option string) (s : State) :
  In AppQuit (emitted (get_sudo_password E path old) s) <-> quits E s.
Proof.
  unfold emitted, get_sudo_password, quits.
  destruct (env_dialog E s) as [password|] eqn:Hdialog.
  2: { rewrite (bind_run _ _ _ None s) by (now rewrite Hdialog).
       cbn. rewrite <- !app_assoc, drop_app_length. split; [now left |].
       intros _. right. now left. }
  rewrite (bind_run _ _ _ (Some password) s) by (now rewrite Hdialog).
  rewrite (bind_run _ _ _ _ _ (console_append_run _ _)). fold validating_note.
  rewrite truthy_strip, truthy_rstrip_all_space, negb_involutive.
  destruct (all_space password) eqn:Hblank.
  - cbn. rewrite <- !app_assoc, drop_app_length. split.
    + intros [H | [H | [H | []]]]; discriminate.
    + intros [H | (pw & c & Hpw & Hb & _)]; [discriminate |].
      injection Hpw as <-. congruence.
  - assert (Hq : since is_quit s (add_log validating_note s))
      by (apply since_add_log; [reflexivity | apply since_refl]).
    pose proof (validate_password_quits password s _ Hq) as Hv.
    assert (Hlog : log (snd ((validate_password E path password ;; ret (Some password))
                               (add_log validating_note s)))
                   = log (snd (validate_password E path password (add_log validating_note s)))).
    { unfold bind.
      destruct (validate_password E path password (add_log validating_note s))
        as [[[]|e] s9]; reflexivity. }
    rewrite Hlog, Hv. split.
    + intros (c & Hc & Hn & Hz & Hd). right. now exists password, c.
    + intros [H | (pw & c & Hpw & _ & Hc & Hn & Hz & Hd)]; [discriminate |].
      now exists c.
Qed.

End Quit.

(* ------------------------------------------------------------------ *)
(** ** A whole run: exceptions, and the order of result and cleanup *)
(* ------------------------------------------------------------------ *)

Section RunResult.

Variable E : Env.
Variable self : Worker.

Lemma run_emitted s :
  emitted (run E self) s
    = (emitted (try_except (run_body E self) (run_except E)) (started E s)
       ++ emitted (cleanup E) (before_cleanup E self s))%list.
Proof.
  unfold emitted at 1. rewrite run_log.
  assert (Hmid : exists e1,
            log (snd (try_except (run_body E self) (run_except E) (started E s)))
              = (log (started E s) ++ e1)%list).
  { unfold try_except. destruct (reports_run_body E self (started E s)) as (e1 & Hl1 & _).
    destruct (run_body E self (started E s)) as [[[]|e] s1]; cbn [fst snd] in *.
    - now exists e1.
    - destruct (run_except_run E e s1) as (t & ->). cbn [snd].
      unfold add_logs. cbn [log]. rewrite Hl1, <- app_assoc. now eexists. }
  destruct Hmid as (e1 & Hl1).
  destruct (only_cleanup E (fun _ => True) (fun _ => I) (fun _ => I)
              (before_cleanup E self s)) as (e2 & Hl2 & _).
  rewrite (emitted_of_log _ _ _ Hl1), (emitted_of_log _ _ _ Hl2), Hl2.
  unfold before_cleanup. fold (started E s). rewrite Hl1.
  change (log (started E s)) with (log s).
  now rewrite <- app_assoc, drop_app_length.
Qed.

(** X18: an exception that escapes the [try] block of [run] is reported as
    a failure that carries its text: the one result of the run is
    [finished] with [False] and the message "Error after ...s: " followed
    by the text of the exception. *)
Theorem exceptions_are_reported_as_failures (s : State) (e : Exn) :
  fst (run_body E self (started E s)) = Raise e ->
  exists total_time, results (emitted (run E self) s) = [error_result E total_time e].
Proof.
  intros Hraise. rewrite run_emitted.
  destruct (only_no_result_cleanup E (before_cleanup E self s)) as (e3 & Hl3 & H3).
  rewrite (emitted_of_log _ _ _ Hl3), results_app, (results_none _ H3), app_nil_r.
  unfold emitted, try_except.
  destruct (reports_run_body E self (started E s)) as (e1 & Hl1 & H1).
  destruct (run_body E self (started E s)) as [[[]|e'] s1]; cbn [fst snd] in *;
    [discriminate |]. injection Hraise as ->.
  destruct (run_except_run E e s1) as (t & ->). exists t. cbn [snd].
  unfold add_logs. cbn [log]. rewrite Hl1.
  change (log (started E s)) with (log s).
  rewrite <- app_assoc, drop_app_length, results_app.
  unfold results at 1. rewrite H1. reflexivity.
Qed.

(** X19: the result of a run is emitted before the [finally] block starts:
    what the run adds to the log is some events, then the result, then
    what the [finally] block adds, the removal of the working directory
    included. *)
Theorem result_comes_before_cleanup (s : State) :
  exists before ok msg,
    emitted (run E self) s
      = (before ++ Finished ok msg :: emitted (cleanup E) (before_cleanup E self s))%list.
Proof.
  rewrite run_emitted.
  assert (Hmid : exists before ok msg,
            emitted (try_except (run_body E self) (run_except E)) (started E s)
              = (before ++ [Finished ok msg])%list).
  { unfold emitted, try_except.
    destruct (ends_run_body E self (started E s)) as (e1 & Hl1 & H1).
    destruct (run_body E self (started E s)) as [[[]|e] s1]; cbn [fst snd] in *.
    - destruct H1 as (before & ok & msg & ->). exists before, ok, msg.
      now rewrite Hl1, drop_app_length.
    - destruct (run_except_run E e s1) as (t & ->). cbn [snd].
      eexists (e1 ++ [_])%list, false, _.
      unfold add_logs, error_result. cbn [log]. rewrite Hl1.
      now rewrite <- !app_assoc, drop_app_length. }
  destruct Hmid as (before & ok & msg & ->). exists before, ok, msg.
  now rewrite <- app_assoc.
Qed.

End RunResult.

Lemma exceptions_are_reported_as_failures_witness :
  exists total_time,
    results (emitted (run Scenario.env_copy_fails Scenario.worker) Scenario.start)
      = [error_result Scenario.env_copy_fails total_time
           (Error "[Errno 28] No space left on device")].
Proof.
  apply (exceptions_are_reported_as_failures Scenario.env_copy_fails Scenario.worker
           Scenario.start).
  vm_compute. reflexivity.
Defined.

(* ------------------------------------------------------------------ *)
(** ** The estimate shown for a file *)
(* ------------------------------------------------------------------ *)

Section EstimateInBytes.

Lemma conversion_time_bytes (bytes : Z) :
  0 <= bytes -> conversion_time (file_size_mb bytes) = Z.max 10 (bytes / 524288).
Proof.
  intros H. unfold conversion_time, py_int, file_size_mb. cbn [Qmult Qnum Qden].
  rewrite Z.quot_div_nonneg by lia. f_equal.
  change (Z.pos (1048576 * 1)) with (524288 * 2).
  apply Z.div_mul_cancel_r; lia.
Qed.

Lemma install_time_bytes (bytes : Z) :
  0 <= bytes -> install_time (file_size_mb bytes) = Z.max 5 (bytes / 2097152).
Proof.
  intros H. unfold install_time, py_int, file_size_mb. cbn [Qmult Qnum Qden].
  rewrite Z.quot_div_nonneg by lia. f_equal.
  change (Z.pos (1048576 * 2)) with 2097152. now rewrite Z.mul_1_r.
Qed.

(** X20: for files of up to 2^53 bytes, whose sizes the floating-point
    division of the source carries without rounding, the estimate [run]
    shows for a file of [bytes] bytes is
    max(10, bytes div 2^19) + max(5, bytes div 2^21) + 5 seconds: it is
    never below 20 seconds and it does not go down when the file grows. *)
Theorem estimate_grows_with_the_file (bytes more : Z) :
  0 <= bytes -> bytes <= more -> more <= 9007199254740992 ->
  total_estimated (file_size_mb bytes)
    = Z.max 10 (bytes / 524288) + Z.max 5 (bytes / 2097152) + 5 /\
  20 <= total_estimated (file_size_mb bytes) /\
  total_estimated (file_size_mb bytes) <= total_estimated (file_size_mb more).
Proof.
  intros H0 Hle _. unfold total_estimated.
  rewrite !conversion_time_bytes, !install_time_bytes by lia.
  split; [reflexivity |]. split; [lia |].
  pose proof (Z.div_le_mono bytes more 524288 ltac:(lia) Hle).
  pose proof (Z.div_le_mono bytes more 2097152 ltac:(lia) Hle).
  lia.
Qed.

Lemma estimate_grows_with_the_file_witness :
  total_estimated (file_size_mb 10485760) = 30 /\
  20 <= total_estimated (file_size_mb 10485760) /\
  total_estimated (file_size_mb 10485760) <= total_estimated (file_size_mb 20971520).
Proof.
  destruct (estimate_grows_with_the_file 10485760 20971520) as (Heq & Hlow & Hmono);
    [lia | lia | lia |].
  split; [rewrite Heq; reflexivity | split; assumption].
Defined.

End EstimateInBytes.

(* ------------------------------------------------------------------ *)
(** ** A whole run: what debtap is run on *)
(* ------------------------------------------------------------------ *)

Section InputName.

Variable E : Env.
Variable self : Worker.

Section BehindSudo.

(** The steps that work behind sudo only: every kind of event that holds
    the log lines, the sudo command lines and what is written to them. *)
Variable Q : Event -> Prop.
Hypothesis HQc : forall msg, Q (ConsoleOutput msg).
Hypothesis HQs : forall cmd, Q (Spawned ("sudo" :: "-S" :: cmd)).
Hypothesis HQw : forall cmd data, Q (StdinWrite ("sudo" :: "-S" :: cmd) data).

Lemma sudo_bind_run_sudo {B} cmd (k : option Process -> M B) :
  (forall c, only Q (k (Some (mkProcess ("sudo" :: "-S" :: cmd) c)))) ->
  only Q (k None) ->
  only Q (bind (run_sudo_command E self cmd) k).
Proof.
  intros Hsome Hnone s. unfold bind at 1.
  destruct (run_sudo_command_cases E self cmd s)
    as [-> | [[e ->] | [[_ [e ->]] | (c & pw & _ & _ & _ & ->)]]].
  - exact (Hnone s).
  - exists []. cbn. rewrite app_nil_r. split; [reflexivity | constructor].
  - eexists [_]. split; [reflexivity |]. constructor; [apply HQs | constructor].
  - destruct (Hsome c (add_logs [Spawned ("sudo" :: "-S" :: cmd);
                                  StdinWrite ("sudo" :: "-S" :: cmd) (pw +:+ PyStr.nl)] s))
      as (evs & Hl & Hall).
    eexists (_ :: _ :: evs). rewrite Hl. cbn. rewrite <- app_assoc. split; [reflexivity |].
    constructor; [apply HQs |]. constructor; [apply HQw | exact Hall].
Qed.

Ltac sudo_side := first [apply HQc | apply HQs | apply HQw].

Ltac sudo_steps :=
  repeat first
    [ apply only_ret | apply only_raise
    | apply only_console; sudo_side
    | apply only_which | apply only_getsize | apply only_now | apply only_get_state
    | apply only_process_exited | apply only_path_exists
    | apply only_stdin_write; sudo_side
    | apply only_when
    | apply only_for_each; intros ?
    | apply only_collect; intros ?
    | apply sudo_bind_run_sudo; [intros ? |]
    | apply only_try_except; [| intros ?]
    | apply only_bind; [| intros ?]
    | match goal with |- only _ (if ?b then _ else _) => destruct b end
    | match goal with |- only _ (match ?x with _ => _ end) => destruct x end ].

Lemma sudo_stream_redacted process : only Q (stream_redacted process).
Proof. unfold stream_redacted, redacted_line, redacted_rest. sudo_steps. Qed.

Lemma sudo_update_database : only Q (update_database E self).
Proof.
  unfold update_database.
  apply only_bind; [sudo_steps | intros _].
  apply only_try_except; [| intros e; sudo_steps].
  apply sudo_bind_run_sudo; [intros c | sudo_steps].
  apply only_bind; [apply sudo_stream_redacted | intros _]. sudo_steps.
Qed.

Lemma sudo_try_manager cand : only Q (try_manager E self cand).
Proof.
  destruct cand as [cmd name]. unfold try_manager.
  apply only_try_except; [| intros e; sudo_steps].
  apply only_bind; [unfold first_arg; sudo_steps | intros cmd0].
  apply only_bind; [sudo_steps | intros rc].
  destruct (negb (rc =? 0)); [sudo_steps |].
  apply only_bind; [sudo_steps | intros _].
  apply sudo_bind_run_sudo; [intros c | sudo_steps].
  apply only_bind; [apply sudo_stream_redacted | intros _].
  cbv zeta. destruct (_ =? 0); [| sudo_steps].
  apply only_bind; [sudo_steps | intros _].
  apply only_bind; [sudo_steps | intros vrc].
  destruct (vrc =? 0); [| sudo_steps].
  apply only_bind; [sudo_steps | intros _].
  apply only_bind; [apply sudo_update_database | intros _]. sudo_steps.
Qed.

Lemma sudo_try_managers cands : only Q (try_managers E self cands).
Proof.
  induction cands as [|cand rest IH]; [apply only_ret |].
  cbn [try_managers]. apply only_bind; [apply sudo_try_manager | intros []];
    [apply only_ret | exact IH].
Qed.

Lemma sudo_install_debtap : only Q (install_debtap E self).
Proof.
  unfold install_debtap. apply only_bind; [sudo_steps | intros _].
  apply only_bind; [apply sudo_try_managers | intros []]; [apply only_ret |].
  apply only_bind; [| intros _; apply only_ret].
  unfold report_managers, first_arg. sudo_steps.
Qed.

Lemma sudo_check_debtap : only Q (check_debtap E self).
Proof.
  unfold check_debtap. apply only_try_except.
  - apply only_bind; [sudo_steps | intros rc]. destruct (rc =? 0); [sudo_steps |].
    apply only_bind; [sudo_steps | intros _; apply sudo_install_debtap].
  - intros e. apply only_bind; [sudo_steps | intros _].
    apply only_bind; [sudo_steps | intros _; apply sudo_install_debtap].
Qed.

Lemma sudo_install_arch_package path : only Q (install_arch_package E self path).
Proof.
  unfold install_arch_package. apply only_try_except; [| intros e; sudo_steps].
  cbv zeta. apply only_bind; [sudo_steps | intros _].
  apply sudo_bind_run_sudo; [intros c | sudo_steps].
  apply only_bind; [| intros collected; unfold failure_tip; sudo_steps].
  unfold stream_answering, answer_line, remaining_lines. sudo_steps.
Qed.

End BehindSudo.

Section OnDebtap.

(** The conversion: every kind of event that holds the log lines and what
    is done to debtap on the given path. *)
Variable Q : Event -> Prop.
Variable temp_deb_path : string.
Hypothesis HQc : forall msg, Q (ConsoleOutput msg).
Hypothesis HQs : Q (Spawned (debtap_cmd temp_deb_path)).
Hypothesis HQw : Q (StdinWrite (debtap_cmd temp_deb_path) (default_answers temp_deb_path)).
Hypothesis HQk : Q (Killed (debtap_cmd temp_deb_path)).

Ltac debtap_side := first [apply HQc | exact HQs | exact HQw | exact HQk].

Lemma debtap_convert_deb_package : only Q (convert_deb_package E temp_deb_path).
Proof.
  unfold convert_deb_package, self_temp_dir.
  fold (debtap_cmd temp_deb_path). fold (package_name_of temp_deb_path).
  fold (default_answers temp_deb_path).
  repeat first
    [ apply only_ret | apply only_raise
    | apply only_console; debtap_side
    | apply only_get_state | apply only_listdir | apply only_getcwd | apply only_chdir
    | apply only_kill; debtap_side
    | apply only_communicate; debtap_side
    | apply only_when
    | apply only_for_each; intros ?
    | apply only_bind_popen; [debtap_side | intros ?]
    | apply only_try_except_timeout
    | apply only_try_except; [| intros ?]
    | apply only_bind; [| intros ?]
    | match goal with |- only _ (if ?b then _ else _) => destruct b end
    | match goal with |- only _ (match ?x with _ => _ end) => destruct x end ].
Qed.

End OnDebtap.

Lemma named_console msg : named_event self (ConsoleOutput msg).
Proof. exact I. Qed.

Lemma named_sudo cmd : named_event self (Spawned ("sudo" :: "-S" :: cmd)).
Proof. left. now exists cmd. Qed.

Lemma named_sudo_write cmd data :
  named_event self (StdinWrite ("sudo" :: "-S" :: cmd) data).
Proof. left. now exists cmd. Qed.

Lemma named_convert work_dir :
  only (named_event self)
    (convert_deb_package E (path_join work_dir (basename (deb_file_path self)))).
Proof.
  destruct (copy_keeps_the_file_name work_dir (deb_file_path self)) as (_ & Hcmd & Hname).
  cbv zeta in Hcmd, Hname.
  apply debtap_convert_deb_package.
  - intros msg. exact I.
  - right. exact Hcmd.
  - right. split; [exact Hcmd |]. unfold default_answers. now rewrite Hname.
  - exact Hcmd.
Qed.

Ltac named_step :=
  first
    [ apply sudo_check_debtap; [apply named_console | apply named_sudo | apply named_sudo_write]
    | apply named_convert
    | apply sudo_install_arch_package;
        [apply named_console | apply named_sudo | apply named_sudo_write]
    | apply only_console; exact I
    | apply only_elapsed_since
    | apply only_getsize | apply only_now | apply only_mkdtemp | apply only_copy2
    | apply only_get_state
    | apply only_modify; reflexivity
    | apply only_emit; exact I ].

Ltac named_walk :=
  repeat first
    [ apply only_bind; [named_step | intros ?]
    | named_step
    | match goal with |- only _ (if ?b then _ else _) => destruct b end
    | match goal with |- only _ (match ?x with _ => _ end) => destruct x end ].

Lemma named_run : only (named_event self) (run E self).
Proof.
  unfold run.
  apply only_bind; [apply only_now | intros t0].
  apply only_bind; [now apply only_modify | intros _].
  apply only_try_finally; [apply only_try_except |].
  - unfold run_body. cbv zeta. named_walk.
  - intros e. unfold run_except.
    apply only_bind; [apply only_get_state | intros st].
    apply only_bind; [| intros total_time; named_walk].
    destruct (start_time st) as [t1|]; [destruct (Qeq_bool t1 0) |];
      first [apply only_ret | apply only_elapsed_since].
  - apply only_cleanup; intros; exact I.
Qed.

(** X14: a run starts debtap on nothing but the file name of its input:
    every process it starts with [subprocess.Popen] is a sudo command line
    or [debtap -Q] followed by the base name of the input, a name without a
    slash; what it writes to that debtap is the part of the name before the
    first underscore and three newlines; and a process it kills is that
    debtap. *)
Theorem debtap_is_run_on_the_input_file_name (s : State) :
  let name := basename (deb_file_path self) in
  let cmd := ["debtap"; "-Q"; name] in
  PyStr.contains "/" name = false /\
  (forall argv, In (Spawned argv) (emitted (run E self) s) -> to_sudo argv \/ argv = cmd) /\
  (forall argv data,
     In (StdinWrite argv data) (emitted (run E self) s) ->
     to_sudo argv \/
     (argv = cmd /\
      data = hd "" (PyStr.split "_" name) +:+ PyStr.nl +:+ PyStr.nl +:+ PyStr.nl)) /\
  (forall argv, In (Killed argv) (emitted (run E self) s) -> argv = cmd).
Proof.
  cbv zeta. split; [apply basename_no_slash |].
  split; [| split].
  - intros argv H. exact (only_new _ _ _ _ named_run H).
  - intros argv data H. exact (only_new _ _ _ _ named_run H).
  - intros argv H. exact (only_new _ _ _ _ named_run H).
Qed.

End InputName.
